(** * Sharing in the SQL store: a shallow embedding of
      [txdav/common/datastore/sql_sharing.py]

    The Python module defines two mix-ins: [SharingHomeMixIn] (operations on
    a home, among them the cross-pod entry points) and [SharingMixIn]
    (operations on a home child: the owner's collection or a sharee's view
    of it).  Both are written with Twisted's [inlineCallbacks]; every
    [yield] is a sequencing point, so the code is embedded in a state and
    exception monad over an explicit [World]: the bind table, the homes with
    their in-memory child index, the notification collections, and a trace
    of the effects sent to collaborators (storage statements, cache
    invalidations, change notifications, conduit messages). *)

From Stdlib Require Import ZArith String List Sorting.Sorted Permutation.
From stdpp Require Import base gmap strings pretty list.

Local Open Scope Z_scope.

(** ** Data model *)

(** Modelled from the spec: the bind-mode constants imported from
    [txdav.common.datastore.sql_tables], which is not part of the sources at
    hand.  The spec lists the modes as a closed enumeration. *)
Inductive BindMode :=
| _BIND_MODE_OWN
| _BIND_MODE_READ
| _BIND_MODE_WRITE
| _BIND_MODE_DIRECT
| _BIND_MODE_INDIRECT.

(** Modelled from the spec: the bind-status constants imported from
    [txdav.common.datastore.sql_tables]. *)
Inductive BindStatus :=
| _BIND_STATUS_INVITED
| _BIND_STATUS_ACCEPTED
| _BIND_STATUS_DECLINED
| _BIND_STATUS_INVALID
| _BIND_STATUS_DELETED.

#[global] Instance BindMode_eq_dec : EqDecision BindMode.
Proof. solve_decision. Defined.

#[global] Instance BindStatus_eq_dec : EqDecision BindStatus.
Proof. solve_decision. Defined.

(** One row of the bind table; the fields are the columns named by
    [bindColumns]. *)
Record BindRow := mkBindRow {
  BIND_MODE : BindMode;
  HOME_RESOURCE_ID : Z;
  RESOURCE_ID : Z;
  EXTERNAL_ID : option Z;
  RESOURCE_NAME : string;
  BIND_STATUS : BindStatus;
  BIND_REVISION : Z;
  MESSAGE : option string
}.

(** The immutable part of a home object: its type, the UID of the principal
    it belongs to, its resource id and whether it is hosted on another pod.
    The mutable [_children] index lives in the [World]. *)
Record Home := mkHome {
  h_homeType : Z;
  h_uid : string;
  h_resourceID : Z;
  h_external : bool
}.

(** A home child object, with the attributes listed by [bindAttributes].
    [_ownerHome] is [None] when the owner's home could not be resolved when
    the object was loaded. *)
Record View := mkView {
  _home : Home;
  _ownerHome : option Home;
  _bindMode : BindMode;
  _resourceID : Z;
  _externalID : option Z;
  _name : string;
  _bindStatus : BindStatus;
  _bindRevision : Z;
  _bindMessage : option string
}.

(** [SharingInvitation], the named tuple. *)
Record SharingInvitation := mkSharingInvitation {
  inv_uid : string;
  inv_ownerUID : string;
  inv_ownerHomeID : Z;
  inv_shareeUID : string;
  inv_shareeHomeID : Z;
  inv_mode : BindMode;
  inv_status : BindStatus;
  inv_summary : option string
}.

(** Values stored in the notification dictionaries. *)
Inductive PyVal :=
| PyNone
| PyStr (s : string)
| PyMode (m : BindMode)
| PyStatus (s : BindStatus).

(** A dictionary literal with string keys, in the order it is written. *)
Definition PyDict := list (string * PyVal).

Fixpoint dict_get (k : string) (d : PyDict) : option PyVal :=
  match d with
  | [] => None
  | (k', v) :: d' => if String.eqb k k' then Some v else dict_get k d'
  end.

(** The [columnMap] dictionary of [updateShare]: at most the three columns
    [BIND_MODE], [BIND_STATUS] and [MESSAGE], each present or not. *)
Record ColumnMap := mkColumnMap {
  cm_BIND_MODE : option BindMode;
  cm_BIND_STATUS : option BindStatus;
  cm_MESSAGE : option string
}.

(** Truth value of the dictionary: non-empty. *)
Definition columnMap_nonempty (cm : ColumnMap) : bool :=
  match cm_BIND_MODE cm, cm_BIND_STATUS cm, cm_MESSAGE cm with
  | None, None, None => false
  | _, _, _ => true
  end.

(** Keys of [Home._children]: a child is filed under its name and under its
    resource id. *)
Definition ChildKey : Type := string + Z.

(** Keys handed to the query cacher by [invalidateQueryCache]. *)
Inductive CacheKey :=
| keyForHomeChildMetaData (resourceID : Z)
| keyForObjectWithName (homeID : Z) (name : string)
| keyForObjectWithResourceID (homeID : Z) (resourceID : Z)
| keyForObjectWithExternalID (homeID : Z) (externalID : option Z).

(** Effects on collaborators, recorded in the order they are issued. *)
Inductive Event :=
| SQLInsertBind (r : BindRow)
| SQLUpdateBindColumns (cm : ColumnMap) (resourceID homeID : Z)
| SQLUpdateBindRevision (revision resourceID homeID : Z)
| SQLUpdateMessage (message : option string) (resourceID homeID : Z)
| SQLDeleteBind (resourceID homeID : Z)
| InvalidateAfterCommit (k : CacheKey)
| NotifyPropertyChanged (homeID resourceID : Z)
| NotifyChanged (homeID : Z)
| InitSyncToken (homeID resourceID : Z)
| DeletedSyncToken (homeID resourceID : Z) (sharedRemoval : bool)
| NewShare (homeID resourceID : Z) (displayname : option string)
| WriteNotificationObject (principal nuid : string) (ntype ndata : PyDict)
| RemoveNotificationObjectWithUID (principal nuid : string)
| Send_shareinvite (homeType : Z) (ownerUID : string) (resourceID : Z)
    (resourceName shareeUID shareUID : string) (mode : BindMode)
    (message : option string) (copyProperties : list (string * string))
    (supported_components : PyVal)
| Send_shareuninvite (homeType : Z) (ownerUID : string) (resourceID : Z)
    (shareeUID shareUID : string)
| Send_sharereply (homeType : Z) (ownerUID shareeUID shareUID : string)
    (status : BindStatus) (summary : option string)
| SetSupportedComponents (resourceID : Z) (components : string)
| SetInviteCopyProperties (homeID resourceID : Z)
    (props : list (string * string))
| LogError (msg : string).

(** Exceptions that the module raises, catches or can run into. *)
Inductive Exn :=
| ExternalShareFailed (msg : string)
| HomeChildNameAlreadyExistsError (name : string)
| AllRetriesFailed
| IntegrityError
| AttributeError
| AssertionError (msg : string).

(** Modelled from the spec: what the deployment fixes and the collaborators
    answer.  [env_external uid] tells whether the principal is hosted on
    another pod (a home created for it is an external home);
    [env_queryCacher] is [txn._queryCacher is not None]; [env_retries] is the
    number of further attempts a sub-transaction makes after the first;
    [env_uuid4 n] is the value of the n-th call of [uuid4];
    [env_now] is the text of [DateTime.getNowUTC()];
    [env_hasSupportedComponents] tells whether the child class defines
    [getSupportedComponents] and [setSupportedComponents]. *)
Record Env := mkEnv {
  env_external : string -> bool;
  env_queryCacher : bool;
  env_retries : nat;
  env_uuid4 : nat -> string;
  env_now : string;
  env_hasSupportedComponents : bool
}.

(** The state the operations run against. *)
Record World := mkWorld {
  w_env : Env;
  w_binds : list BindRow;
  w_homes : list Home;
  w_children : gmap (Z * ChildKey) Z;
  w_notifications : gmap (string * string) (PyDict * PyDict);
  w_displayName : gmap (Z * Z) string;
  w_supportedComponents : gmap Z string;
  w_syncTokenRevision : gmap (Z * Z) Z;
  w_revisionSeq : Z;
  w_nextResourceID : Z;
  w_uuidCalls : nat;
  w_trace : list Event
}.

Definition setBinds (f : list BindRow -> list BindRow) (w : World) : World :=
  mkWorld (w_env w) (f (w_binds w)) (w_homes w) (w_children w)
    (w_notifications w) (w_displayName w) (w_supportedComponents w)
    (w_syncTokenRevision w) (w_revisionSeq w) (w_nextResourceID w)
    (w_uuidCalls w) (w_trace w).

Definition setHomes (f : list Home -> list Home) (w : World) : World :=
  mkWorld (w_env w) (w_binds w) (f (w_homes w)) (w_children w)
    (w_notifications w) (w_displayName w) (w_supportedComponents w)
    (w_syncTokenRevision w) (w_revisionSeq w) (w_nextResourceID w)
    (w_uuidCalls w) (w_trace w).

Definition setChildren
  (f : gmap (Z * ChildKey) Z -> gmap (Z * ChildKey) Z) (w : World) : World :=
  mkWorld (w_env w) (w_binds w) (w_homes w) (f (w_children w))
    (w_notifications w) (w_displayName w) (w_supportedComponents w)
    (w_syncTokenRevision w) (w_revisionSeq w) (w_nextResourceID w)
    (w_uuidCalls w) (w_trace w).

Definition setNotifications
  (f : gmap (string * string) (PyDict * PyDict) ->
       gmap (string * string) (PyDict * PyDict)) (w : World) : World :=
  mkWorld (w_env w) (w_binds w) (w_homes w) (w_children w)
    (f (w_notifications w)) (w_displayName w) (w_supportedComponents w)
    (w_syncTokenRevision w) (w_revisionSeq w) (w_nextResourceID w)
    (w_uuidCalls w) (w_trace w).

Definition setSupported (f : gmap Z string -> gmap Z string) (w : World)
  : World :=
  mkWorld (w_env w) (w_binds w) (w_homes w) (w_children w)
    (w_notifications w) (w_displayName w) (f (w_supportedComponents w))
    (w_syncTokenRevision w) (w_revisionSeq w) (w_nextResourceID w)
    (w_uuidCalls w) (w_trace w).

Definition setSyncTokens (f : gmap (Z * Z) Z -> gmap (Z * Z) Z) (w : World)
  : World :=
  mkWorld (w_env w) (w_binds w) (w_homes w) (w_children w)
    (w_notifications w) (w_displayName w) (w_supportedComponents w)
    (f (w_syncTokenRevision w)) (w_revisionSeq w) (w_nextResourceID w)
    (w_uuidCalls w) (w_trace w).

Definition setRevisionSeq (f : Z -> Z) (w : World) : World :=
  mkWorld (w_env w) (w_binds w) (w_homes w) (w_children w)
    (w_notifications w) (w_displayName w) (w_supportedComponents w)
    (w_syncTokenRevision w) (f (w_revisionSeq w)) (w_nextResourceID w)
    (w_uuidCalls w) (w_trace w).

Definition setNextResourceID (f : Z -> Z) (w : World) : World :=
  mkWorld (w_env w) (w_binds w) (w_homes w) (w_children w)
    (w_notifications w) (w_displayName w) (w_supportedComponents w)
    (w_syncTokenRevision w) (w_revisionSeq w) (f (w_nextResourceID w))
    (w_uuidCalls w) (w_trace w).

Definition setUuidCalls (f : nat -> nat) (w : World) : World :=
  mkWorld (w_env w) (w_binds w) (w_homes w) (w_children w)
    (w_notifications w) (w_displayName w) (w_supportedComponents w)
    (w_syncTokenRevision w) (w_revisionSeq w) (w_nextResourceID w)
    (f (w_uuidCalls w)) (w_trace w).

Definition setTrace (f : list Event -> list Event) (w : World) : World :=
  mkWorld (w_env w) (w_binds w) (w_homes w) (w_children w)
    (w_notifications w) (w_displayName w) (w_supportedComponents w)
    (w_syncTokenRevision w) (w_revisionSeq w) (w_nextResourceID w)
    (w_uuidCalls w) (f (w_trace w)).

(** ** The monad: state passing with exceptions

    A raised exception carries the world it was raised in: what had been
    done in memory and sent to collaborators is not undone by the raise. *)
Inductive Res (A : Type) :=
| Ok (a : A) (w : World)
| Raise (e : Exn) (w : World).

Arguments Ok {A} a w.
Arguments Raise {A} e w.

Definition M (A : Type) : Type := World -> Res A.

Definition ret {A} (a : A) : M A := fun w => Ok a w.

Definition bind {A B} (m : M A) (k : A -> M B) : M B :=
  fun w => match m w with
           | Ok a w' => k a w'
           | Raise e w' => Raise e w'
           end.

Definition raise {A} (e : Exn) : M A := fun w => Raise e w.

Definition gets {A} (f : World -> A) : M A := fun w => Ok (f w) w.

Definition modify (f : World -> World) : M unit := fun w => Ok tt (f w).

Definition emit (e : Event) : M unit := modify (setTrace (fun t => t ++ [e])).

(** [try: m except: h] where [h] decides by the exception what to do. *)
Definition try_except {A} (m : M A) (h : Exn -> M A) : M A :=
  fun w => match m w with
           | Ok a w' => Ok a w'
           | Raise e w' => h e w'
           end.

(** Dereferencing a value that may be [None]. *)
Definition deref {A} (o : option A) : M A :=
  match o with
  | Some a => ret a
  | None => raise AttributeError
  end.

Declare Scope py_scope.
Delimit Scope py_scope with py.
Notation "x <- m ;; k" := (bind m (fun x => k))
  (at level 100, m at next level, right associativity) : py_scope.
Notation "m ;;; k" := (bind m (fun _ => k))
  (at level 100, right associativity) : py_scope.
Local Open Scope py_scope.

(** ** Collaborators that are not part of [sql_sharing.py] *)

(** *** The bind table *)

Definition bind_matches (resourceID homeID : Z) (r : BindRow) : bool :=
  (RESOURCE_ID r =? resourceID) && (HOME_RESOURCE_ID r =? homeID).

(** Modelled from the spec: the uniqueness constraints of the bind table,
    whose schema is not part of [sql_sharing.py].  Within one home a
    resource is bound at most once and a name is used at most once. *)
Definition insert_conflicts (r : BindRow) (rows : list BindRow) : bool :=
  existsb
    (fun r' =>
       (HOME_RESOURCE_ID r' =? HOME_RESOURCE_ID r) &&
       ((RESOURCE_ID r' =? RESOURCE_ID r) ||
        String.eqb (RESOURCE_NAME r') (RESOURCE_NAME r)))
    rows.

(** [_bindInsertQuery.on(...)]: the row is appended unless a constraint is
    violated; the revision column takes its default. *)
Definition _bindInsertQuery (homeID resourceID : Z) (externalID : option Z)
  (name : string) (mode : BindMode) (bindStatus : BindStatus)
  (message : option string) : M unit :=
  fun w =>
    let r := mkBindRow mode homeID resourceID externalID name bindStatus 0
               message in
    if insert_conflicts r (w_binds w) then Raise IntegrityError w
    else Ok tt (setTrace (fun t => t ++ [SQLInsertBind r])
                  (setBinds (fun rows => rows ++ [r]) w)).

Definition updateRows (f : BindRow -> BindRow) (resourceID homeID : Z)
  (rows : list BindRow) : list BindRow :=
  map (fun r => if bind_matches resourceID homeID r then f r else r) rows.

Definition apply_columnMap (cm : ColumnMap) (r : BindRow) : BindRow :=
  mkBindRow
    (match cm_BIND_MODE cm with Some m => m | None => BIND_MODE r end)
    (HOME_RESOURCE_ID r) (RESOURCE_ID r) (EXTERNAL_ID r) (RESOURCE_NAME r)
    (match cm_BIND_STATUS cm with Some s => s | None => BIND_STATUS r end)
    (BIND_REVISION r)
    (match cm_MESSAGE cm with Some s => Some s | None => MESSAGE r end).

(** [_updateBindColumnsQuery(columnMap).on(txn, resourceID=, homeID=)]. *)
Definition _updateBindColumnsQuery (cm : ColumnMap) (resourceID homeID : Z)
  : M unit :=
  modify (setBinds (updateRows (apply_columnMap cm) resourceID homeID)) ;;;
  emit (SQLUpdateBindColumns cm resourceID homeID).

Definition set_revision (revision : Z) (r : BindRow) : BindRow :=
  mkBindRow (BIND_MODE r) (HOME_RESOURCE_ID r) (RESOURCE_ID r)
    (EXTERNAL_ID r) (RESOURCE_NAME r) (BIND_STATUS r) revision (MESSAGE r).

Definition set_message (message : option string) (r : BindRow) : BindRow :=
  mkBindRow (BIND_MODE r) (HOME_RESOURCE_ID r) (RESOURCE_ID r)
    (EXTERNAL_ID r) (RESOURCE_NAME r) (BIND_STATUS r) (BIND_REVISION r)
    message.

(** [_deleteBindForResourceIDAndHomeID.on(txn, resourceID=, homeID=)]. *)
Definition _deleteBindForResourceIDAndHomeID (resourceID homeID : Z)
  : M unit :=
  modify (setBinds (List.filter (fun r => negb (bind_matches resourceID homeID r)))) ;;;
  emit (SQLDeleteBind resourceID homeID).

(** Modelled from the spec: [txn.subtransaction(thunk)], the independent,
    retryable sub-transaction.  A failed attempt is rolled back (the bind
    table is restored; what happened in memory stays) and the thunk is run
    again; when the attempts are used up [AllRetriesFailed] is raised. *)
Definition rollback (before after : World) : World :=
  setBinds (fun _ => w_binds before) after.

Fixpoint attempt {A} (thunk : M A) (attempts : nat) : M A :=
  fun w =>
    match attempts with
    | O => Raise AllRetriesFailed w
    | S n =>
        match thunk w with
        | Ok a w' => Ok a w'
        | Raise _ w' => attempt thunk n (rollback w w')
        end
    end.

Definition subtransaction {A} (thunk : M A) : M A :=
  fun w => attempt thunk (S (env_retries (w_env w))) w.

(** *** Homes *)

Definition find_home (homeType : Z) (uid : string) (hs : list Home)
  : option Home :=
  List.find (fun h => (h_homeType h =? homeType) && String.eqb (h_uid h) uid)
    hs.

(** Modelled from the spec: [txn.homeWithUID(homeType, uid, create=)].  The
    home of the principal, created on first contact when [create] is set; a
    home created for a principal hosted elsewhere is external. *)
Definition homeWithUID (homeType : Z) (uid : string) (create : bool)
  : M (option Home) :=
  fun w =>
    match find_home homeType uid (w_homes w) with
    | Some h => Ok (Some h) w
    | None =>
        if create then
          let h := mkHome homeType uid (w_nextResourceID w)
                     (env_external (w_env w) uid) in
          Ok (Some h)
            (setNextResourceID Z.succ (setHomes (fun hs => hs ++ [h]) w))
        else Ok None w
    end.

Definition homeWithResourceID (homeID : Z) (hs : list Home) : option Home :=
  List.find (fun h => h_resourceID h =? homeID) hs.

(** The home that holds the [OWN] bind of a resource. *)
Definition ownerHomeOf (resourceID : Z) (w : World) : option Home :=
  match List.find
          (fun r => (RESOURCE_ID r =? resourceID) &&
                    bool_decide (BIND_MODE r = _BIND_MODE_OWN))
          (w_binds w) with
  | Some r => homeWithResourceID (HOME_RESOURCE_ID r) (w_homes w)
  | None => None
  end.

(** The home child object built from a bind row of [home]. *)
Definition makeView (home : Home) (w : World) (r : BindRow) : View :=
  mkView home
    (if bool_decide (BIND_MODE r = _BIND_MODE_OWN) then Some home
     else ownerHomeOf (RESOURCE_ID r) w)
    (BIND_MODE r) (RESOURCE_ID r) (EXTERNAL_ID r) (RESOURCE_NAME r)
    (BIND_STATUS r) (BIND_REVISION r) (MESSAGE r).

(** Modelled from the spec: the lookups of a home's children
    ([selectByResourceAndHome], [selectByNameAndHome],
    [selectByExternalIDAndHome] of the bind store).  With [acceptedOnly] only
    binds in status [ACCEPTED] are found.  None of them touches the home's
    in-memory index. *)
Definition findView (acceptedOnly : bool) (p : BindRow -> bool)
  (home : Home) (w : World) : option View :=
  option_map (makeView home w)
    (List.find
       (fun r =>
          (HOME_RESOURCE_ID r =? h_resourceID home) && p r &&
          (negb acceptedOnly ||
           bool_decide (BIND_STATUS r = _BIND_STATUS_ACCEPTED)))
       (w_binds w)).

Definition objectWith (acceptedOnly : bool) (p : BindRow -> bool)
  (home : Home) : M (option View) :=
  gets (findView acceptedOnly p home).

Definition allChildWithID (home : Home) (resourceID : Z) : M (option View) :=
  objectWith false (fun r => RESOURCE_ID r =? resourceID) home.

Definition childWithID (home : Home) (resourceID : Z) : M (option View) :=
  objectWith true (fun r => RESOURCE_ID r =? resourceID) home.

Definition anyObjectWithShareUID (home : Home) (shareUID : string)
  : M (option View) :=
  objectWith false (fun r => String.eqb (RESOURCE_NAME r) shareUID) home.

Definition childWithName (home : Home) (name : string) : M (option View) :=
  objectWith true (fun r => String.eqb (RESOURCE_NAME r) name) home.

Definition childWithExternalID (home : Home) (externalID : Z)
  : M (option View) :=
  objectWith true
    (fun r => bool_decide (EXTERNAL_ID r = Some externalID)) home.

(** Modelled from the spec: [home.createChildWithName(name, externalID=)].
    A new collection owned by the home; it fails when the name is already
    bound in the home. *)
Definition createChildWithName (home : Home) (name : string)
  (externalID : option Z) : M View :=
  fun w =>
    if existsb
         (fun r => (HOME_RESOURCE_ID r =? h_resourceID home) &&
                   String.eqb (RESOURCE_NAME r) name)
         (w_binds w)
    then Raise (HomeChildNameAlreadyExistsError name) w
    else
      let r := mkBindRow _BIND_MODE_OWN (h_resourceID home)
                 (w_nextResourceID w) externalID name _BIND_STATUS_ACCEPTED 0
                 None in
      Ok (makeView home w r)
        (setTrace (fun t => t ++ [SQLInsertBind r; NotifyChanged (h_resourceID home)])
           (setNextResourceID Z.succ (setBinds (fun rows => rows ++ [r]) w))).

Definition children_pop (homeID : Z) (k : ChildKey) : M unit :=
  modify (setChildren (delete (homeID, k))).

Definition children_set (homeID : Z) (k : ChildKey) (v : Z) : M unit :=
  modify (setChildren (insert (homeID, k) v)).

(** Modelled from the spec: [home.removeExternalChild(child)], the deletion
    of a shadow collection: every bind of the resource goes, and the home
    forgets the child. *)
Definition removeExternalChild (home : Home) (child : View) : M unit :=
  modify (setBinds (List.filter (fun r => negb (RESOURCE_ID r =? _resourceID child)))) ;;;
  emit (SQLDeleteBind (_resourceID child) (h_resourceID home)) ;;;
  children_pop (h_resourceID home) (inl (_name child)) ;;;
  children_pop (h_resourceID home) (inr (_resourceID child)).

(** [home.notifyChanged()] and [child.notifyPropertyChanged()]. *)
Definition notifyChanged (home : Home) : M unit :=
  emit (NotifyChanged (h_resourceID home)).

Definition notifyPropertyChanged (self : View) : M unit :=
  emit (NotifyPropertyChanged (h_resourceID (_home self)) (_resourceID self)).

(** *** Notification collections *)

(** Modelled from the spec: [notifications.writeNotificationObject] and
    [notifications.removeNotificationObjectWithUID] on the collection of a
    principal, obtained by [txn.notificationsWithUID]. *)
Definition writeNotificationObject (principal nuid : string)
  (ntype ndata : PyDict) : M unit :=
  modify (setNotifications (insert (principal, nuid) (ntype, ndata))) ;;;
  emit (WriteNotificationObject principal nuid ntype ndata).

Definition removeNotificationObjectWithUID (principal nuid : string)
  : M unit :=
  modify (setNotifications (delete (principal, nuid))) ;;;
  emit (RemoveNotificationObjectWithUID principal nuid).

(** *** Sync tokens *)

(** Modelled from the spec: [_initSyncToken], [_deletedSyncToken] and
    [syncToken] of the home child.  Initialising takes the next revision of
    the sequence; tearing down drops the token. *)
Definition _initSyncToken (self : View) : M unit :=
  modify (fun w =>
            setRevisionSeq Z.succ
              (setSyncTokens
                 (insert (h_resourceID (_home self), _resourceID self)
                    (w_revisionSeq w)) w)) ;;;
  emit (InitSyncToken (h_resourceID (_home self)) (_resourceID self)).

Definition _deletedSyncToken (self : View) (sharedRemoval : bool) : M unit :=
  modify (setSyncTokens (delete (h_resourceID (_home self), _resourceID self))) ;;;
  emit (DeletedSyncToken (h_resourceID (_home self)) (_resourceID self) sharedRemoval).

Definition _syncTokenRevision (self : View) : M Z :=
  gets (fun w =>
          default 0 (w_syncTokenRevision w !!
                       (h_resourceID (_home self), _resourceID self))).

(** ** [SharingMixIn]: operations on a home child

    Conventions.  A method that assigns to attributes of [self] or of an
    argument object returns, besides its Python result, the object as it is
    after the call; callers go on with that value, as the Python callers go
    on with the mutated object.  An optional argument is an [option], with
    [None] for Python's [None]. *)

Definition id (self : View) : Z := _resourceID self.
Definition name (self : View) : string := _name self.
Definition viewerHome (self : View) : Home := _home self.

(** [ownerHome()] followed by the attribute access made on its result. *)
Definition ownerHome (self : View) : M Home := deref (_ownerHome self).

Definition owned (self : View) : bool :=
  bool_decide (_bindMode self = _BIND_MODE_OWN).

Definition direct (self : View) : bool :=
  bool_decide (_bindMode self = _BIND_MODE_DIRECT).

Definition indirect (self : View) : bool :=
  bool_decide (_bindMode self = _BIND_MODE_INDIRECT).

Definition shareUID (self : View) : string := name self.
Definition shareMode (self : View) : BindMode := _bindMode self.
Definition effectiveShareMode (self : View) : BindMode := _bindMode self.
Definition shareStatus (self : View) : BindStatus := _bindStatus self.
Definition shareMessage (self : View) : option string := _bindMessage self.

Definition accepted (self : View) : bool :=
  bool_decide (_bindStatus self = _BIND_STATUS_ACCEPTED).

Definition isShared (self : View) : bool :=
  owned self && bool_decide (_bindMessage self = Some "shared"%string).

(** The mix-in's own [sharedResourceType]; with it [shareName] is the name
    of the child (the branch for the type "group" is not taken). *)
Definition sharedResourceType (self : View) : string := ""%string.
Definition shareName (self : View) : string := name self.

(** Modelled from the spec: [external()] of a home child, true when the
    resource is owned on another pod. *)
Definition external (self : View) : M bool :=
  oh <- ownerHome self ;; ret (h_external oh).

(** [newShare] and [setInviteCopyProperties] do nothing in the mix-in and are
    there to be overridden; the call is recorded. *)
Definition newShare (self : View) (displayname : option string) : M unit :=
  emit (NewShare (h_resourceID (_home self)) (_resourceID self) displayname).

Definition getInviteCopyProperties (self : View) : list (string * string) :=
  [].

Definition setInviteCopyProperties (self : View)
  (props : list (string * string)) : M unit :=
  emit (SetInviteCopyProperties (h_resourceID (_home self)) (_resourceID self)
          props).

(** [self.getSupportedComponents() if hasattr(self, "getSupportedComponents")
    else None]. *)
Definition getSupportedComponents (self : View) : M PyVal :=
  gets (fun w =>
          match w_supportedComponents w !! _resourceID self with
          | Some c => PyStr c
          | None => PyNone
          end).

Definition setSupportedComponents (self : View) (components : string)
  : M unit :=
  modify (setSupported (insert (_resourceID self) components)) ;;;
  emit (SetSupportedComponents (_resourceID self) components).

Definition hasSupportedComponents : M bool :=
  gets (fun w => env_hasSupportedComponents (w_env w)).

Definition newShareName : M string :=
  fun w => Ok (env_uuid4 (w_env w) (w_uuidCalls w)) (setUuidCalls S w).

Definition invalidateQueryCache (self : View) : M unit :=
  queryCacher <- gets (fun w => env_queryCacher (w_env w)) ;;
  if queryCacher : bool then
    emit (InvalidateAfterCommit (keyForHomeChildMetaData (_resourceID self))) ;;;
    emit (InvalidateAfterCommit
            (keyForObjectWithName (h_resourceID (_home self)) (_name self))) ;;;
    emit (InvalidateAfterCommit
            (keyForObjectWithResourceID (h_resourceID (_home self))
               (_resourceID self))) ;;;
    emit (InvalidateAfterCommit
            (keyForObjectWithExternalID (h_resourceID (_home self))
               (_externalID self)))
  else ret tt.

Definition with_bindMode (m : BindMode) (v : View) : View :=
  mkView (_home v) (_ownerHome v) m (_resourceID v) (_externalID v) (_name v)
    (_bindStatus v) (_bindRevision v) (_bindMessage v).

Definition with_bindStatus (s : BindStatus) (v : View) : View :=
  mkView (_home v) (_ownerHome v) (_bindMode v) (_resourceID v)
    (_externalID v) (_name v) s (_bindRevision v) (_bindMessage v).

Definition with_bindRevision (rev : Z) (v : View) : View :=
  mkView (_home v) (_ownerHome v) (_bindMode v) (_resourceID v)
    (_externalID v) (_name v) (_bindStatus v) rev (_bindMessage v).

Definition with_bindMessage (msg : option string) (v : View) : View :=
  mkView (_home v) (_ownerHome v) (_bindMode v) (_resourceID v)
    (_externalID v) (_name v) (_bindStatus v) (_bindRevision v) msg.

(** What [invalidateQueryCache] hands to the query cacher for a view. *)
Definition invalidation_events (queryCacher : bool) (self : View)
  : list Event :=
  if queryCacher then
    [ InvalidateAfterCommit (keyForHomeChildMetaData (_resourceID self));
      InvalidateAfterCommit
        (keyForObjectWithName (h_resourceID (_home self)) (_name self));
      InvalidateAfterCommit
        (keyForObjectWithResourceID (h_resourceID (_home self))
           (_resourceID self));
      InvalidateAfterCommit
        (keyForObjectWithExternalID (h_resourceID (_home self))
           (_externalID self)) ]
  else [].

Definition _initBindRevision (self : View) : M View :=
  rev <- _syncTokenRevision self ;;
  let self := with_bindRevision rev self in
  modify (setBinds (updateRows (set_revision (_bindRevision self))
                      (_resourceID self) (h_resourceID (viewerHome self)))) ;;;
  emit (SQLUpdateBindRevision (_bindRevision self) (_resourceID self)
          (h_resourceID (viewerHome self))) ;;;
  invalidateQueryCache self ;;;
  ret self.

Definition _previousAcceptCount (self : View) : M Z := ret 1.

Definition _changedStatus (self : View) (previouslyAcceptedCount : option Z)
  : M View :=
  if bool_decide (_bindStatus self = _BIND_STATUS_ACCEPTED) then
    _initSyncToken self ;;;
    self <- _initBindRevision self ;;
    children_set (h_resourceID (_home self)) (inl (_name self))
      (_resourceID self) ;;;
    children_set (h_resourceID (_home self)) (inr (_resourceID self))
      (_resourceID self) ;;;
    ret self
  else if bool_decide (_bindStatus self = _BIND_STATUS_INVITED) ||
          bool_decide (_bindStatus self = _BIND_STATUS_DECLINED) then
    _deletedSyncToken self true ;;;
    children_pop (h_resourceID (_home self)) (inl (_name self)) ;;;
    children_pop (h_resourceID (_home self)) (inr (_resourceID self)) ;;;
    ret self
  else ret self.

(** The [columnMap] that [updateShare] builds: a column is present when the
    argument is given and differs from the attribute of the sharee's view. *)
Definition updateShare_columnMap (shareeView : View) (mode : option BindMode)
  (status : option BindStatus) (summary : option string) : ColumnMap :=
  mkColumnMap
    (match mode with
     | Some m => if bool_decide (m <> _bindMode shareeView) then Some m else None
     | None => None
     end)
    (match status with
     | Some s =>
         if bool_decide (s <> _bindStatus shareeView) then Some s else None
     | None => None
     end)
    (match summary with
     | Some s =>
         if bool_decide (Some s <> _bindMessage shareeView) then Some s
         else None
     | None => None
     end).

Definition updateShare (self shareeView : View) (mode : option BindMode)
  (status : option BindStatus) (summary : option string) : M View :=
  let columnMap := updateShare_columnMap shareeView mode status summary in
  if columnMap_nonempty columnMap then
    previouslyAcceptedCount <-
      match cm_BIND_STATUS columnMap with
      | Some _ => c <- _previousAcceptCount shareeView ;; ret (Some c)
      | None => ret None
      end ;;
    _updateBindColumnsQuery columnMap (_resourceID self)
      (h_resourceID (_home shareeView)) ;;;
    let shareeView :=
      match cm_BIND_MODE columnMap with
      | Some m => with_bindMode m shareeView
      | None => shareeView
      end in
    shareeView <-
      match cm_BIND_STATUS columnMap with
      | Some s =>
          _changedStatus (with_bindStatus s shareeView) previouslyAcceptedCount
      | None => ret shareeView
      end ;;
    let shareeView :=
      match cm_MESSAGE columnMap with
      | Some s => with_bindMessage (Some s) shareeView
      | None => shareeView
      end in
    invalidateQueryCache shareeView ;;;
    notifyPropertyChanged self ;;;
    notifyChanged (viewerHome shareeView) ;;;
    ret shareeView
  else ret shareeView.

Definition removeShare (self shareeView : View) : M unit :=
  let shareeHome := viewerHome shareeView in
  _deletedSyncToken shareeView true ;;;
  children_pop (h_resourceID shareeHome) (inl (_name shareeView)) ;;;
  children_pop (h_resourceID shareeHome) (inr (_resourceID shareeView)) ;;;
  notifyPropertyChanged self ;;;
  notifyChanged shareeHome ;;;
  _deleteBindForResourceIDAndHomeID (_resourceID self)
    (h_resourceID shareeHome) ;;;
  invalidateQueryCache shareeView.

Definition setShared (self : View) (shared : bool) : M View :=
  if negb (owned self) then
    raise (AssertionError "Cannot change share mode on a shared collection")
  else
    let newMessage := if shared then Some "shared"%string else None in
    if bool_decide (_bindMessage self = newMessage) then ret self
    else
      let self := with_bindMessage newMessage self in
      modify (setBinds (updateRows (set_message (_bindMessage self))
                          (_resourceID self) (h_resourceID (viewerHome self)))) ;;;
      emit (SQLUpdateMessage (_bindMessage self) (_resourceID self)
              (h_resourceID (viewerHome self))) ;;;
      invalidateQueryCache self ;;;
      notifyPropertyChanged self ;;;
      ret self.

Definition shareeView (self : View) (shareeUID : string) : M (option View) :=
  if String.eqb (h_uid (_home self)) shareeUID then ret None
  else
    shareeHome <- homeWithUID (h_homeType (_home self)) shareeUID false ;;
    match shareeHome with
    | Some h => allChildWithID h (id self)
    | None => ret None
    end.

Definition ownerView (self : View) : M (option View) :=
  oh <- ownerHome self ;; childWithID oh (id self).

(** [doInsert], the function that [shareWith] defines and hands to the
    sub-transaction; what it closes over is passed to it, [status] being the
    status after the default is applied. *)
Definition doInsert (self : View) (shareeHome : Home) (mode : BindMode)
  (status : BindStatus) (summary : option string) (shareName : option string)
  : M string :=
  newName <- match shareName with
             | Some n => ret n
             | None => newShareName
             end ;;
  _bindInsertQuery (h_resourceID shareeHome) (_resourceID self)
    (_externalID self) newName mode status summary ;;;
  ret newName.

(** The [except AllRetriesFailed] branch of [shareWith]. *)
Definition shareWith_fallback (self : View) (shareeHome : Home)
  (mode : BindMode) (status : BindStatus) (summary : option string)
  : M string :=
  child <- allChildWithID shareeHome (_resourceID self) ;;
  child <- deref child ;;
  child <- updateShare self child (Some mode) (Some status) summary ;;
  ret (_name child).

(** The [else] branch of [shareWith]: the insert went through. *)
Definition shareWith_inserted (shareeHome : Home) (status : BindStatus)
  (bindName : string) : M string :=
  if bool_decide (status = _BIND_STATUS_ACCEPTED) then
    shareeView <- anyObjectWithShareUID shareeHome bindName ;;
    shareeView <- deref shareeView ;;
    _initSyncToken shareeView ;;;
    _initBindRevision shareeView ;;;
    ret bindName
  else ret bindName.

(** What [shareWith] does once the name of the bind is settled. *)
Definition shareWith_finish (self : View) (shareeHome : Home)
  (bindName : string) : M (string * View) :=
  self <- setShared self true ;;
  notifyPropertyChanged self ;;;
  notifyChanged shareeHome ;;;
  ret (bindName, self).

(** [shareWith].  The result is the name of the bind, together with [self]
    as [setShared] leaves it. *)
Definition shareWith (self : View) (shareeHome : Home) (mode : BindMode)
  (status : option BindStatus) (summary : option string)
  (shareName : option string) : M (string * View) :=
  let status :=
    match status with None => _BIND_STATUS_ACCEPTED | Some s => s end in
  bindName <-
    (fun w =>
       match subtransaction
               (doInsert self shareeHome mode status summary shareName) w with
       | Raise AllRetriesFailed w' =>
           shareWith_fallback self shareeHome mode status summary w'
       | Raise e w' => Raise e w'
       | Ok bindName w' => shareWith_inserted shareeHome status bindName w'
       end) ;;
  shareWith_finish self shareeHome bindName.

Definition createShare (self : View) (shareeUID : string) (mode : BindMode)
  (summary : option string) (shareName : option string)
  : M (option View * View) :=
  oh <- ownerHome self ;;
  shareeHome <- homeWithUID (h_homeType oh) shareeUID true ;;
  shareeHome <- deref shareeHome ;;
  r <- shareWith self shareeHome mode
         (Some (if bool_decide (mode <> _BIND_MODE_DIRECT)
                then _BIND_STATUS_INVITED else _BIND_STATUS_ACCEPTED))
         summary shareName ;;
  sv <- shareeView (snd r) shareeUID ;;
  ret (sv, snd r).

(** [sharingInvites].  The rows are those of
    [_sharedInvitationBindForResourceID]: the binds of the resource whose
    mode is not [OWN], joined to the home they belong to; they are taken in
    the order of the table. *)
Definition _sharedInvitationBindForResourceID (resourceID : Z) (w : World)
  : list (string * BindRow) :=
  flat_map
    (fun r =>
       map (fun h => (h_uid h, r))
         (List.filter (fun h => h_resourceID h =? HOME_RESOURCE_ID r)
            (w_homes w)))
    (List.filter
       (fun r => (RESOURCE_ID r =? resourceID) &&
                 bool_decide (BIND_MODE r <> _BIND_MODE_OWN))
       (w_binds w)).

Fixpoint sharingInvites_loop (self : View) (rows : list (string * BindRow))
  : M (list SharingInvitation) :=
  match rows with
  | [] => ret []
  | (homeUID, r) :: rows' =>
      oh <- ownerHome self ;;
      let invite :=
        mkSharingInvitation (RESOURCE_NAME r) (h_uid oh) (h_resourceID oh)
          homeUID (HOME_RESOURCE_ID r) (BIND_MODE r) (BIND_STATUS r)
          (MESSAGE r) in
      result <- sharingInvites_loop self rows' ;;
      ret (invite :: result)
  end.

Definition sharingInvites (self : View) : M (list SharingInvitation) :=
  if negb (owned self) then ret []
  else
    invitedRows <- gets (_sharedInvitationBindForResourceID (_resourceID self)) ;;
    sharingInvites_loop self invitedRows.

(** [list.sort(key=...)]: a stable sort on the keys, here strings compared
    character by character. *)
Fixpoint sort_insert {A} (key : A -> string) (x : A) (l : list A) : list A :=
  match l with
  | [] => [x]
  | y :: l' =>
      if String.leb (key x) (key y) then x :: l
      else y :: sort_insert key x l'
  end.

Definition sort_by {A} (key : A -> string) (l : list A) : list A :=
  fold_right (sort_insert key) [] l.

Definition allInvitations (self : View) : M (list SharingInvitation) :=
  invitations <- sharingInvites self ;;
  let invitations :=
    List.filter (fun x => bool_decide (inv_mode x <> _BIND_MODE_DIRECT))
      invitations in
  ret (sort_by inv_shareeUID invitations).

(** [str(x)] for a string or [None]. *)
Definition py_str (o : option string) : string :=
  match o with Some s => s | None => "None"%string end.

Definition py_opt (o : option string) : PyVal :=
  match o with Some s => PyStr s | None => PyNone end.

(** [shareeView.properties().get(DisplayName, default)], already passed to
    [str]. *)
Definition displayName_or (shareeView : View) (dflt : option string)
  : M string :=
  gets (fun w =>
          match w_displayName w !!
                  (h_resourceID (_home shareeView), _resourceID shareeView) with
          | Some d => d
          | None => py_str dflt
          end).

Definition _sendInviteNotification (self shareeView : View)
  (notificationState : option BindStatus) : M unit :=
  displayname <-
    (if bool_decide (notificationState = Some _BIND_STATUS_DELETED) then
       d <- displayName_or shareeView (shareMessage shareeView) ;;
       ret (PyStr d)
     else ret (py_opt (shareMessage shareeView))) ;;
  let notificationtype : PyDict :=
    [ ("notification-type", PyStr "invite-notification");
      ("shared-type", PyStr (sharedResourceType shareeView)) ]%string in
  owner <- ownerHome shareeView ;;
  now <- gets (fun w => env_now (w_env w)) ;;
  let notificationdata : PyDict :=
    [ ("notification-type", PyStr "invite-notification");
      ("shared-type", PyStr (sharedResourceType shareeView));
      ("dtstamp", PyStr now);
      ("owner", PyStr (h_uid owner));
      ("sharee", PyStr (h_uid (viewerHome shareeView)));
      ("uid", PyStr (shareUID shareeView));
      ("status", PyStatus (match notificationState with
                           | None => shareStatus shareeView
                           | Some s => s
                           end));
      ("access", PyMode (effectiveShareMode shareeView));
      ("ownerName", PyStr (shareName self));
      ("summary", displayname) ]%string in
  has <- hasSupportedComponents ;;
  notificationdata <-
    (if has : bool then
       c <- getSupportedComponents self ;;
       ret (notificationdata ++ [("supported-components"%string, c)])
     else ret notificationdata) ;;
  writeNotificationObject (h_uid (viewerHome shareeView))
    (shareUID shareeView) notificationtype notificationdata.

Definition _sendReplyNotification (self ownerView : View)
  (summary : option string) : M unit :=
  let notificationUID := (shareUID self +:+ "-reply")%string in
  let notificationtype : PyDict :=
    [ ("notification-type", PyStr "invite-reply");
      ("shared-type", PyStr (sharedResourceType self)) ]%string in
  now <- gets (fun w => env_now (w_env w)) ;;
  owner <- ownerHome self ;;
  let notificationdata : PyDict :=
    [ ("notification-type", PyStr "invite-reply");
      ("shared-type", PyStr (sharedResourceType self));
      ("dtstamp", PyStr now);
      ("owner", PyStr (h_uid owner));
      ("sharee", PyStr (h_uid (viewerHome self)));
      ("status", PyStatus (shareStatus self));
      ("ownerName", PyStr (shareName ownerView));
      ("in-reply-to", PyStr (shareUID self));
      ("summary", py_opt summary) ]%string in
  writeNotificationObject (h_uid owner) notificationUID notificationtype
    notificationdata.

Definition _removeInviteNotification (self shareeView : View) : M unit :=
  removeNotificationObjectWithUID (h_uid (viewerHome shareeView))
    (shareUID shareeView).

Definition _sendExternalInvite (self shareeView : View) : M unit :=
  owner <- ownerHome shareeView ;;
  has <- hasSupportedComponents ;;
  supported_components <-
    (if has : bool then getSupportedComponents self else ret PyNone) ;;
  emit (Send_shareinvite (h_homeType owner) (h_uid owner) (id self)
          (shareName self) (h_uid (viewerHome shareeView))
          (shareUID shareeView) (shareMode shareeView)
          (shareMessage shareeView) (getInviteCopyProperties self)
          supported_components).

Definition _sendExternalUninvite (self shareeView : View) : M unit :=
  owner <- ownerHome shareeView ;;
  emit (Send_shareuninvite (h_homeType owner) (h_uid owner) (id self)
          (h_uid (viewerHome shareeView)) (shareUID shareeView)).

Definition _replyExternalInvite (self : View) (status : BindStatus)
  (summary : option string) : M unit :=
  owner <- ownerHome self ;;
  emit (Send_sharereply (h_homeType (viewerHome self)) (h_uid owner)
          (h_uid (viewerHome self)) (shareUID self) status summary).

(** *** Higher level API *)

(** The result is the sharee's view and [self] as the call leaves it. *)
Definition inviteUIDToShare (self : View) (shareeUID : string)
  (mode : BindMode) (summary : option string) (shareName : option string)
  : M (View * View) :=
  existing <- shareeView self shareeUID ;;
  r <- match existing with
       | Some sv =>
           let status :=
             if bool_decide (shareStatus sv = _BIND_STATUS_DECLINED) ||
                bool_decide (shareStatus sv = _BIND_STATUS_INVALID)
             then Some _BIND_STATUS_INVITED else None in
           sv <- updateShare self sv (Some mode) status summary ;;
           ret (Some sv, self)
       | None => createShare self shareeUID mode summary shareName
       end ;;
  let self := snd r in
  sv <- deref (fst r) ;;
  (if h_external (viewerHome sv) then _sendExternalInvite self sv
   else _sendInviteNotification self sv None) ;;;
  ret (sv, self).

Definition directShareWithUser (self : View) (shareeUID : string)
  (shareName : option string) : M (View * View) :=
  existing <- shareeView self shareeUID ;;
  match existing with
  | None =>
      r <- createShare self shareeUID _BIND_MODE_DIRECT None shareName ;;
      let self := snd r in
      sv <- deref (fst r) ;;
      newShare sv None ;;;
      (if h_external (viewerHome sv) then _sendExternalInvite self sv
       else ret tt) ;;;
      ret (sv, self)
  | Some sv => ret (sv, self)
  end.

Definition uninviteUIDFromShare (self : View) (shareeUID : string) : M unit :=
  existing <- shareeView self shareeUID ;;
  match existing with
  | Some sv =>
      (if h_external (viewerHome sv) then _sendExternalUninvite self sv
       else
         if negb (direct sv) then
           if bool_decide (shareStatus sv <> _BIND_STATUS_ACCEPTED) then
             _removeInviteNotification self sv
           else _sendInviteNotification self sv (Some _BIND_STATUS_DELETED)
         else ret tt) ;;;
      removeShare self sv
  | None => ret tt
  end.

(** [acceptShare] and [declineShare] on a sharee's view; the result is the
    view as the call leaves it. *)
Definition acceptShare (self : View) (summary : option string) : M View :=
  if negb (direct self) &&
     bool_decide (shareStatus self <> _BIND_STATUS_ACCEPTED) then
    ext <- external self ;;
    (if ext : bool then _replyExternalInvite self _BIND_STATUS_ACCEPTED summary
     else ret tt) ;;;
    ov <- ownerView self ;;
    ov <- deref ov ;;
    self <- updateShare ov self None (Some _BIND_STATUS_ACCEPTED) None ;;
    newShare self summary ;;;
    ovext <- external ov ;;
    (if negb ovext then _sendReplyNotification self ov summary else ret tt) ;;;
    ret self
  else ret self.

Definition declineShare (self : View) : M View :=
  if negb (direct self) &&
     bool_decide (shareStatus self <> _BIND_STATUS_DECLINED) then
    ext <- external self ;;
    (if ext : bool then _replyExternalInvite self _BIND_STATUS_DECLINED None
     else ret tt) ;;;
    ov <- ownerView self ;;
    ov <- deref ov ;;
    self <- updateShare ov self None (Some _BIND_STATUS_DECLINED) None ;;
    ovext <- external ov ;;
    (if negb ovext then _sendReplyNotification self ov None else ret tt) ;;;
    ret self
  else ret self.

Definition deleteShare (self : View) : M View :=
  ov <- ownerView self ;;
  if direct self then
    ov <- deref ov ;;
    removeShare ov self ;;;
    ovext <- external ov ;;
    (if ovext : bool then _replyExternalInvite self _BIND_STATUS_DECLINED None
     else ret tt) ;;;
    ret self
  else declineShare self.



(** [unshare].  The loop of the owner's side goes through the invitations
    read before it starts; [removeShare] on a missing sharee's view fails on
    the first attribute it reads. *)
Fixpoint unshare_all (self : View) (invites : list SharingInvitation)
  : M unit :=
  match invites with
  | [] => ret tt
  | invite :: rest =>
      shareeView <- shareeView self (inv_shareeUID invite) ;;
      shareeView <- deref shareeView ;;
      removeShare self shareeView ;;;
      unshare_all self rest
  end.

Definition unshare (self : View) : M unit :=
  if owned self then
    invites <- sharingInvites self ;;
    unshare_all self invites
  else
    ownerView <- ownerView self ;;
    ownerView <- deref ownerView ;;
    removeShare ownerView self.

(** ** [SharingHomeMixIn]: operations on a home *)

(** The two messages [processExternalInvite] logs. *)
Definition still_has_shares : string :=
  "External invite collection name is present with a different externalID and still has shares".

Definition trying_to_fix : string :=
  "External invite collection name is present with a different externalID - trying to fix".

Module SharingHomeMixIn.

Definition acceptShare (self : Home) (shareUID : string)
  (summary : option string) : M (option View) :=
  sv <- anyObjectWithShareUID self shareUID ;;
  match sv with
  | Some v => v' <- acceptShare v summary ;; ret (Some v')
  | None => ret None
  end.

Definition declineShare (self : Home) (shareUID : string) : M bool :=
  sv <- anyObjectWithShareUID self shareUID ;;
  match sv with
  | Some v => declineShare v ;;; ret true
  | None => ret false
  end.

Definition processExternalInvite (self : Home) (ownerUID : string)
  (ownerRID : Z) (ownerName shareUID : string) (bindMode : BindMode)
  (summary : option string) (copy_invite_properties : list (string * string))
  (supported_components : option string) : M unit :=
  oh <- homeWithUID (h_homeType self) ownerUID true ;;
  match oh with
  | None => raise (ExternalShareFailed ("Invalid owner UID: " +:+ ownerUID))
  | Some ownerHome =>
      if negb (h_external ownerHome) then
        raise (ExternalShareFailed ("Invalid owner UID: " +:+ ownerUID))
      else
        found <- childWithExternalID ownerHome ownerRID ;;
        ownerView <-
          match found with
          | Some v => ret v
          | None =>
              ownerView <-
                try_except
                  (createChildWithName ownerHome ownerName (Some ownerRID))
                  (fun e =>
                     match e with
                     | HomeChildNameAlreadyExistsError _ =>
                         old <- childWithName ownerHome ownerName ;;
                         oldOwnerView <- deref old ;;
                         invites <- sharingInvites oldOwnerView ;;
                         if negb (length invites =? 0)%nat then
                           emit (LogError still_has_shares) ;;;
                           raise e
                         else
                           emit (LogError trying_to_fix) ;;;
                           removeExternalChild ownerHome oldOwnerView ;;;
                           createChildWithName ownerHome ownerName
                             (Some ownerRID)
                     | _ => raise e
                     end) ;;
              has <- hasSupportedComponents ;;
              match supported_components with
              | Some c =>
                  if has : bool then setSupportedComponents ownerView c
                  else ret tt
              | None => ret tt
              end ;;;
              ret ownerView
          end ;;
        r <- (if bool_decide (bindMode = _BIND_MODE_DIRECT) then
                directShareWithUser ownerView (h_uid self) (Some shareUID)
              else
                inviteUIDToShare ownerView (h_uid self) bindMode summary
                  (Some shareUID)) ;;
        setInviteCopyProperties (fst r) copy_invite_properties
  end.

Definition processExternalUninvite (self : Home) (ownerUID : string)
  (ownerRID : Z) (shareUID : string) : M unit :=
  oh <- homeWithUID (h_homeType self) ownerUID false ;;
  match oh with
  | None => raise (ExternalShareFailed ("Invalid owner UID: " +:+ ownerUID))
  | Some ownerHome =>
      if negb (h_external ownerHome) then
        raise (ExternalShareFailed ("Invalid owner UID: " +:+ ownerUID))
      else
        found <- childWithExternalID ownerHome ownerRID ;;
        match found with
        | None =>
            raise (ExternalShareFailed ("Invalid share ID: " +:+ shareUID))
        | Some ownerView =>
            uninviteUIDFromShare ownerView (h_uid self) ;;;
            invites <- sharingInvites ownerView ;;
            if (length invites =? 0)%nat then
              removeExternalChild ownerHome ownerView
            else ret tt
        end
  end.

Definition processExternalReply (self : Home) (ownerUID shareeUID : string)
  (shareUID : string) (bindStatus : BindStatus) (summary : option string)
  : M unit :=
  sh <- homeWithUID (h_homeType self) shareeUID false ;;
  match sh with
  | None => raise (ExternalShareFailed ("Invalid sharee UID: " +:+ shareeUID))
  | Some shareeHome =>
      if negb (h_external shareeHome) then
        raise (ExternalShareFailed ("Invalid sharee UID: " +:+ shareeUID))
      else
        found <- anyObjectWithShareUID shareeHome shareUID ;;
        match found with
        | None =>
            raise (ExternalShareFailed ("Invalid share UID: " +:+ shareUID))
        | Some shareeView =>
            if bool_decide (bindStatus = _BIND_STATUS_ACCEPTED) then
              acceptShare shareeHome shareUID summary ;;; ret tt
            else if bool_decide (bindStatus = _BIND_STATUS_DECLINED) then
              if direct shareeView then deleteShare shareeView ;;; ret tt
              else declineShare shareeHome shareUID ;;; ret tt
            else ret tt
        end
  end.

End SharingHomeMixIn.

(** ** A deployment to run the operations on

    Two principals of this pod, [user01] and [user02], and one hosted
    elsewhere, [puser03].  [user01] owns the collection [calendar] (resource
    10), shared with [user02] by invitation and with [puser03] directly. *)
Module Sample.

Definition env : Env :=
  mkEnv (fun uid => String.eqb uid "puser03") true 0
    (fun n => ("uuid-" +:+ pretty n)%string) "20150101T000000Z" false.

Definition home01 : Home := mkHome 1 "user01" 1 false.
Definition home02 : Home := mkHome 1 "user02" 2 false.
Definition home03 : Home := mkHome 1 "puser03" 3 true.

Definition own01 : BindRow :=
  mkBindRow _BIND_MODE_OWN 1 10 None "calendar" _BIND_STATUS_ACCEPTED 0
    (Some "shared"%string).

Definition invited02 : BindRow :=
  mkBindRow _BIND_MODE_READ 2 10 None "share-02" _BIND_STATUS_INVITED 0
    (Some "please join"%string).

Definition accepted02 : BindRow :=
  mkBindRow _BIND_MODE_READ 2 10 None "share-02" _BIND_STATUS_ACCEPTED 0
    (Some "please join"%string).

Definition direct03 : BindRow :=
  mkBindRow _BIND_MODE_DIRECT 3 10 None "share-03" _BIND_STATUS_ACCEPTED 0
    None.

Definition world (binds : list BindRow) : World :=
  mkWorld env binds [home01; home02; home03] ∅ ∅ ∅ ∅ ∅ 1 100 0 [].

Definition calendar01 : View :=
  makeView home01 (world [own01]) own01.

(** A shadow collection of the external home, left over under the external
    id 7, and a bind that still shares it. *)
Definition shadow03 : BindRow :=
  mkBindRow _BIND_MODE_OWN 3 30 (Some 7) "remote-cal" _BIND_STATUS_ACCEPTED 0
    None.

Definition shadow_share01 : BindRow :=
  mkBindRow _BIND_MODE_READ 1 30 (Some 7) "shadow-share"
    _BIND_STATUS_ACCEPTED 0 None.

Definition shadow_view : View :=
  makeView home03 (world [shadow03]) shadow03.

End Sample.

(** ** Vocabulary of the statements *)

(** What an operation of the sharing state machine never changes: the
    deployment, the homes, the properties and the allocators. *)
Definition same_frame (w w' : World) : Prop :=
  w_env w' = w_env w /\
  w_homes w' = w_homes w /\
  w_displayName w' = w_displayName w /\
  w_supportedComponents w' = w_supportedComponents w /\
  w_nextResourceID w' = w_nextResourceID w /\
  w_uuidCalls w' = w_uuidCalls w.

(** The events a status transition may issue besides the column update. *)
Definition transition_event (e : Event) : Prop :=
  match e with
  | InitSyncToken _ _ | DeletedSyncToken _ _ _ | SQLUpdateBindRevision _ _ _
  | InvalidateAfterCommit _ => True
  | _ => False
  end.

(** The rows of a resource in a home. *)
Definition binds_of (resourceID homeID : Z) (w : World) : list BindRow :=
  List.filter (bind_matches resourceID homeID) (w_binds w).

(** The sharee's view as [updateShare] leaves it, given the column diff and
    the revision a transition to [ACCEPTED] snapshots. *)
Definition updateShare_view (shareeView : View) (cm : ColumnMap)
  (revision : Z) : View :=
  let v1 := match cm_BIND_MODE cm with
            | Some m => with_bindMode m shareeView
            | None => shareeView
            end in
  let v2 := match cm_BIND_STATUS cm with
            | Some s =>
                if bool_decide (s = _BIND_STATUS_ACCEPTED)
                then with_bindRevision revision (with_bindStatus s v1)
                else with_bindStatus s v1
            | None => v1
            end in
  match cm_MESSAGE cm with
  | Some s => with_bindMessage (Some s) v2
  | None => v2
  end.

(** The bind table as [updateShare] leaves it. *)
Definition updateShare_rows (self shareeView : View) (cm : ColumnMap)
  (revision : Z) (rows : list BindRow) : list BindRow :=
  let hid := h_resourceID (_home shareeView) in
  let rows' := updateRows (apply_columnMap cm) (_resourceID self) hid rows in
  match cm_BIND_STATUS cm with
  | Some s =>
      if bool_decide (s = _BIND_STATUS_ACCEPTED)
      then updateRows (set_revision revision) (_resourceID shareeView) hid
             rows'
      else rows'
  | None => rows'
  end.

(** The child index of the sharee's home as a status transition leaves
    it. *)
Definition children_after (shareeView : View) (status : option BindStatus)
  (children : gmap (Z * ChildKey) Z) : gmap (Z * ChildKey) Z :=
  let hid := h_resourceID (_home shareeView) in
  match status with
  | Some s =>
      if bool_decide (s = _BIND_STATUS_ACCEPTED) then
        <[(hid, inr (_resourceID shareeView)) := _resourceID shareeView]>
          (<[(hid, inl (_name shareeView)) := _resourceID shareeView]>
             children)
      else if bool_decide (s = _BIND_STATUS_INVITED) ||
              bool_decide (s = _BIND_STATUS_DECLINED) then
        delete (hid, inr (_resourceID shareeView))
          (delete (hid, inl (_name shareeView)) children)
      else children
  | None => children
  end.

(** The invitation built by [sharingInvites] from a row of its query, for
    the owner's home [oh]. *)
Definition invitation_of (oh : Home) (row : string * BindRow)
  : SharingInvitation :=
  mkSharingInvitation (RESOURCE_NAME (snd row)) (h_uid oh) (h_resourceID oh)
    (fst row) (HOME_RESOURCE_ID (snd row)) (BIND_MODE (snd row))
    (BIND_STATUS (snd row)) (MESSAGE (snd row)).

(** Order of two invitations by sharee UID. *)
Definition shareeUID_le (a b : SharingInvitation) : Prop :=
  String.leb (inv_shareeUID a) (inv_shareeUID b) = true.

(** Events that reach another party: a message on the conduit, a
    notification written or removed, a column update of a bind. *)
Definition outward_event (e : Event) : Prop :=
  match e with
  | Send_shareinvite _ _ _ _ _ _ _ _ _ _ | Send_shareuninvite _ _ _ _ _
  | Send_sharereply _ _ _ _ _ _ | WriteNotificationObject _ _ _ _
  | RemoveNotificationObjectWithUID _ _ | SQLUpdateBindColumns _ _ _ => True
  | _ => False
  end.

(** The events [acceptShare] and [declineShare] frame the transition with:
    the reply to the owner's pod when the bind is federated, and the reply
    notification in the owner's collection when the owner is local. *)
Definition reply_sent (self : View) (oh : Home) (status : BindStatus)
  (summary : option string) : list Event :=
  if h_external oh then
    [Send_sharereply (h_homeType (_home self)) (h_uid oh)
       (h_uid (_home self)) (_name self) status summary]
  else [].

Definition reply_notification (self ov : View) (oh : Home)
  (status : BindStatus) (summary : option string) (now : string)
  : PyDict * PyDict :=
  ([ ("notification-type", PyStr "invite-reply");
     ("shared-type", PyStr "") ]%string,
   [ ("notification-type", PyStr "invite-reply");
     ("shared-type", PyStr "");
     ("dtstamp", PyStr now);
     ("owner", PyStr (h_uid oh));
     ("sharee", PyStr (h_uid (_home self)));
     ("status", PyStatus status);
     ("ownerName", PyStr (_name ov));
     ("in-reply-to", PyStr (_name self));
     ("summary", py_opt summary) ]%string).

Definition reply_notified (self ov : View) (oh : Home) (status : BindStatus)
  (summary : option string) (now : string) : list Event :=
  if h_external oh then []
  else
    [WriteNotificationObject (h_uid oh) (_name self +:+ "-reply")%string
       (fst (reply_notification self ov oh status summary now))
       (snd (reply_notification self ov oh status summary now))].

(** The column diff of a pure status change. *)
Definition status_only (s : BindStatus) : ColumnMap :=
  mkColumnMap None (Some s) None.

(** The two dictionaries [_sendInviteNotification] writes for the sharee's
    view, with the owner's home [oh] resolved. *)
Definition invite_notification (self shareeView : View) (oh : Home)
  (notificationState : option BindStatus) (w : World) : PyDict * PyDict :=
  let displayname :=
    if bool_decide (notificationState = Some _BIND_STATUS_DELETED) then
      PyStr (match w_displayName w !!
                     (h_resourceID (_home shareeView), _resourceID shareeView)
             with
             | Some d => d
             | None => py_str (_bindMessage shareeView)
             end)
    else py_opt (_bindMessage shareeView) in
  ([ ("notification-type", PyStr "invite-notification");
     ("shared-type", PyStr "") ]%string,
   [ ("notification-type", PyStr "invite-notification");
     ("shared-type", PyStr "");
     ("dtstamp", PyStr (env_now (w_env w)));
     ("owner", PyStr (h_uid oh));
     ("sharee", PyStr (h_uid (_home shareeView)));
     ("uid", PyStr (_name shareeView));
     ("status", PyStatus (match notificationState with
                          | None => _bindStatus shareeView
                          | Some s => s
                          end));
     ("access", PyMode (_bindMode shareeView));
     ("ownerName", PyStr (_name self));
     ("summary", displayname) ]%string ++
   (if env_hasSupportedComponents (w_env w) then
      [ ("supported-components"%string,
         match w_supportedComponents w !! _resourceID self with
         | Some c => PyStr c
         | None => PyNone
         end) ]
    else [])).

(** The events of [removeShare]. *)
Definition removeShare_events (self shareeView : View) (queryCacher : bool)
  : list Event :=
  [DeletedSyncToken (h_resourceID (_home shareeView))
     (_resourceID shareeView) true;
   NotifyPropertyChanged (h_resourceID (_home self)) (_resourceID self);
   NotifyChanged (h_resourceID (_home shareeView));
   SQLDeleteBind (_resourceID self) (h_resourceID (_home shareeView))] ++
  invalidation_events queryCacher shareeView.

(** [self] is the owner's view of a resource of the state: an [OWN] view
    whose home holds the one bind of the resource in that home, an accepted
    [OWN] bind, and is the home the resource's owner resolves to. *)
Definition owns (w : World) (self : View) : Prop :=
  owned self = true /\
  _ownerHome self = Some (_home self) /\
  ownerHomeOf (_resourceID self) w = Some (_home self) /\
  exists own : BindRow,
    binds_of (_resourceID self) (h_resourceID (_home self)) w = [own] /\
    BIND_MODE own = _BIND_MODE_OWN /\
    BIND_STATUS own = _BIND_STATUS_ACCEPTED.

(** Two states that differ at most in the number of calls of [uuid4]. *)
Definition same_but_uuid (w w' : World) : Prop :=
  w_env w' = w_env w /\
  w_binds w' = w_binds w /\
  w_homes w' = w_homes w /\
  w_children w' = w_children w /\
  w_notifications w' = w_notifications w /\
  w_displayName w' = w_displayName w /\
  w_supportedComponents w' = w_supportedComponents w /\
  w_syncTokenRevision w' = w_syncTokenRevision w /\
  w_revisionSeq w' = w_revisionSeq w /\
  w_nextResourceID w' = w_nextResourceID w /\
  w_trace w' = w_trace w.

(** The row [shareWith] inserts. *)
Definition new_bind (self : View) (shareeHome : Home) (mode : BindMode)
  (status : BindStatus) (summary : option string) (bindName : string)
  : BindRow :=
  mkBindRow mode (h_resourceID shareeHome) (_resourceID self)
    (_externalID self) bindName status 0 summary.

(** The name [doInsert] uses at its next call. *)
Definition next_name (shareName : option string) (w : World) : string :=
  match shareName with
  | Some n => n
  | None => env_uuid4 (w_env w) (w_uuidCalls w)
  end.

(** Columns that [set_revision] and [set_message] may have changed. *)
Definition same_bind_but_revision_message (r r' : BindRow) : Prop :=
  BIND_MODE r' = BIND_MODE r /\
  HOME_RESOURCE_ID r' = HOME_RESOURCE_ID r /\
  RESOURCE_ID r' = RESOURCE_ID r /\
  EXTERNAL_ID r' = EXTERNAL_ID r /\
  RESOURCE_NAME r' = RESOURCE_NAME r /\
  BIND_STATUS r' = BIND_STATUS r.

(** A row transformer that keeps the keys of a row. *)
Definition keeps_keys (f : BindRow -> BindRow) : Prop :=
  forall r, HOME_RESOURCE_ID (f r) = HOME_RESOURCE_ID r /\
            RESOURCE_ID (f r) = RESOURCE_ID r /\
            RESOURCE_NAME (f r) = RESOURCE_NAME r /\
            EXTERNAL_ID (f r) = EXTERNAL_ID r.


(** The owner's view as [setShared(True)] leaves it. *)
Definition setShared_view (self : View) : View :=
  if bool_decide (_bindMessage self = Some "shared"%string) then self
  else with_bindMessage (Some "shared"%string) self.

(** A step of the share creation as the rest of the state sees it: rows
    [added] at the end of the bind table, every row transformed by [g],
    events [evs] issued, and nothing else changed but sync tokens and the
    count of [uuid4] calls. *)
Definition bind_step (w w' : World) (added : list BindRow)
  (g : BindRow -> BindRow) (evs : list Event) : Prop :=
  w_env w' = w_env w /\
  w_homes w' = w_homes w /\
  w_displayName w' = w_displayName w /\
  w_supportedComponents w' = w_supportedComponents w /\
  w_nextResourceID w' = w_nextResourceID w /\
  w_notifications w' = w_notifications w /\
  w_children w' = w_children w /\
  w_trace w' = w_trace w ++ evs /\
  w_binds w' = map g (w_binds w ++ added).

(** Events and row transformers of such steps: the events reach no other
    party, the transformers change at most the revision and the message. *)
Definition inward (evs : list Event) : Prop :=
  Forall (fun e => ~ outward_event e) evs.

Definition gentle (g : BindRow -> BindRow) : Prop :=
  forall r, same_bind_but_revision_message r (g r).

(** The status [shareWith] works with: [ACCEPTED] when none is given. *)
Definition status_or_accepted (status : option BindStatus) : BindStatus :=
  match status with None => _BIND_STATUS_ACCEPTED | Some s => s end.

(** [e] is the invite sent on the conduit to the sharee [uid] for the share
    named [shareUID], with the mode [mode]. *)
Definition is_invite_to (uid shareUID : string) (mode : BindMode) (e : Event)
  : Prop :=
  match e with
  | Send_shareinvite _ _ _ _ shareeUID' shareUID' mode' _ _ _ =>
      shareeUID' = uid /\ shareUID' = shareUID /\ mode' = mode
  | _ => False
  end.

(** The resource of the owner's view [self] is shared into the home [h] of
    the principal [uid], by one bind of mode [mode] and status [status]. *)
Definition shared_with (w : World) (self : View) (uid : string) (h : Home)
  (mode : BindMode) (status : BindStatus) : Prop :=
  owns w self /\
  h_uid (_home self) <> uid /\
  find_home (h_homeType (_home self)) uid (w_homes w) = Some h /\
  h_resourceID h <> h_resourceID (_home self) /\
  exists r : BindRow,
    binds_of (_resourceID self) (h_resourceID h) w = [r] /\
    BIND_MODE r = mode /\
    BIND_STATUS r = status.

(** [sv] is a sharee's view of it, with that mode and status. *)
Definition sharee_view_of (self : View) (h : Home) (mode : BindMode)
  (status : BindStatus) (sv : View) : Prop :=
  _home sv = h /\
  _resourceID sv = _resourceID self /\
  _ownerHome sv = Some (_home self) /\
  _bindMode sv = mode /\
  _bindStatus sv = status.

(** The status an invitation leaves an existing bind with. *)
Definition reinvited_status (status : BindStatus) : BindStatus :=
  if bool_decide (status = _BIND_STATUS_DECLINED) ||
     bool_decide (status = _BIND_STATUS_INVALID)
  then _BIND_STATUS_INVITED else status.

(** The status [createShare] gives a new bind. *)
Definition created_status (mode : BindMode) : BindStatus :=
  if bool_decide (mode <> _BIND_MODE_DIRECT)
  then _BIND_STATUS_INVITED else _BIND_STATUS_ACCEPTED.

(** Within a home a name is bound to one resource. *)
Definition unique_names (w : World) : Prop :=
  forall r1 r2 : BindRow,
    In r1 (w_binds w) -> In r2 (w_binds w) ->
    HOME_RESOURCE_ID r1 = HOME_RESOURCE_ID r2 ->
    RESOURCE_NAME r1 = RESOURCE_NAME r2 ->
    RESOURCE_ID r1 = RESOURCE_ID r2.

(** The resource id the allocator gives next is bound nowhere. *)
Definition fresh_resourceID (w : World) : Prop :=
  forall r : BindRow, In r (w_binds w) -> RESOURCE_ID r <> w_nextResourceID w.

(** The bind of a collection that [createChildWithName] makes. *)
Definition child_row (home : Home) (resourceID : Z) (name : string)
  (externalID : option Z) : BindRow :=
  mkBindRow _BIND_MODE_OWN (h_resourceID home) resourceID externalID name
    _BIND_STATUS_ACCEPTED 0 None.


(** A bind of the resource that is not an owner's. *)
Definition is_sharee_bind (resourceID : Z) (r : BindRow) : bool :=
  (RESOURCE_ID r =? resourceID) && bool_decide (BIND_MODE r <> _BIND_MODE_OWN).

(** The rows of the resource in the homes [homes] taken out of the bind
    table. *)
Definition without_binds (resourceID : Z) (homes : list Z)
  (rows : list BindRow) : list BindRow :=
  List.filter
    (fun r => negb ((RESOURCE_ID r =? resourceID) &&
                    existsb (Z.eqb (HOME_RESOURCE_ID r)) homes))
    rows.

(** The sharees of the owner's view [self] can be reached: the homes have
    distinct ids, the resource is bound at most once in a home, and every
    bind of it outside the owner's home is a sharee's, in the home of
    another principal, which is the home the lookup by UID gives for that
    principal. *)
Definition sharees_resolve (w : World) (self : View) : Prop :=
  List.NoDup (map h_resourceID (w_homes w)) /\
  List.NoDup (map HOME_RESOURCE_ID
           (List.filter (fun r => RESOURCE_ID r =? _resourceID self)
              (w_binds w))) /\
  forall r : BindRow,
    In r (w_binds w) ->
    RESOURCE_ID r = _resourceID self ->
    HOME_RESOURCE_ID r <> h_resourceID (_home self) ->
    BIND_MODE r <> _BIND_MODE_OWN /\
    exists h : Home,
      homeWithResourceID (HOME_RESOURCE_ID r) (w_homes w) = Some h /\
      h_uid h <> h_uid (_home self) /\
      find_home (h_homeType (_home self)) (h_uid h) (w_homes w) = Some h.
(** ** Running the monad *)

Lemma bind_Ok {A B} (m : M A) (k : A -> M B) w a w' :
  m w = Ok a w' -> bind m k w = k a w'.
Proof. intros H. unfold bind. now rewrite H. Qed.

Lemma bind_Raise {A B} (m : M A) (k : A -> M B) w e w' :
  m w = Raise e w' -> bind m k w = Raise e w'.
Proof. intros H. unfold bind. now rewrite H. Qed.

Lemma bind_assoc {A B C} (m : M A) (k1 : A -> M B) (k2 : B -> M C) w :
  bind (bind m k1) k2 w = bind m (fun a => bind (k1 a) k2) w.
Proof. unfold bind. now destruct (m w). Qed.

Lemma bind_ret {A B} (a : A) (k : A -> M B) w : bind (ret a) k w = k a w.
Proof. reflexivity. Qed.

Lemma bind_gets {A B} (f : World -> A) (k : A -> M B) w :
  bind (gets f) k w = k (f w) w.
Proof. reflexivity. Qed.

Lemma bind_modify {B} (f : World -> World) (k : unit -> M B) w :
  bind (modify f) k w = k tt (f w).
Proof. reflexivity. Qed.

Lemma bind_emit {B} (e : Event) (k : unit -> M B) w :
  bind (emit e) k w = k tt (setTrace (fun t => t ++ [e]) w).
Proof. reflexivity. Qed.

Lemma bind_raise {A B} (e : Exn) (k : A -> M B) w :
  bind (raise e) k w = Raise e w.
Proof. reflexivity. Qed.

Lemma run_ret {A} (a : A) w : ret a w = Ok a w.
Proof. reflexivity. Qed.

Lemma run_gets {A} (f : World -> A) w : gets f w = Ok (f w) w.
Proof. reflexivity. Qed.

Lemma run_modify (f : World -> World) w : modify f w = Ok tt (f w).
Proof. reflexivity. Qed.

Lemma run_emit (e : Event) w :
  emit e w = Ok tt (setTrace (fun t => t ++ [e]) w).
Proof. reflexivity. Qed.

Lemma run_raise {A} (e : Exn) w : @raise A e w = Raise e w.
Proof. reflexivity. Qed.

(** Projections of updated states and objects. *)
Ltac proj :=
  cbn [w_env w_binds w_homes w_children w_notifications w_displayName
       w_supportedComponents w_syncTokenRevision w_revisionSeq
       w_nextResourceID w_uuidCalls w_trace
       setBinds setHomes setChildren setNotifications setSupported
       setSyncTokens setRevisionSeq setNextResourceID setUuidCalls setTrace
       _home _ownerHome _bindMode _resourceID _externalID _name _bindStatus
       _bindRevision _bindMessage with_bindMode with_bindStatus
       with_bindRevision with_bindMessage viewerHome id name
       shareUID shareMode shareStatus shareMessage effectiveShareMode
       deref fst snd].

Ltac proj_all :=
  cbn [w_env w_binds w_homes w_children w_notifications w_displayName
       w_supportedComponents w_syncTokenRevision w_revisionSeq
       w_nextResourceID w_uuidCalls w_trace
       setBinds setHomes setChildren setNotifications setSupported
       setSyncTokens setRevisionSeq setNextResourceID setUuidCalls setTrace
       _home _ownerHome _bindMode _resourceID _externalID _name _bindStatus
       _bindRevision _bindMessage with_bindMode with_bindStatus
       with_bindRevision with_bindMessage viewerHome id name
       shareUID shareMode shareStatus shareMessage effectiveShareMode
       deref fst snd] in *.

(** One step at the head of a program: the first primitive is executed. *)
Ltac mstep :=
  first
    [ rewrite bind_assoc
    | rewrite bind_ret
    | rewrite bind_gets
    | rewrite bind_modify
    | rewrite bind_emit
    | rewrite bind_raise
    | rewrite run_ret
    | rewrite run_gets
    | rewrite run_modify
    | rewrite run_emit
    | rewrite run_raise ].

Ltac mrun := repeat first [mstep | progress proj].

(** Unfolding of the monad's combinators, then of the projections of
    updated states and objects. *)
Ltac run :=
  cbv beta iota zeta delta
    [bind ret raise gets modify emit deref try_except];
  cbn [w_env w_binds w_homes w_children w_notifications w_displayName
       w_supportedComponents w_syncTokenRevision w_revisionSeq
       w_nextResourceID w_uuidCalls w_trace
       setBinds setHomes setChildren setNotifications setSupported
       setSyncTokens setRevisionSeq setNextResourceID setUuidCalls setTrace
       _home _ownerHome _bindMode _resourceID _externalID _name _bindStatus
       _bindRevision _bindMessage with_bindMode with_bindStatus
       with_bindRevision with_bindMessage viewerHome id name
       shareUID shareMode shareStatus shareMessage effectiveShareMode
       fst snd].

Ltac run_in H :=
  cbv beta iota zeta delta
    [bind ret raise gets modify emit deref try_except] in H;
  cbn [w_env w_binds w_homes w_children w_notifications w_displayName
       w_supportedComponents w_syncTokenRevision w_revisionSeq
       w_nextResourceID w_uuidCalls w_trace
       setBinds setHomes setChildren setNotifications setSupported
       setSyncTokens setRevisionSeq setNextResourceID setUuidCalls setTrace
       _home _ownerHome _bindMode _resourceID _externalID _name _bindStatus
       _bindRevision _bindMessage with_bindMode with_bindStatus
       with_bindRevision with_bindMessage viewerHome id name
       shareUID shareMode shareStatus shareMessage effectiveShareMode
       fst snd] in H.

(** Decisions between distinct or equal constants. *)
Ltac decide_consts :=
  repeat first
    [ rewrite bool_decide_eq_true_2 by reflexivity
    | rewrite bool_decide_eq_false_2 by discriminate ];
  cbn [orb andb negb].

(** States written as the constructor applied to their twelve fields. *)
Ltac expose :=
  unfold setBinds, setHomes, setChildren, setNotifications, setSupported,
    setSyncTokens, setRevisionSeq, setNextResourceID, setUuidCalls, setTrace;
  cbn [w_env w_binds w_homes w_children w_notifications w_displayName
       w_supportedComponents w_syncTokenRevision w_revisionSeq
       w_nextResourceID w_uuidCalls w_trace].

Lemma invalidateQueryCache_run (self : View) (w : World) :
  invalidateQueryCache self w =
  Ok tt (setTrace
           (fun t => t ++ invalidation_events (env_queryCacher (w_env w)) self)
           w).
Proof.
  unfold invalidateQueryCache, invalidation_events. run.
  destruct (env_queryCacher (w_env w)); run; expose.
  - now rewrite <- !app_assoc.
  - rewrite app_nil_r. now destruct w.
Qed.

(** ** Lookups read the bind table and the homes, nothing else *)

Lemma ownerHomeOf_frame resourceID w w' :
  w_binds w' = w_binds w -> w_homes w' = w_homes w ->
  ownerHomeOf resourceID w' = ownerHomeOf resourceID w.
Proof. intros Hb Hh. unfold ownerHomeOf. now rewrite Hb, Hh. Qed.

Lemma makeView_frame home w w' r :
  w_binds w' = w_binds w -> w_homes w' = w_homes w ->
  makeView home w' r = makeView home w r.
Proof.
  intros Hb Hh. unfold makeView.
  now rewrite (ownerHomeOf_frame _ _ _ Hb Hh).
Qed.

Lemma findView_frame acceptedOnly p home w w' :
  w_binds w' = w_binds w -> w_homes w' = w_homes w ->
  findView acceptedOnly p home w' = findView acceptedOnly p home w.
Proof.
  intros Hb Hh. unfold findView. rewrite Hb.
  destruct (List.find _ (w_binds w)); cbn; [|reflexivity].
  now rewrite (makeView_frame _ _ _ _ Hb Hh).
Qed.

Lemma objectWith_run acceptedOnly p home w :
  objectWith acceptedOnly p home w = Ok (findView acceptedOnly p home w) w.
Proof. reflexivity. Qed.

Lemma homeWithUID_lookup_frame homeType uid w w' :
  w_homes w' = w_homes w ->
  forall h, homeWithUID homeType uid false w = Ok h w ->
            homeWithUID homeType uid false w' = Ok h w'.
Proof.
  intros Hh h. unfold homeWithUID. rewrite Hh.
  destruct (find_home homeType uid (w_homes w)); intros [= <-]; reflexivity.
Qed.

Lemma homeWithUID_lookup homeType uid w :
  homeWithUID homeType uid false w =
  Ok (find_home homeType uid (w_homes w)) w.
Proof.
  unfold homeWithUID. now destruct (find_home homeType uid (w_homes w)).
Qed.

Lemma shareeView_run (self : View) (uid : string) (w : World) :
  shareeView self uid w =
  Ok (if String.eqb (h_uid (_home self)) uid then None
      else match find_home (h_homeType (_home self)) uid (w_homes w) with
           | Some h =>
               findView false (fun r => RESOURCE_ID r =? id self) h w
           | None => None
           end) w.
Proof.
  unfold shareeView.
  destruct (String.eqb (h_uid (_home self)) uid); [reflexivity|].
  rewrite (bind_Ok _ _ _ _ _ (homeWithUID_lookup _ _ _)).
  now destruct (find_home _ uid (w_homes w)).
Qed.

Lemma shareeView_frame (self : View) (uid : string) (w w' : World) o :
  w_binds w' = w_binds w -> w_homes w' = w_homes w ->
  shareeView self uid w = Ok o w ->
  shareeView self uid w' = Ok o w'.
Proof.
  intros Hb Hh. rewrite !shareeView_run. intros [= <-]. rewrite Hh.
  destruct (String.eqb (h_uid (_home self)) uid); [reflexivity|].
  destruct (find_home _ uid (w_homes w)); [|reflexivity].
  now rewrite (findView_frame _ _ _ w w' Hb Hh).
Qed.

(** ** Status transitions and [updateShare] *)

Lemma same_frame_refl w : same_frame w w.
Proof. now repeat split. Qed.

Lemma same_frame_trans w1 w2 w3 :
  same_frame w1 w2 -> same_frame w2 w3 -> same_frame w1 w3.
Proof.
  unfold same_frame. intros (?&?&?&?&?&?) (?&?&?&?&?&?).
  repeat split; congruence.
Qed.

Lemma updateRows_id resourceID homeID rows :
  updateRows (fun r => r) resourceID homeID rows = rows.
Proof.
  unfold updateRows. induction rows as [|r rows IH]; cbn; [easy|].
  rewrite IH. now destruct (bind_matches resourceID homeID r).
Qed.

Lemma _changedStatus_spec (v : View) (c : option Z) (w : World) :
  exists (w' : World) (mid : list Event),
    let acc := bool_decide (_bindStatus v = _BIND_STATUS_ACCEPTED) in
    let out := bool_decide (_bindStatus v = _BIND_STATUS_INVITED) ||
               bool_decide (_bindStatus v = _BIND_STATUS_DECLINED) in
    let hid := h_resourceID (_home v) in
    _changedStatus v c w =
      Ok (if acc then with_bindRevision (w_revisionSeq w) v else v) w' /\
    same_frame w w' /\
    w_notifications w' = w_notifications w /\
    w_trace w' = w_trace w ++ mid /\
    Forall transition_event mid /\
    w_binds w' =
      (if acc
       then updateRows (set_revision (w_revisionSeq w)) (_resourceID v) hid
              (w_binds w)
       else w_binds w) /\
    w_children w' =
      (if acc
       then <[(hid, inr (_resourceID v)) := _resourceID v]>
              (<[(hid, inl (_name v)) := _resourceID v]> (w_children w))
       else if out
            then delete (hid, inr (_resourceID v))
                   (delete (hid, inl (_name v)) (w_children w))
            else w_children w).
Proof.
  unfold _changedStatus.
  destruct (bool_decide (_bindStatus v = _BIND_STATUS_ACCEPTED)) eqn:Hacc.
  - unfold _initSyncToken, _initBindRevision, _syncTokenRevision,
      children_set.
    run. rewrite invalidateQueryCache_run. run.
    rewrite lookup_insert_eq. cbn [default].
    eexists. eexists. cbn zeta.
    split; [reflexivity|]. run.
    split; [now repeat split|].
    split; [reflexivity|].
    split; [rewrite <- !app_assoc; reflexivity|].
    split; [|split; reflexivity].
    apply Forall_app. split.
    + repeat constructor.
    + unfold invalidation_events. destruct (env_queryCacher _);
        repeat constructor.
  - destruct (bool_decide (_bindStatus v = _BIND_STATUS_INVITED) ||
              bool_decide (_bindStatus v = _BIND_STATUS_DECLINED)) eqn:Hout.
    + unfold _deletedSyncToken, children_pop. run.
      eexists. eexists. cbn zeta.
      split; [reflexivity|]. run.
      split; [now repeat split|].
      split; [reflexivity|].
      split; [reflexivity|].
      split; [|split; reflexivity].
      repeat constructor.
    + run. exists w, []. cbn zeta.
      split; [reflexivity|].
      split; [apply same_frame_refl|].
      split; [reflexivity|].
      split; [now rewrite app_nil_r|].
      split; [constructor|split; reflexivity].
Qed.

Lemma updateShare_unchanged (self sv : View) mode status summary w :
  columnMap_nonempty (updateShare_columnMap sv mode status summary) = false ->
  updateShare self sv mode status summary w = Ok sv w.
Proof. intros H. unfold updateShare. now rewrite H. Qed.

Lemma updateShare_view_fixed (sv : View) cm rev :
  _home (updateShare_view sv cm rev) = _home sv /\
  _ownerHome (updateShare_view sv cm rev) = _ownerHome sv /\
  _resourceID (updateShare_view sv cm rev) = _resourceID sv /\
  _externalID (updateShare_view sv cm rev) = _externalID sv /\
  _name (updateShare_view sv cm rev) = _name sv.
Proof.
  unfold updateShare_view.
  destruct (cm_BIND_MODE cm), (cm_BIND_STATUS cm) as [s|], (cm_MESSAGE cm);
    try destruct (bool_decide (s = _BIND_STATUS_ACCEPTED)); now cbn.
Qed.

Lemma updateShare_view_changed (sv : View) cm rev :
  _bindMode (updateShare_view sv cm rev) =
    match cm_BIND_MODE cm with Some m => m | None => _bindMode sv end /\
  _bindStatus (updateShare_view sv cm rev) =
    match cm_BIND_STATUS cm with Some s => s | None => _bindStatus sv end /\
  _bindMessage (updateShare_view sv cm rev) =
    match cm_MESSAGE cm with Some s => Some s | None => _bindMessage sv end.
Proof.
  unfold updateShare_view.
  destruct (cm_BIND_MODE cm), (cm_BIND_STATUS cm) as [s|], (cm_MESSAGE cm);
    try destruct (bool_decide (s = _BIND_STATUS_ACCEPTED)); now cbn.
Qed.

Lemma updateShare_changed (self sv : View) mode status summary w :
  let cm := updateShare_columnMap sv mode status summary in
  let sv' := updateShare_view sv cm (w_revisionSeq w) in
  columnMap_nonempty cm = true ->
  exists (w' : World) (mid : list Event),
    updateShare self sv mode status summary w = Ok sv' w' /\
    same_frame w w' /\
    w_notifications w' = w_notifications w /\
    w_trace w' =
      w_trace w ++
      [SQLUpdateBindColumns cm (_resourceID self) (h_resourceID (_home sv))] ++
      mid ++
      invalidation_events (env_queryCacher (w_env w)) sv' ++
      [NotifyPropertyChanged (h_resourceID (_home self)) (_resourceID self);
       NotifyChanged (h_resourceID (_home sv))] /\
    Forall transition_event mid /\
    (cm_BIND_STATUS cm = None -> mid = []) /\
    w_binds w' = updateShare_rows self sv cm (w_revisionSeq w) (w_binds w) /\
    w_children w' = children_after sv (cm_BIND_STATUS cm) (w_children w) /\
    (cm_BIND_STATUS cm = None ->
     w_syncTokenRevision w' = w_syncTokenRevision w /\
     w_revisionSeq w' = w_revisionSeq w).
Proof.
  intros cm sv' Hne. unfold updateShare. fold cm. rewrite Hne.
  subst sv'. unfold updateShare_view, updateShare_rows, children_after.
  unfold _updateBindColumnsQuery, _previousAcceptCount, notifyPropertyChanged,
    notifyChanged.
  destruct (cm_BIND_STATUS cm) as [s|] eqn:Hs.
  - run.
    match goal with
    | |- context [_changedStatus ?v ?c ?w0] =>
        destruct (_changedStatus_spec v c w0)
          as (w1 & mid & Hrun & Hfr & Hnot & Htr & Hmid & Hb & Hch)
    end.
    run_in Hrun. run_in Hfr. run_in Htr. run_in Hb. run_in Hch. run_in Hnot.
    assert (Hst : forall v0 : View, _bindStatus (with_bindStatus s v0) = s)
      by reflexivity.
    rewrite Hrun. rewrite invalidateQueryCache_run. run.
    destruct Hfr as (Hfe & Hfh & Hfd & Hfs & Hfn & Hfu).
    run_in Hfe. run_in Hfh. run_in Hfd. run_in Hfs. run_in Hfn. run_in Hfu.
    eexists. exists mid.
    split; [reflexivity|]. run.
    split; [now repeat split|].
    split; [assumption|].
    split.
    { rewrite Htr. rewrite <- !app_assoc. cbn [app].
      do 3 f_equal. rewrite ?Hfe.
      destruct (cm_MESSAGE cm), (bool_decide (s = _BIND_STATUS_ACCEPTED)),
        (cm_BIND_MODE cm); reflexivity. }
    split; [assumption|].
    split; [discriminate|].
    split.
    { rewrite Hb. destruct (bool_decide (s = _BIND_STATUS_ACCEPTED));
        [|reflexivity].
      now destruct (cm_BIND_MODE cm). }
    split; [|discriminate].
    rewrite Hch.
    destruct (bool_decide (s = _BIND_STATUS_ACCEPTED)).
    { now destruct (cm_BIND_MODE cm). }
    destruct (bool_decide (s = _BIND_STATUS_INVITED) ||
              bool_decide (s = _BIND_STATUS_DECLINED)); [|reflexivity].
    now destruct (cm_BIND_MODE cm).
  - run. rewrite invalidateQueryCache_run. run.
    eexists. exists [].
    split; [reflexivity|]. run.
    split; [now repeat split|].
    split; [reflexivity|].
    split.
    { rewrite <- !app_assoc. cbn [app]. do 3 f_equal.
      now destruct (cm_MESSAGE cm), (cm_BIND_MODE cm). }
    split; [constructor|].
    split; [reflexivity|].
    split; [reflexivity|].
    split; [reflexivity|].
    intros _. split; reflexivity.
Qed.

(** ** Rows of the bind table *)

Lemma find_head_filter {A} (p : A -> bool) (l : list A) :
  List.find p l = head (List.filter p l).
Proof.
  induction l as [|x l IH]; [reflexivity|]. cbn.
  now destruct (p x).
Qed.

Lemma filter_ext_eq {A} (p q : A -> bool) (l : list A) :
  (forall x, p x = q x) -> List.filter p l = List.filter q l.
Proof.
  intros H. induction l as [|x l IH]; [reflexivity|]. cbn.
  now rewrite H, IH.
Qed.

Lemma filter_app_eq {A} (p : A -> bool) (l1 l2 : list A) :
  List.filter p (l1 ++ l2) = List.filter p l1 ++ List.filter p l2.
Proof.
  induction l1 as [|x l1 IH]; [reflexivity|]. cbn.
  destruct (p x); cbn; now rewrite IH.
Qed.

Lemma filter_map_commute {A} (p : A -> bool) (g : A -> A) (l : list A) :
  (forall x, p (g x) = p x) ->
  List.filter p (map g l) = map g (List.filter p l).
Proof.
  intros H. induction l as [|x l IH]; [reflexivity|]. cbn.
  rewrite H. destruct (p x); cbn; now rewrite IH.
Qed.

Lemma filter_nil_iff {A} (p : A -> bool) (l : list A) :
  List.filter p l = [] <-> forall x, In x l -> p x = false.
Proof.
  induction l as [|x l IH]; cbn.
  - split; [intros _ x []|reflexivity].
  - destruct (p x) eqn:Hp.
    + split; [discriminate|]. intros H. specialize (H x (or_introl eq_refl)).
      congruence.
    + rewrite IH. split.
      * intros H y [<-|Hy]; [assumption|now apply H].
      * intros H y Hy. apply H. now right.
Qed.

Lemma set_revision_keeps rev : keeps_keys (set_revision rev).
Proof. intros r. now repeat split. Qed.

Lemma set_message_keeps msg : keeps_keys (set_message msg).
Proof. intros r. now repeat split. Qed.

Lemma apply_columnMap_keeps cm : keeps_keys (apply_columnMap cm).
Proof. intros r. now repeat split. Qed.

Lemma bind_matches_keeps f resourceID homeID r :
  keeps_keys f ->
  bind_matches resourceID homeID (f r) = bind_matches resourceID homeID r.
Proof.
  intros Hf. unfold bind_matches. destruct (Hf r) as (-> & -> & _).
  reflexivity.
Qed.

Lemma updateRows_as_map f resourceID homeID rows :
  updateRows f resourceID homeID rows =
  map (fun r => if bind_matches resourceID homeID r then f r else r) rows.
Proof. reflexivity. Qed.

Lemma filter_updateRows_same f resourceID homeID rows :
  keeps_keys f ->
  List.filter (bind_matches resourceID homeID)
    (updateRows f resourceID homeID rows) =
  map f (List.filter (bind_matches resourceID homeID) rows).
Proof.
  intros Hf. unfold updateRows.
  induction rows as [|r rows IH]; [reflexivity|]. cbn.
  destruct (bind_matches resourceID homeID r) eqn:Hm.
  - rewrite (bind_matches_keeps f _ _ _ Hf), Hm. cbn. now rewrite <- IH.
  - rewrite Hm. exact IH.
Qed.

Lemma filter_updateRows_other f resourceID homeID resourceID' homeID' rows :
  keeps_keys f ->
  resourceID <> resourceID' \/ homeID <> homeID' ->
  List.filter (bind_matches resourceID' homeID')
    (updateRows f resourceID homeID rows) =
  List.filter (bind_matches resourceID' homeID') rows.
Proof.
  intros Hf Hne. unfold updateRows.
  induction rows as [|r rows IH]; [reflexivity|]. cbn.
  destruct (bind_matches resourceID homeID r) eqn:Hm.
  - rewrite (bind_matches_keeps f _ _ _ Hf).
    assert (Hno : bind_matches resourceID' homeID' r = false).
    { unfold bind_matches in *.
      apply andb_true_iff in Hm. destruct Hm as [H1 H2].
      apply Z.eqb_eq in H1. apply Z.eqb_eq in H2.
      apply andb_false_iff.
      destruct Hne as [Hne|Hne]; [left|right]; apply Z.eqb_neq; congruence. }
    rewrite Hno. exact IH.
  - now rewrite IH.
Qed.

Lemma filter_updateRows_any f resourceID homeID resourceID' homeID' rows :
  keeps_keys f ->
  exists g : BindRow -> BindRow,
    (forall r, g r = r \/ g r = f r) /\
    List.filter (bind_matches resourceID' homeID')
      (updateRows f resourceID homeID rows) =
    map g (List.filter (bind_matches resourceID' homeID') rows).
Proof.
  intros Hf.
  exists (fun r => if bind_matches resourceID homeID r then f r else r).
  split.
  - intros r. destruct (bind_matches resourceID homeID r); auto.
  - rewrite updateRows_as_map. apply filter_map_commute.
    intros r. destruct (bind_matches resourceID homeID r);
      [now apply bind_matches_keeps|reflexivity].
Qed.

Lemma binds_of_frame resourceID homeID w w' :
  w_binds w' = w_binds w ->
  binds_of resourceID homeID w' = binds_of resourceID homeID w.
Proof. intros H. unfold binds_of. now rewrite H. Qed.

(** The lookups by resource id, through [binds_of]. *)
Lemma findView_by_id (home : Home) (resourceID : Z) (w : World) :
  findView false (fun r => RESOURCE_ID r =? resourceID) home w =
  option_map (makeView home w)
    (head (binds_of resourceID (h_resourceID home) w)).
Proof.
  unfold findView, binds_of. rewrite find_head_filter. do 2 f_equal.
  apply filter_ext_eq. intros r. unfold bind_matches. cbn [negb orb].
  rewrite andb_true_r. apply andb_comm.
Qed.

Lemma findView_accepted_by_id (home : Home) (resourceID : Z) (w : World) :
  findView true (fun r => RESOURCE_ID r =? resourceID) home w =
  option_map (makeView home w)
    (List.find
       (fun r => bool_decide (BIND_STATUS r = _BIND_STATUS_ACCEPTED))
       (binds_of resourceID (h_resourceID home) w)).
Proof.
  unfold findView, binds_of. f_equal. cbn [negb orb].
  induction (w_binds w) as [|r rows IH]; [reflexivity|]. cbn.
  unfold bind_matches at 1.
  rewrite (andb_comm (RESOURCE_ID r =? resourceID)).
  destruct ((HOME_RESOURCE_ID r =? h_resourceID home) &&
            (RESOURCE_ID r =? resourceID)); cbn.
  - now destruct (bool_decide (BIND_STATUS r = _BIND_STATUS_ACCEPTED)).
  - exact IH.
Qed.

(** Who owns a resource does not depend on columns other than the keys and
    the mode, nor on rows of other resources. *)
Lemma ownerHomeOf_map (g : BindRow -> BindRow) resourceID w w' :
  (forall r, RESOURCE_ID (g r) = RESOURCE_ID r /\
             BIND_MODE (g r) = BIND_MODE r /\
             HOME_RESOURCE_ID (g r) = HOME_RESOURCE_ID r) ->
  w_binds w' = map g (w_binds w) ->
  w_homes w' = w_homes w ->
  ownerHomeOf resourceID w' = ownerHomeOf resourceID w.
Proof.
  intros Hg Hb Hh. unfold ownerHomeOf. rewrite Hb, Hh. clear Hb Hh.
  induction (w_binds w) as [|r rows IH]; [reflexivity|]. cbn.
  destruct (Hg r) as (-> & -> & Hhome).
  destruct ((RESOURCE_ID r =? resourceID) &&
            bool_decide (BIND_MODE r = _BIND_MODE_OWN));
    [now rewrite Hhome|exact IH].
Qed.

Lemma ownerHomeOf_app resourceID w w' (extra : list BindRow) (h : Home) :
  w_binds w' = w_binds w ++ extra ->
  w_homes w' = w_homes w ->
  ownerHomeOf resourceID w = Some h ->
  ownerHomeOf resourceID w' = Some h.
Proof.
  intros Hb Hh. unfold ownerHomeOf. rewrite Hb, Hh. clear Hb Hh.
  induction (w_binds w) as [|r rows IH]; [discriminate|]. cbn.
  destruct ((RESOURCE_ID r =? resourceID) &&
            bool_decide (BIND_MODE r = _BIND_MODE_OWN));
    [trivial|exact IH].
Qed.

Lemma homeWithResourceID_app homeID hs extra h :
  homeWithResourceID homeID hs = Some h ->
  homeWithResourceID homeID (hs ++ extra) = Some h.
Proof.
  unfold homeWithResourceID.
  induction hs as [|x hs IH]; [discriminate|]. cbn.
  destruct (h_resourceID x =? homeID); [trivial|exact IH].
Qed.

Lemma ownerHomeOf_more_homes resourceID w w' extra h :
  w_binds w' = w_binds w ->
  w_homes w' = w_homes w ++ extra ->
  ownerHomeOf resourceID w = Some h ->
  ownerHomeOf resourceID w' = Some h.
Proof.
  intros Hb Hh. unfold ownerHomeOf. rewrite Hb, Hh.
  destruct (List.find _ (w_binds w)); [|discriminate].
  apply homeWithResourceID_app.
Qed.

(** ** [shareWith]: the insert and what follows it *)

Lemma same_but_uuid_refl w : same_but_uuid w w.
Proof. now repeat split. Qed.

Lemma same_but_uuid_trans w1 w2 w3 :
  same_but_uuid w1 w2 -> same_but_uuid w2 w3 -> same_but_uuid w1 w3.
Proof.
  unfold same_but_uuid.
  intros (?&?&?&?&?&?&?&?&?&?&?) (?&?&?&?&?&?&?&?&?&?&?).
  repeat split; congruence.
Qed.

Lemma same_bind_refl r : same_bind_but_revision_message r r.
Proof. now repeat split. Qed.

Lemma same_bind_trans r1 r2 r3 :
  same_bind_but_revision_message r1 r2 ->
  same_bind_but_revision_message r2 r3 ->
  same_bind_but_revision_message r1 r3.
Proof.
  unfold same_bind_but_revision_message.
  intros (?&?&?&?&?&?) (?&?&?&?&?&?). repeat split; congruence.
Qed.

Lemma doInsert_run (self : View) (h : Home) mode st summary shareName w :
  let w1 := match shareName with
            | Some _ => w
            | None => setUuidCalls S w
            end in
  let row := new_bind self h mode st summary (next_name shareName w) in
  doInsert self h mode st summary shareName w =
  if insert_conflicts row (w_binds w) then Raise IntegrityError w1
  else Ok (next_name shareName w)
         (setTrace (fun t => t ++ [SQLInsertBind row])
            (setBinds (fun rows => rows ++ [row]) w1)).
Proof.
  cbv zeta. unfold doInsert, new_bind, next_name, newShareName,
    _bindInsertQuery.
  destruct shareName as [n|]; run;
    destruct (insert_conflicts _ (w_binds w)); reflexivity.
Qed.

Lemma insert_conflicts_bound (r : BindRow) (rows : list BindRow) :
  List.filter (bind_matches (RESOURCE_ID r) (HOME_RESOURCE_ID r)) rows <> [] ->
  insert_conflicts r rows = true.
Proof.
  intros Hne. unfold insert_conflicts. apply existsb_exists.
  destruct (List.filter _ rows) as [|x l] eqn:Hf; [now elim Hne|].
  assert (Hin : In x (List.filter
                        (bind_matches (RESOURCE_ID r) (HOME_RESOURCE_ID r))
                        rows)) by (rewrite Hf; now left).
  apply filter_In in Hin. destruct Hin as [Hin Hm].
  exists x. split; [exact Hin|].
  unfold bind_matches in Hm. apply andb_true_iff in Hm.
  destruct Hm as [-> ->]. reflexivity.
Qed.

Lemma insert_conflicts_free (r : BindRow) (rows : list BindRow) :
  insert_conflicts r rows = false ->
  List.filter (bind_matches (RESOURCE_ID r) (HOME_RESOURCE_ID r)) rows = [] /\
  List.find
    (fun r' => (HOME_RESOURCE_ID r' =? HOME_RESOURCE_ID r) &&
               String.eqb (RESOURCE_NAME r') (RESOURCE_NAME r) && true)
    rows = None.
Proof.
  intros Hfree. unfold insert_conflicts in Hfree.
  assert (Hall : forall x, In x rows ->
            (HOME_RESOURCE_ID x =? HOME_RESOURCE_ID r) &&
            ((RESOURCE_ID x =? RESOURCE_ID r) ||
             String.eqb (RESOURCE_NAME x) (RESOURCE_NAME r)) = false).
  { intros x Hx. destruct (_ && _) eqn:Hc; [|reflexivity].
    assert (existsb
              (fun r' => (HOME_RESOURCE_ID r' =? HOME_RESOURCE_ID r) &&
                         ((RESOURCE_ID r' =? RESOURCE_ID r) ||
                          String.eqb (RESOURCE_NAME r') (RESOURCE_NAME r)))
              rows = true) by (apply existsb_exists; eauto).
    congruence. }
  split.
  - apply filter_nil_iff. intros x Hx. specialize (Hall x Hx).
    unfold bind_matches.
    destruct (HOME_RESOURCE_ID x =? HOME_RESOURCE_ID r),
      (RESOURCE_ID x =? RESOURCE_ID r); cbn in *; congruence.
  - rewrite find_head_filter.
    replace (List.filter _ rows) with (@nil BindRow); [reflexivity|].
    symmetry. apply filter_nil_iff. intros x Hx. specialize (Hall x Hx).
    destruct (HOME_RESOURCE_ID x =? HOME_RESOURCE_ID r),
      (RESOURCE_ID x =? RESOURCE_ID r),
      (String.eqb (RESOURCE_NAME x) (RESOURCE_NAME r)); cbn in *; congruence.
Qed.

Lemma attempt_all_fail {A} (thunk : M A) (n : nat) :
  (forall w1, exists e w2, thunk w1 = Raise e w2 /\ same_but_uuid w1 w2) ->
  forall w, exists w', attempt thunk n w = Raise AllRetriesFailed w' /\
                       same_but_uuid w w'.
Proof.
  intros Hfail. induction n as [|n IH]; intros w; cbn.
  - exists w. split; [reflexivity|apply same_but_uuid_refl].
  - destruct (Hfail w) as (e & w2 & -> & Hs).
    destruct (IH (rollback w w2)) as (w' & Hrun & Hs').
    exists w'. split; [exact Hrun|].
    eapply same_but_uuid_trans; [|exact Hs'].
    unfold rollback. destruct Hs as (?&?&?&?&?&?&?&?&?&?&?).
    repeat split; cbn; congruence.
Qed.

(** With a bind of the resource already in the sharee's home every attempt
    of the insert fails, whatever name is tried. *)
Lemma subtransaction_doInsert_race (self : View) (h : Home) mode st summary
  shareName w :
  binds_of (_resourceID self) (h_resourceID h) w <> [] ->
  exists w', subtransaction (doInsert self h mode st summary shareName) w
             = Raise AllRetriesFailed w' /\
             same_but_uuid w w'.
Proof.
  intros Hbound. unfold subtransaction.
  assert (Hgen : forall n w0, same_but_uuid w w0 ->
            exists w', attempt (doInsert self h mode st summary shareName) n w0
                       = Raise AllRetriesFailed w' /\ same_but_uuid w0 w').
  { induction n as [|n IH]; intros w0 Hs0; cbn.
    - exists w0. split; [reflexivity|apply same_but_uuid_refl].
    - rewrite doInsert_run. cbv zeta.
      rewrite insert_conflicts_bound.
      2:{ cbn [new_bind RESOURCE_ID HOME_RESOURCE_ID].
          destruct Hs0 as (_ & Hb & _). rewrite Hb. exact Hbound. }
      match goal with
      | |- context [rollback w0 ?w2] =>
          assert (Hs2 : same_but_uuid w0 (rollback w0 w2))
      end.
      { unfold rollback. destruct shareName; now repeat split. }
      destruct (IH _ (same_but_uuid_trans _ _ _ Hs0 Hs2)) as (w' & Hrun & Hs').
      exists w'. split; [exact Hrun|].
      eapply same_but_uuid_trans; eassumption. }
  apply Hgen. apply same_but_uuid_refl.
Qed.

Lemma subtransaction_first_try {A} (thunk : M A) w a w' :
  thunk w = Ok a w' -> subtransaction thunk w = Ok a w'.
Proof. intros H. unfold subtransaction. cbn. now rewrite H. Qed.

Lemma setShared_run (self : View) (w : World) :
  owned self = true ->
  exists (w' : World) (evs : list Event) (g : BindRow -> BindRow),
    setShared self true w = Ok (setShared_view self) w' /\
    same_frame w w' /\
    w_notifications w' = w_notifications w /\
    w_children w' = w_children w /\
    w_syncTokenRevision w' = w_syncTokenRevision w /\
    w_revisionSeq w' = w_revisionSeq w /\
    w_trace w' = w_trace w ++ evs /\
    Forall (fun e => ~ outward_event e) evs /\
    (forall r, same_bind_but_revision_message r (g r)) /\
    w_binds w' = map g (w_binds w).
Proof.
  intros Hown. unfold setShared, setShared_view. rewrite Hown. cbn [negb].
  destruct (bool_decide (_bindMessage self = Some "shared"%string)).
  - exists w, [], (fun r => r). split; [reflexivity|].
    split; [apply same_frame_refl|].
    repeat split; try reflexivity.
    + now rewrite app_nil_r.
    + constructor.
    + now rewrite map_id.
  - unfold notifyPropertyChanged. mrun.
    rewrite (bind_Ok _ _ _ _ _ (invalidateQueryCache_run _ _)). mrun.
    eexists. eexists.
    exists (fun r => if bind_matches (_resourceID self)
                          (h_resourceID (_home self)) r
                     then set_message (Some "shared"%string) r else r).
    split; [reflexivity|]. proj.
    split; [now repeat split|].
    repeat split; try reflexivity.
    + now rewrite <- !app_assoc.
    + apply Forall_app. split.
      * repeat constructor. cbn. tauto.
      * apply Forall_app. split; [|repeat constructor; cbn; tauto].
        unfold invalidation_events. destruct (env_queryCacher _);
          repeat constructor; cbn; tauto.
    + destruct (bind_matches _ _ r); reflexivity.
    + destruct (bind_matches _ _ r); reflexivity.
    + destruct (bind_matches _ _ r); reflexivity.
    + destruct (bind_matches _ _ r); reflexivity.
    + destruct (bind_matches _ _ r); reflexivity.
    + destruct (bind_matches _ _ r); reflexivity.
Qed.

Lemma bind_step_compose w w1 w2 added g1 g2 evs1 evs2 :
  bind_step w w1 added g1 evs1 ->
  bind_step w1 w2 [] g2 evs2 ->
  bind_step w w2 added (fun r => g2 (g1 r)) (evs1 ++ evs2).
Proof.
  unfold bind_step.
  intros (?&?&?&?&?&?&?&Ht1&Hb1) (?&?&?&?&?&?&?&Ht2&Hb2).
  repeat split; try congruence.
  - rewrite Ht2, Ht1. now rewrite app_assoc.
  - rewrite Hb2, Hb1, app_nil_r. now rewrite map_map.
Qed.

Lemma gentle_compose g1 g2 :
  gentle g1 -> gentle g2 -> gentle (fun r => g2 (g1 r)).
Proof. intros H1 H2 r. eapply same_bind_trans; [apply H1|apply H2]. Qed.

Lemma gentle_id : gentle (fun r => r).
Proof. intros r. apply same_bind_refl. Qed.

Lemma gentle_cond (f : BindRow -> BindRow) (p : BindRow -> bool) :
  gentle f -> gentle (fun r => if p r then f r else r).
Proof. intros Hf r. destruct (p r); [apply Hf|apply same_bind_refl]. Qed.

Lemma gentle_set_revision rev : gentle (set_revision rev).
Proof. intros r. now repeat split. Qed.


Lemma inward_app evs1 evs2 : inward evs1 -> inward evs2 -> inward (evs1 ++ evs2).
Proof. intros H1 H2. apply Forall_app. now split. Qed.

Lemma inward_invalidation qc v : inward (invalidation_events qc v).
Proof.
  unfold inward, invalidation_events.
  destruct qc; repeat constructor; cbn; tauto.
Qed.

Ltac solve_inward :=
  repeat first
    [ assumption
    | apply inward_invalidation
    | apply inward_app
    | constructor; [cbn; tauto|]
    | constructor ].

Lemma shareWith_finish_run (self : View) (h : Home) (bindName : string) w :
  owned self = true ->
  exists (w' : World) (evs : list Event) (g : BindRow -> BindRow),
    shareWith_finish self h bindName w
      = Ok (bindName, setShared_view self) w' /\
    bind_step w w' [] g evs /\ inward evs /\ gentle g /\
    w_uuidCalls w' = w_uuidCalls w.
Proof.
  intros Hown. unfold shareWith_finish.
  destruct (setShared_run self w Hown)
    as (w1 & evs & g & Hrun & Hfr & Hn & Hc & _ & _ & Htr & Hin & Hg & Hb).
  rewrite (bind_Ok _ _ _ _ _ Hrun).
  unfold notifyPropertyChanged, notifyChanged. mrun.
  destruct Hfr as (He & Hh & Hd & Hs & Hnx & Hu).
  eexists. exists (evs ++ [NotifyPropertyChanged
                              (h_resourceID (_home (setShared_view self)))
                              (_resourceID (setShared_view self));
                            NotifyChanged (h_resourceID h)]), g.
  split; [reflexivity|].
  split; [|split; [|split; [exact Hg|exact Hu]]].
  - unfold bind_step. proj. repeat split; try assumption.
    + rewrite Htr. now rewrite <- !app_assoc.
    + now rewrite app_nil_r.
  - apply inward_app; [exact Hin|]. repeat constructor; cbn; tauto.
Qed.

Lemma find_by_name_appended (h : Home) (row : BindRow) (bindName : string)
  (rows : list BindRow) :
  HOME_RESOURCE_ID row = h_resourceID h ->
  RESOURCE_NAME row = bindName ->
  insert_conflicts row rows = false ->
  List.find
    (fun r => (HOME_RESOURCE_ID r =? h_resourceID h) &&
              String.eqb (RESOURCE_NAME r) bindName &&
              (negb false ||
               bool_decide (BIND_STATUS r = _BIND_STATUS_ACCEPTED)))
    (rows ++ [row]) = Some row.
Proof.
  intros Hh <- Hfree.
  destruct (insert_conflicts_free row rows Hfree) as (_ & Hname).
  rewrite Hh in Hname. cbn [negb orb].
  induction rows as [|x rows IH]; cbn.
  - rewrite Hh, Z.eqb_refl, String.eqb_refl. reflexivity.
  - cbn in Hname.
    destruct ((HOME_RESOURCE_ID x =? h_resourceID h) &&
              String.eqb (RESOURCE_NAME x) (RESOURCE_NAME row) && true);
      [discriminate|].
    apply IH; [|exact Hname].
    unfold insert_conflicts in *. cbn in Hfree.
    apply orb_false_iff in Hfree. tauto.
Qed.

Lemma shareWith_inserted_run (self : View) (h : Home) mode st summary
  (bindName : string) (w0 w : World) :
  let row := new_bind self h mode st summary bindName in
  insert_conflicts row (w_binds w0) = false ->
  w_binds w = w_binds w0 ++ [row] ->
  exists (w' : World) (evs : list Event) (g : BindRow -> BindRow),
    shareWith_inserted h st bindName w = Ok bindName w' /\
    bind_step w w' [] g evs /\ inward evs /\ gentle g /\
    w_uuidCalls w' = w_uuidCalls w.
Proof.
  intros row Hfree Hb. unfold shareWith_inserted.
  destruct (bool_decide (st = _BIND_STATUS_ACCEPTED)).
  - unfold anyObjectWithShareUID, objectWith. mrun.
    unfold findView. rewrite Hb.
    rewrite (find_by_name_appended h row bindName (w_binds w0) eq_refl
               eq_refl Hfree).
    cbn [option_map]. mrun.
    unfold _initSyncToken, _initBindRevision, _syncTokenRevision. mrun.
    rewrite (bind_Ok _ _ _ _ _ (invalidateQueryCache_run _ _)). mrun.
    eexists. eexists.
    exists (fun r =>
              if bind_matches (RESOURCE_ID row) (h_resourceID h) r
              then set_revision
                     (default 0
                        (<[(h_resourceID h, RESOURCE_ID row) :=
                             w_revisionSeq w]> (w_syncTokenRevision w)
                         !! (h_resourceID h, RESOURCE_ID row))) r
              else r).
    split; [reflexivity|].
    split; [|split; [|split; [|reflexivity]]].
    + unfold bind_step. proj. repeat split.
      * now rewrite <- !app_assoc.
      * now rewrite app_nil_r.
    + solve_inward.
    + apply gentle_cond, gentle_set_revision.
  - mrun. exists w, [], (fun r => r).
    split; [reflexivity|].
    split; [|split; [constructor|split; [apply gentle_id|reflexivity]]].
    unfold bind_step. repeat split; rewrite ?app_nil_r, ?map_id; reflexivity.
Qed.

(** The insert goes through at the first attempt when nothing in the
    sharee's home conflicts with the new row. *)
Lemma shareWith_new (self : View) (h : Home) mode status summary shareName w :
  let st := match status with None => _BIND_STATUS_ACCEPTED | Some s => s end in
  let row := new_bind self h mode st summary (next_name shareName w) in
  owned self = true ->
  insert_conflicts row (w_binds w) = false ->
  exists (w' : World) (evs : list Event) (g : BindRow -> BindRow),
    shareWith self h mode status summary shareName w
      = Ok (next_name shareName w, setShared_view self) w' /\
    bind_step w w' [row] g evs /\ inward evs /\ gentle g.
Proof.
  intros st row Hown Hfree. unfold shareWith. fold st.
  pose proof (doInsert_run self h mode st summary shareName w) as Hins.
  cbv zeta in Hins. fold row in Hins. rewrite Hfree in Hins.
  apply subtransaction_first_try in Hins.
  unfold bind at 1. rewrite Hins.
  match goal with
  | |- context [shareWith_inserted h st _ ?w1] =>
      destruct (shareWith_inserted_run self h mode st summary
                  (next_name shareName w) w w1 Hfree)
        as (w2 & evs2 & g2 & Hrun2 & Hstep2 & Hin2 & Hg2 & _);
        [destruct shareName; reflexivity|]
  end.
  rewrite Hrun2.
  destruct (shareWith_finish_run self h (next_name shareName w) w2 Hown)
    as (w3 & evs3 & g3 & Hrun3 & Hstep3 & Hin3 & Hg3 & _).
  rewrite Hrun3.
  exists w3, ([SQLInsertBind row] ++ evs2 ++ evs3), (fun r => g3 (g2 r)).
  split; [reflexivity|].
  split; [|split].
  - pose proof (bind_step_compose _ _ _ [] _ _ _ _ Hstep2 Hstep3) as H23.
    unfold bind_step in *. proj.
    destruct H23 as (?&?&?&?&?&?&?&Ht&Hb).
    destruct shareName; proj_all; repeat split; try assumption;
      try (rewrite Ht; now rewrite <- !app_assoc);
      try (rewrite Hb; now rewrite app_nil_r).
  - apply inward_app; [repeat constructor; cbn; tauto|].
    now apply inward_app.
  - now apply gentle_compose.
Qed.

(** ** What [updateShare] does to the rows and to the view *)

Lemma updateShare_effect (self child : View) mode status summary w :
  _resourceID child = _resourceID self ->
  let cm := updateShare_columnMap child mode status summary in
  exists (child' : View) (w' : World) (g : BindRow -> BindRow),
    updateShare self child mode status summary w = Ok child' w' /\
    same_frame w w' /\
    w_notifications w' = w_notifications w /\
    (_home child' = _home child /\
     _ownerHome child' = _ownerHome child /\
     _resourceID child' = _resourceID child /\
     _externalID child' = _externalID child /\
     _name child' = _name child) /\
    (_bindMode child' =
       match cm_BIND_MODE cm with Some m => m | None => _bindMode child end /\
     _bindStatus child' =
       match cm_BIND_STATUS cm with Some s => s | None => _bindStatus child end /\
     _bindMessage child' =
       match cm_MESSAGE cm with Some s => Some s | None => _bindMessage child end) /\
    w_binds w' = map g (w_binds w) /\
    keeps_keys g /\
    (forall r,
       bind_matches (_resourceID self) (h_resourceID (_home child)) r = false ->
       g r = r) /\
    (forall r,
       bind_matches (_resourceID self) (h_resourceID (_home child)) r = true ->
       BIND_MODE (g r) =
         match cm_BIND_MODE cm with Some m => m | None => BIND_MODE r end /\
       BIND_STATUS (g r) =
         match cm_BIND_STATUS cm with Some s => s | None => BIND_STATUS r end /\
       MESSAGE (g r) =
         match cm_MESSAGE cm with Some s => Some s | None => MESSAGE r end).
Proof.
  intros Hrid cm.
  pose proof (updateShare_changed self child mode status summary w) as Hch.
  pose proof (updateShare_unchanged self child mode status summary w) as Hun.
  cbv zeta in Hch. fold cm in Hch, Hun. clearbody cm.
  destruct (columnMap_nonempty cm) eqn:Hne.
  - destruct (Hch eq_refl)
      as (w' & mid & Hrun & Hfr & Hn & _ & _ & _ & Hb & _ & _).
    exists (updateShare_view child cm (w_revisionSeq w)), w'.
    exists (fun r =>
              if bind_matches (_resourceID self) (h_resourceID (_home child)) r
              then (match cm_BIND_STATUS cm with
                    | Some s =>
                        if bool_decide (s = _BIND_STATUS_ACCEPTED)
                        then set_revision (w_revisionSeq w)
                               (apply_columnMap cm r)
                        else apply_columnMap cm r
                    | None => apply_columnMap cm r
                    end)
              else r).
    split; [exact Hrun|]. split; [exact Hfr|]. split; [exact Hn|].
    split; [apply updateShare_view_fixed|].
    split; [apply updateShare_view_changed|].
    split; [|split; [|split]].
    + rewrite Hb. unfold updateShare_rows. rewrite Hrid.
      rewrite !updateRows_as_map.
      destruct (cm_BIND_STATUS cm) as [s|]; [|reflexivity].
      destruct (bool_decide (s = _BIND_STATUS_ACCEPTED)); [|reflexivity].
      rewrite map_map. apply map_ext. intros r.
      destruct (bind_matches _ _ r) eqn:Hm.
      * now rewrite (bind_matches_keeps _ _ _ _ (apply_columnMap_keeps cm)), Hm.
      * now rewrite Hm.
    + intros r. destruct (bind_matches _ _ r); [|now repeat split].
      destruct (cm_BIND_STATUS cm) as [s|]; [|now repeat split].
      destruct (bool_decide (s = _BIND_STATUS_ACCEPTED)); now repeat split.
    + intros r Hm. now rewrite Hm.
    + intros r Hm. rewrite Hm.
      destruct (cm_BIND_STATUS cm) as [s|] eqn:Hs;
        [destruct (bool_decide (s = _BIND_STATUS_ACCEPTED))|];
        cbn; rewrite ?Hs; now repeat split.
  - exists child, w, (fun r => r).
    split; [now apply Hun|].
    split; [apply same_frame_refl|]. split; [reflexivity|].
    split; [now repeat split|].
    unfold columnMap_nonempty in Hne.
    destruct (cm_BIND_MODE cm), (cm_BIND_STATUS cm), (cm_MESSAGE cm);
      try discriminate.
    split; [now repeat split|].
    split; [now rewrite map_id|].
    split; [intros r; now repeat split|].
    split; [reflexivity|]. intros r _. now repeat split.
Qed.

(** The diff against the view of a row, read on the row. *)
Lemma updateShare_columnMap_on_row (child : View) (r : BindRow) mode status
  summary :
  BIND_MODE r = _bindMode child ->
  BIND_STATUS r = _bindStatus child ->
  let cm := updateShare_columnMap child (Some mode) (Some status) summary in
  match cm_BIND_MODE cm with Some m => m | None => BIND_MODE r end = mode /\
  match cm_BIND_STATUS cm with Some s => s | None => BIND_STATUS r end = status.
Proof.
  intros Hm Hs. cbn. split.
  - case_bool_decide as H; cbn; [reflexivity|].
    rewrite Hm. destruct (decide (mode = _bindMode child)); [congruence|].
    now elim H.
  - case_bool_decide as H; cbn; [reflexivity|].
    rewrite Hs. destruct (decide (status = _bindStatus child)); [congruence|].
    now elim H.
Qed.

Lemma updateShare_columnMap_exact (sv : View) mode status summary :
  let cm := updateShare_columnMap sv mode status summary in
  (forall m, cm_BIND_MODE cm = Some m <-> mode = Some m /\ m <> _bindMode sv) /\
  (forall s, cm_BIND_STATUS cm = Some s <->
             status = Some s /\ s <> _bindStatus sv) /\
  (forall s, cm_MESSAGE cm = Some s <->
             summary = Some s /\ Some s <> _bindMessage sv).
Proof.
  cbn. repeat split.
  - destruct mode as [m0|]; [|discriminate].
    case_bool_decide; [|discriminate]. congruence.
  - destruct mode as [m0|]; [|discriminate].
    case_bool_decide; [|discriminate]. congruence.
  - intros [-> Hm]. now rewrite bool_decide_eq_true_2.
  - destruct status as [s0|]; [|discriminate].
    case_bool_decide; [|discriminate]. congruence.
  - destruct status as [s0|]; [|discriminate].
    case_bool_decide; [|discriminate]. congruence.
  - intros [-> Hm]. now rewrite bool_decide_eq_true_2.
  - destruct summary as [s0|]; [|discriminate].
    case_bool_decide; [|discriminate]. congruence.
  - destruct summary as [s0|]; [|discriminate].
    case_bool_decide; [|discriminate]. congruence.
  - intros [-> Hm]. now rewrite bool_decide_eq_true_2.
Qed.

(** C7, as the code has it.  [updateShare] builds the column diff from the
    arguments that are given and differ from the sharee's view.  When the
    diff is empty the call does nothing at all: no storage write, no cache
    invalidation, no change notification.  When it is not empty, the one
    column update it issues carries exactly the diff, and the call ends by
    invalidating the cached queries of the bind (when a query cacher is
    configured) and by notifying the owner's resource and the sharee's
    home; the effects of a status transition (sync token, bind revision,
    child index) occur only when the status is part of the diff. *)
Theorem updateShare_minimal_diff :
  forall (self sv : View) (mode : option BindMode)
         (status : option BindStatus) (summary : option string) (w : World),
    let cm := updateShare_columnMap sv mode status summary in
    ((forall m, cm_BIND_MODE cm = Some m <->
                mode = Some m /\ m <> _bindMode sv) /\
     (forall s, cm_BIND_STATUS cm = Some s <->
                status = Some s /\ s <> _bindStatus sv) /\
     (forall s, cm_MESSAGE cm = Some s <->
                summary = Some s /\ Some s <> _bindMessage sv)) /\
    (columnMap_nonempty cm = false ->
     updateShare self sv mode status summary w = Ok sv w) /\
    (columnMap_nonempty cm = true ->
     exists (sv' : View) (w' : World) (mid : list Event),
       updateShare self sv mode status summary w = Ok sv' w' /\
       w_binds w' = updateShare_rows self sv cm (w_revisionSeq w) (w_binds w) /\
       w_trace w' =
         w_trace w ++
         [SQLUpdateBindColumns cm (_resourceID self)
            (h_resourceID (_home sv))] ++
         mid ++
         invalidation_events (env_queryCacher (w_env w)) sv' ++
         [NotifyPropertyChanged (h_resourceID (_home self)) (_resourceID self);
          NotifyChanged (h_resourceID (_home sv))] /\
       Forall transition_event mid /\
       (cm_BIND_STATUS cm = None ->
        mid = [] /\
        w_children w' = w_children w /\
        w_syncTokenRevision w' = w_syncTokenRevision w)).
Proof.
  intros self sv mode status summary w cm.
  split; [apply updateShare_columnMap_exact|].
  split; [apply updateShare_unchanged|].
  intros Hne.
  destruct (updateShare_changed self sv mode status summary w Hne)
    as (w' & mid & Hrun & _ & _ & Htr & Hmid & Hnone & Hb & Hch & Hsync).
  exists (updateShare_view sv cm (w_revisionSeq w)), w', mid.
  repeat split; try assumption.
  - now apply Hnone.
  - rewrite Hch. fold cm. now rewrite H.
  - now apply Hsync.
Qed.

Lemma updateShare_minimal_diff_witness :
  updateShare Sample.calendar01
    (makeView Sample.home02 (Sample.world [Sample.own01; Sample.invited02])
       Sample.invited02)
    (Some _BIND_MODE_READ) (Some _BIND_STATUS_INVITED)
    (Some "please join"%string)
    (Sample.world [Sample.own01; Sample.invited02])
  = Ok (makeView Sample.home02 (Sample.world [Sample.own01; Sample.invited02])
          Sample.invited02)
       (Sample.world [Sample.own01; Sample.invited02]).
Proof.
  apply (proj1 (proj2
           (updateShare_minimal_diff Sample.calendar01
              (makeView Sample.home02
                 (Sample.world [Sample.own01; Sample.invited02])
                 Sample.invited02)
              (Some _BIND_MODE_READ) (Some _BIND_STATUS_INVITED)
              (Some "please join"%string)
              (Sample.world [Sample.own01; Sample.invited02])))).
  reflexivity.
Defined.

(** C7 as it was stated fails: with a query cacher configured, a call whose
    arguments all equal the current values raises no change notification and
    invalidates nothing. *)
Lemma updateShare_always_notifies_counterexample :
  let w := Sample.world [Sample.own01; Sample.invited02] in
  let sv := makeView Sample.home02 w Sample.invited02 in
  env_queryCacher (w_env w) = true /\
  exists (sv' : View) (w' : World),
    updateShare Sample.calendar01 sv (Some _BIND_MODE_READ)
      (Some _BIND_STATUS_INVITED) (Some "please join"%string) w = Ok sv' w' /\
    ~ In (NotifyChanged (h_resourceID Sample.home02)) (w_trace w') /\
    ~ In (NotifyPropertyChanged (h_resourceID Sample.home01) 10) (w_trace w') /\
    (forall k, ~ In (InvalidateAfterCommit k) (w_trace w')).
Proof.
  cbv zeta. split; [reflexivity|].
  eexists. eexists. split; [reflexivity|].
  cbn. tauto.
Qed.

(** ** Listing invitations *)

Lemma sharingInvites_loop_run (self : View) (oh : Home) rows w :
  _ownerHome self = Some oh ->
  sharingInvites_loop self rows w = Ok (map (invitation_of oh) rows) w.
Proof.
  intros Hoh. induction rows as [|[homeUID r] rows IH]; [reflexivity|].
  cbn [sharingInvites_loop map]. unfold ownerHome. rewrite Hoh. run.
  now rewrite IH.
Qed.

Lemma sharingInvites_owner (self : View) (oh : Home) w :
  owned self = true ->
  _ownerHome self = Some oh ->
  sharingInvites self w =
  Ok (map (invitation_of oh)
        (_sharedInvitationBindForResourceID (_resourceID self) w)) w.
Proof.
  intros Hown Hoh. unfold sharingInvites. rewrite Hown. cbn [negb]. run.
  now apply sharingInvites_loop_run.
Qed.

Lemma sharingInvites_not_owner (self : View) w :
  owned self = false -> sharingInvites self w = Ok [] w.
Proof. intros H. unfold sharingInvites. now rewrite H. Qed.

Section Sorting.

Context {A : Type} (key : A -> string).

Lemma sort_insert_perm x l : Permutation (sort_insert key x l) (x :: l).
Proof.
  induction l as [|y l IH]; cbn; [reflexivity|].
  destruct (String.leb (key x) (key y)); [reflexivity|].
  rewrite IH. apply perm_swap.
Qed.

Lemma sort_by_perm l : Permutation (sort_by key l) l.
Proof.
  induction l as [|x l IH]; cbn; [reflexivity|].
  rewrite sort_insert_perm. now constructor.
Qed.

Lemma sort_insert_hd x l y :
  String.leb (key y) (key x) = true ->
  HdRel (fun a b => String.leb (key a) (key b) = true) y l ->
  HdRel (fun a b => String.leb (key a) (key b) = true) y
    (sort_insert key x l).
Proof.
  intros Hyx Hl. destruct l as [|z l]; cbn.
  - now constructor.
  - destruct (String.leb (key x) (key z)); constructor; [assumption|].
    now inversion Hl.
Qed.

Lemma sort_insert_sorted x l :
  Sorted (fun a b => String.leb (key a) (key b) = true) l ->
  Sorted (fun a b => String.leb (key a) (key b) = true)
    (sort_insert key x l).
Proof.
  induction 1 as [|y l Hs IH Hhd]; cbn.
  - repeat constructor.
  - destruct (String.leb (key x) (key y)) eqn:Hxy.
    + constructor; [now constructor|]. now constructor.
    + constructor; [assumption|].
      apply sort_insert_hd; [|assumption].
      destruct (String.leb_total (key x) (key y)) as [H|H];
        [congruence|exact H].
Qed.

Lemma sort_by_sorted l :
  Sorted (fun a b => String.leb (key a) (key b) = true) (sort_by key l).
Proof.
  induction l as [|x l IH]; cbn; [constructor|].
  now apply sort_insert_sorted.
Qed.

End Sorting.

(** C6, as the code has it.  On a view that is not the owner's,
    [sharingInvites] is empty.  On the owner's view it lists every bind of
    the resource that is not the owner's own, whatever its mode, direct
    shares included; [allInvitations] is that list without the direct
    shares, sorted by sharee UID.  With one invited and one direct bind,
    [allInvitations] is the invited one alone. *)
Theorem invitations_listing :
  forall (self : View) (w : World),
    (owned self = false -> sharingInvites self w = Ok [] w) /\
    (forall oh : Home,
       owned self = true ->
       _ownerHome self = Some oh ->
       let all :=
         map (invitation_of oh)
           (_sharedInvitationBindForResourceID (_resourceID self) w) in
       sharingInvites self w = Ok all w /\
       exists res : list SharingInvitation,
         allInvitations self w = Ok res w /\
         Permutation res
           (List.filter
              (fun x => bool_decide (inv_mode x <> _BIND_MODE_DIRECT)) all) /\
         Sorted shareeUID_le res /\
         (forall a b : SharingInvitation,
            all = [a; b] \/ all = [b; a] ->
            inv_mode a <> _BIND_MODE_DIRECT ->
            inv_mode b = _BIND_MODE_DIRECT ->
            res = [a])).
Proof.
  intros self w. split; [apply sharingInvites_not_owner|].
  intros oh Hown Hoh all.
  assert (Hall : sharingInvites self w = Ok all w)
    by now apply sharingInvites_owner.
  split; [exact Hall|].
  unfold allInvitations. rewrite (bind_Ok _ _ _ _ _ Hall). run.
  eexists. split; [reflexivity|].
  split; [apply sort_by_perm|].
  split; [apply (sort_by_sorted inv_shareeUID)|].
  intros a b Hab Ha Hb.
  destruct Hab as [-> | ->]; cbn [List.filter];
    rewrite (bool_decide_eq_true_2 _ Ha);
    rewrite bool_decide_eq_false_2 by (intros Hn; now apply Hn);
    reflexivity.
Qed.

Lemma invitations_listing_witness :
  allInvitations Sample.calendar01
    (Sample.world [Sample.own01; Sample.direct03; Sample.invited02])
  = Ok [invitation_of Sample.home01 ("user02"%string, Sample.invited02)]
      (Sample.world [Sample.own01; Sample.direct03; Sample.invited02]).
Proof.
  destruct (proj2 (invitations_listing Sample.calendar01
                     (Sample.world
                        [Sample.own01; Sample.direct03; Sample.invited02]))
              Sample.home01 eq_refl eq_refl)
    as (_ & res & Hrun & _ & _ & Hone).
  rewrite Hrun. f_equal.
  apply (Hone (invitation_of Sample.home01 ("user02"%string, Sample.invited02))
           (invitation_of Sample.home01 ("puser03"%string, Sample.direct03))).
  - right. reflexivity.
  - discriminate.
  - reflexivity.
Defined.

(** C6 as it was stated fails for [sharingInvites]: on an owner's collection
    with one invited and one direct bind it returns both. *)
Lemma sharingInvites_only_invited_counterexample :
  let w := Sample.world [Sample.own01; Sample.invited02; Sample.direct03] in
  sharingInvites Sample.calendar01 w =
  Ok [invitation_of Sample.home01 ("user02"%string, Sample.invited02);
      invitation_of Sample.home01 ("puser03"%string, Sample.direct03)] w /\
  inv_status (invitation_of Sample.home01 ("user02"%string, Sample.invited02))
    = _BIND_STATUS_INVITED /\
  inv_mode (invitation_of Sample.home01 ("puser03"%string, Sample.direct03))
    = _BIND_MODE_DIRECT.
Proof. cbv zeta. repeat split. Qed.

(** ** The child index of a home *)

Lemma filter_filter_negb {A} (p : A -> bool) (l : list A) :
  List.filter p (List.filter (fun x => negb (p x)) l) = [].
Proof.
  induction l as [|x l IH]; [reflexivity|]. cbn.
  destruct (p x) eqn:Hp; cbn; [assumption|]. now rewrite Hp.
Qed.

Lemma removeShare_run (self sv : View) (w : World) :
  exists w' : World,
    removeShare self sv w = Ok tt w' /\
    same_frame w w' /\
    w_notifications w' = w_notifications w /\
    w_binds w' =
      List.filter
        (fun r => negb (bind_matches (_resourceID self)
                          (h_resourceID (_home sv)) r))
        (w_binds w) /\
    w_children w' =
      delete (h_resourceID (_home sv), inr (_resourceID sv))
        (delete (h_resourceID (_home sv), inl (_name sv)) (w_children w)) /\
    w_trace w' =
      w_trace w ++
      [DeletedSyncToken (h_resourceID (_home sv)) (_resourceID sv) true;
       NotifyPropertyChanged (h_resourceID (_home self)) (_resourceID self);
       NotifyChanged (h_resourceID (_home sv));
       SQLDeleteBind (_resourceID self) (h_resourceID (_home sv))] ++
      invalidation_events (env_queryCacher (w_env w)) sv.
Proof.
  unfold removeShare, _deletedSyncToken, children_pop, notifyPropertyChanged,
    notifyChanged, _deleteBindForResourceIDAndHomeID.
  run. rewrite invalidateQueryCache_run. run.
  eexists. split; [reflexivity|]. run.
  split; [now repeat split|].
  repeat split.
  now rewrite <- !app_assoc.
Qed.

(** C9, as the code has it.  The sharing code touches the child index of the
    sharee's home at two places only.  An [updateShare] whose diff contains
    the status files the view under its name and under its resource id when
    the new status is [ACCEPTED], drops both keys when it is [INVITED] or
    [DECLINED], and leaves the index alone for any other status; without a
    status in the diff the index is left alone.  [removeShare] drops both
    keys and deletes the bind. *)
Theorem child_index_maintenance :
  forall (self sv : View) (mode : option BindMode)
         (status : option BindStatus) (summary : option string) (w : World),
    let cm := updateShare_columnMap sv mode status summary in
    let byName := (h_resourceID (_home sv), inl (_name sv) : ChildKey) in
    let byID := (h_resourceID (_home sv), inr (_resourceID sv) : ChildKey) in
    (exists (sv' : View) (w' : World),
       updateShare self sv mode status summary w = Ok sv' w' /\
       (cm_BIND_STATUS cm = Some _BIND_STATUS_ACCEPTED ->
        w_children w' !! byName = Some (_resourceID sv) /\
        w_children w' !! byID = Some (_resourceID sv)) /\
       (cm_BIND_STATUS cm = Some _BIND_STATUS_INVITED \/
        cm_BIND_STATUS cm = Some _BIND_STATUS_DECLINED ->
        w_children w' !! byName = None /\ w_children w' !! byID = None) /\
       (cm_BIND_STATUS cm = Some _BIND_STATUS_INVALID \/
        cm_BIND_STATUS cm = Some _BIND_STATUS_DELETED \/
        cm_BIND_STATUS cm = None ->
        w_children w' = w_children w)) /\
    (exists w' : World,
       removeShare self sv w = Ok tt w' /\
       w_children w' !! byName = None /\
       w_children w' !! byID = None /\
       binds_of (_resourceID self) (h_resourceID (_home sv)) w' = []).
Proof.
  intros self sv mode status summary w cm byName byID. split.
  - destruct (columnMap_nonempty cm) eqn:Hne.
    + destruct (updateShare_changed self sv mode status summary w Hne)
        as (w' & mid & Hrun & _ & _ & _ & _ & _ & _ & Hch & _).
      fold cm in Hch. eexists. exists w'. split; [exact Hrun|].
      rewrite Hch. unfold children_after.
      split; [|split].
      * intros ->. decide_consts. split.
        -- rewrite lookup_insert_ne by (subst byName byID; congruence).
           apply lookup_insert_eq.
        -- apply lookup_insert_eq.
      * intros [-> | ->]; decide_consts; split.
        -- rewrite lookup_delete_ne by (subst byName byID; congruence).
           apply lookup_delete_eq.
        -- apply lookup_delete_eq.
        -- rewrite lookup_delete_ne by (subst byName byID; congruence).
           apply lookup_delete_eq.
        -- apply lookup_delete_eq.
      * intros [-> | [-> | ->]]; decide_consts; reflexivity.
    + exists sv, w. split; [now apply updateShare_unchanged|].
      unfold columnMap_nonempty in Hne.
      destruct (cm_BIND_MODE cm), (cm_BIND_STATUS cm), (cm_MESSAGE cm);
        try discriminate.
      split; [discriminate|].
      split; [intros [|]; discriminate|reflexivity].
  - destruct (removeShare_run self sv w)
      as (w' & Hrun & _ & _ & Hb & Hch & _).
    exists w'. split; [exact Hrun|]. rewrite Hch.
    split; [|split].
    + rewrite lookup_delete_ne by (subst byName byID; congruence).
      apply lookup_delete_eq.
    + apply lookup_delete_eq.
    + unfold binds_of. rewrite Hb. apply filter_filter_negb.
Qed.

Lemma child_index_maintenance_witness :
  let w := Sample.world [Sample.own01; Sample.invited02] in
  let sv := makeView Sample.home02 w Sample.invited02 in
  exists (sv' : View) (w' : World),
    updateShare Sample.calendar01 sv None (Some _BIND_STATUS_ACCEPTED) None w
      = Ok sv' w' /\
    w_children w' !! (2, inl "share-02"%string : ChildKey) = Some 10 /\
    w_children w' !! (2, inr 10 : ChildKey) = Some 10.
Proof.
  cbv zeta.
  destruct (proj1 (child_index_maintenance Sample.calendar01
                     (makeView Sample.home02
                        (Sample.world [Sample.own01; Sample.invited02])
                        Sample.invited02)
                     None (Some _BIND_STATUS_ACCEPTED) None
                     (Sample.world [Sample.own01; Sample.invited02])))
    as (sv' & w' & Hrun & Hacc & _).
  exists sv', w'. split; [exact Hrun|]. apply Hacc. reflexivity.
Defined.

(** C9 as it was stated fails in both directions.  A bind that [shareWith]
    creates in status [ACCEPTED] is not in the index of the sharee's home;
    and a bind that is in the index stays there when its status is changed
    to [INVALID]. *)
Lemma child_index_iff_accepted_counterexample :
  (exists (self' : View) (w' : World),
     shareWith Sample.calendar01 Sample.home02 _BIND_MODE_READ None None
       (Some "share-02"%string) (Sample.world [Sample.own01])
       = Ok ("share-02"%string, self') w' /\
     (exists r : BindRow,
        binds_of 10 2 w' = [r] /\ BIND_STATUS r = _BIND_STATUS_ACCEPTED) /\
     w_children w' !! (2, inl "share-02"%string : ChildKey) = None /\
     w_children w' !! (2, inr 10 : ChildKey) = None) /\
  (let w := Sample.world [Sample.own01; Sample.invited02] in
   let sv := makeView Sample.home02 w Sample.invited02 in
   exists (sv1 sv2 : View) (w1 w2 : World),
     updateShare Sample.calendar01 sv None (Some _BIND_STATUS_ACCEPTED) None w
       = Ok sv1 w1 /\
     updateShare Sample.calendar01 sv1 None (Some _BIND_STATUS_INVALID) None w1
       = Ok sv2 w2 /\
     (exists r : BindRow,
        binds_of 10 2 w2 = [r] /\ BIND_STATUS r = _BIND_STATUS_INVALID) /\
     w_children w2 !! (2, inl "share-02"%string : ChildKey) = Some 10 /\
     w_children w2 !! (2, inr 10 : ChildKey) = Some 10).
Proof.
  split.
  - eexists. eexists. split; [vm_compute; reflexivity|].
    split; [eexists; split; vm_compute; reflexivity|].
    split; vm_compute; reflexivity.
  - cbv zeta. eexists. eexists. eexists. eexists.
    split; [vm_compute; reflexivity|].
    split; [vm_compute; reflexivity|].
    split; [eexists; split; vm_compute; reflexivity|].
    split; vm_compute; reflexivity.
Qed.

(** ** [processExternalReply] and a status it does not know *)

(** C10.  When the sharee's home resolves to an external home and a bind
    named [shareUID] is found in it, [processExternalReply] with a status
    that is neither [ACCEPTED] nor [DECLINED] returns normally and leaves
    the whole state as it was: nothing is written, sent or recorded. *)
Theorem processExternalReply_unknown_status_ignored :
  forall (self : Home) (ownerUID shareeUID shareUID : string)
         (bindStatus : BindStatus) (summary : option string) (w : World)
         (shareeHome : Home) (shareeView : View),
    homeWithUID (h_homeType self) shareeUID false w = Ok (Some shareeHome) w ->
    h_external shareeHome = true ->
    anyObjectWithShareUID shareeHome shareUID w = Ok (Some shareeView) w ->
    bindStatus <> _BIND_STATUS_ACCEPTED ->
    bindStatus <> _BIND_STATUS_DECLINED ->
    SharingHomeMixIn.processExternalReply self ownerUID shareeUID shareUID
      bindStatus summary w = Ok tt w.
Proof.
  intros self ownerUID shareeUID shareUID bindStatus summary w shareeHome
    shareeView Hhome Hext Hview Hna Hnd.
  unfold SharingHomeMixIn.processExternalReply.
  rewrite (bind_Ok _ _ _ _ _ Hhome).
  rewrite Hext. cbn [negb].
  rewrite (bind_Ok _ _ _ _ _ Hview).
  rewrite (bool_decide_eq_false_2 _ Hna), (bool_decide_eq_false_2 _ Hnd).
  reflexivity.
Qed.

Lemma processExternalReply_unknown_status_ignored_witness :
  SharingHomeMixIn.processExternalReply Sample.home01 "user01" "puser03"
    "share-03" _BIND_STATUS_INVALID None
    (Sample.world [Sample.own01; Sample.direct03])
  = Ok tt (Sample.world [Sample.own01; Sample.direct03]).
Proof.
  apply (processExternalReply_unknown_status_ignored Sample.home01 "user01"
           "puser03" "share-03" _BIND_STATUS_INVALID None
           (Sample.world [Sample.own01; Sample.direct03]) Sample.home03
           (makeView Sample.home03
              (Sample.world [Sample.own01; Sample.direct03]) Sample.direct03)).
  - reflexivity.
  - reflexivity.
  - reflexivity.
  - discriminate.
  - discriminate.
Defined.

(** ** Accepting and declining on the sharee's side *)

Lemma status_only_diff (sv : View) (s : BindStatus) :
  _bindStatus sv <> s ->
  updateShare_columnMap sv None (Some s) None = status_only s.
Proof.
  intros H. unfold updateShare_columnMap, status_only.
  rewrite bool_decide_eq_true_2; [reflexivity|congruence].
Qed.

Lemma _sendReplyNotification_run (self ov : View) (oh : Home) summary w :
  _ownerHome self = Some oh ->
  _sendReplyNotification self ov summary w =
  Ok tt
    (setTrace
       (fun t =>
          t ++
          [WriteNotificationObject (h_uid oh) (_name self +:+ "-reply")%string
             (fst (reply_notification self ov oh (_bindStatus self) summary
                     (env_now (w_env w))))
             (snd (reply_notification self ov oh (_bindStatus self) summary
                     (env_now (w_env w))))])
       (setNotifications
          (insert (h_uid oh, (_name self +:+ "-reply")%string)
             (reply_notification self ov oh (_bindStatus self) summary
                (env_now (w_env w))))
          w)).
Proof.
  intros Hoh.
  unfold _sendReplyNotification, ownerHome, writeNotificationObject,
    sharedResourceType, shareName.
  rewrite Hoh. run. reflexivity.
Qed.

(** The common course of [acceptShare] and [declineShare] once the guard is
    passed. *)
Lemma reply_transition (self ov : View) (oh : Home) (s : BindStatus)
  (summary : option string) (hook : list Event) (w : World) :
  _ownerHome self = Some oh ->
  _ownerHome ov = Some oh ->
  ownerView self w = Ok (Some ov) w ->
  _bindStatus self <> s ->
  forall k : View -> M unit,
    (forall v w0,
       _home v = _home self -> _resourceID v = _resourceID self ->
       k v w0 = Ok tt (setTrace (fun t => t ++ hook) w0)) ->
    Forall (fun e => ~ outward_event e) hook ->
    exists (self' : View) (w' : World) (mid : list Event),
      (ext <- external self ;;
       (if ext : bool then _replyExternalInvite self s summary else ret tt) ;;;
       ov0 <- ownerView self ;;
       ov0 <- deref ov0 ;;
       self0 <- updateShare ov0 self None (Some s) None ;;
       k self0 ;;;
       ovext <- external ov0 ;;
       (if negb ovext then _sendReplyNotification self0 ov0 summary
        else ret tt) ;;;
       ret self0) w = Ok self' w' /\
      _bindStatus self' = s /\
      _bindMode self' = _bindMode self /\
      w_binds w' =
        updateShare_rows ov self (status_only s) (w_revisionSeq w)
          (w_binds w) /\
      w_homes w' = w_homes w /\
      w_trace w' =
        w_trace w ++ reply_sent self oh s summary ++
        [SQLUpdateBindColumns (status_only s) (_resourceID ov)
           (h_resourceID (_home self))] ++
        mid ++
        reply_notified self ov oh s summary (env_now (w_env w)) /\
      Forall (fun e => ~ outward_event e) mid /\
      w_notifications w' =
        (if h_external oh then w_notifications w
         else <[(h_uid oh, (_name self +:+ "-reply")%string) :=
                  reply_notification self ov oh s summary (env_now (w_env w))]>
                (w_notifications w)) /\
      self' = updateShare_view self (status_only s) (w_revisionSeq w) /\
      w_children w' =
        children_after self (Some s) (w_children w).
Proof.
  intros Hoh Hovh Hov Hne k Hk Hhook.
  assert (Hfind : findView true (fun r => RESOURCE_ID r =? id self) oh w
                  = Some ov).
  { unfold ownerView, ownerHome, childWithID in Hov. rewrite Hoh in Hov.
    run_in Hov. rewrite objectWith_run in Hov. now injection Hov. }
  set (w0 := setTrace (fun t => t ++ reply_sent self oh s summary) w).
  assert (Hw0 : (if h_external oh
                 then _replyExternalInvite self s summary
                 else ret tt) w = Ok tt w0).
  { subst w0. unfold reply_sent, _replyExternalInvite, ownerHome.
    rewrite Hoh. destruct (h_external oh); mrun; [reflexivity|].
    f_equal. expose. rewrite app_nil_r. now destruct w. }
  unfold external at 1. unfold ownerHome at 1. rewrite Hoh. mrun.
  rewrite (bind_Ok _ _ _ _ _ Hw0).
  unfold ownerView, ownerHome, childWithID. rewrite Hoh. mrun.
  unfold objectWith. mrun.
  rewrite (findView_frame _ _ _ w w0) by reflexivity.
  rewrite Hfind. mrun.
  pose proof (status_only_diff self s Hne) as Hcm.
  assert (Hnonempty : columnMap_nonempty
                        (updateShare_columnMap self None (Some s) None) = true)
    by now rewrite Hcm.
  destruct (updateShare_changed ov self None (Some s) None w0 Hnonempty)
    as (w1 & mid & Hrun & Hfr & Hnot & Htr & Hmid & _ & Hb & Hchild & _).
  rewrite Hcm in *.
  rewrite (bind_Ok _ _ _ _ _ Hrun).
  destruct Hfr as (Hfe & Hfh & _).
  destruct (updateShare_view_fixed self (status_only s) (w_revisionSeq w0))
    as (Hvh & Hvo & Hvr & Hve & Hvn).
  rewrite (bind_Ok _ _ _ _ _ (Hk _ _ Hvh Hvr)).
  unfold external, ownerHome. rewrite Hovh. mrun.
  destruct (updateShare_view_changed self (status_only s) (w_revisionSeq w0))
    as (Hvm & Hvs & Hvmsg).
  cbn [cm_BIND_MODE cm_BIND_STATUS status_only] in Hvm, Hvs.
  change (w_revisionSeq w0) with (w_revisionSeq w) in *.
  change (w_env w0) with (w_env w) in *.
  change (w_binds w0) with (w_binds w) in *.
  change (w_homes w0) with (w_homes w) in *.
  change (w_notifications w0) with (w_notifications w) in *.
  change (w_children w0) with (w_children w) in *.
  assert (Hmid' : Forall (fun e => ~ outward_event e)
                    (mid ++
                     invalidation_events (env_queryCacher (w_env w0))
                       (updateShare_view self (status_only s)
                          (w_revisionSeq w0)) ++
                     [NotifyPropertyChanged (h_resourceID (_home ov))
                        (_resourceID ov);
                      NotifyChanged (h_resourceID (_home self))] ++ hook)).
  { apply Forall_app. split.
    - eapply Forall_impl; [exact Hmid|]. intros [] He; cbn in *; tauto.
    - apply Forall_app. split.
      + unfold invalidation_events. destruct (env_queryCacher _);
          repeat constructor; cbn; tauto.
      + apply Forall_app. split; [repeat constructor; cbn; tauto|exact Hhook]. }
  destruct (h_external oh) eqn:Hext; cbn [negb]; mrun.
  - eexists. eexists. eexists. split; [reflexivity|]. proj.
    split; [exact Hvs|]. split; [exact Hvm|].
    split; [exact Hb|]. split; [exact Hfh|].
    split; [|split; [exact Hmid'|split; [exact Hnot|split;
      [reflexivity|exact Hchild]]]].
    rewrite Htr. subst w0. proj. unfold reply_sent, reply_notified.
    rewrite Hext. rewrite <- !app_assoc. cbn [app]. rewrite app_nil_r.
    reflexivity.
  - rewrite (bind_Ok _ _ _ _ _ (_sendReplyNotification_run _ _ oh _ _
                                  ltac:(now rewrite Hvo))).
    mrun.
    eexists. eexists. eexists. split; [reflexivity|]. proj.
    split; [exact Hvs|]. split; [exact Hvm|].
    split; [exact Hb|]. split; [exact Hfh|].
    split; [|split; [exact Hmid'|split; [|split;
      [reflexivity|exact Hchild]]]].
    + rewrite Htr. subst w0. proj. unfold reply_sent, reply_notified.
      rewrite Hext. rewrite <- !app_assoc. cbn [app].
      unfold reply_notification. proj.
      rewrite ?Hfe, ?Hvs, ?Hvn, ?Hvh. reflexivity.
    + subst w0. unfold reply_notification. proj.
      rewrite ?Hnot, ?Hfe, ?Hvs, ?Hvn, ?Hvh. reflexivity.
Qed.

(** C5.  [acceptShare] and [declineShare] on a sharee's view do nothing, and
    leave the state as it is, when the bind is direct or already has the
    status asked for.  Otherwise, with the owner's home [oh] and the owner's
    view [ov] resolved, the events of the call are, in this order: the reply
    on the conduit when the bind is federated, the column update of the
    status made through the owner's [updateShare], events that reach no
    other party, and the reply notification in the owner's collection when
    the owner's home is not external. *)
Theorem accept_decline_share :
  forall (self : View) (summary : option string) (w : World),
    (direct self = true \/ _bindStatus self = _BIND_STATUS_ACCEPTED ->
     acceptShare self summary w = Ok self w) /\
    (direct self = true \/ _bindStatus self = _BIND_STATUS_DECLINED ->
     declineShare self w = Ok self w) /\
    (forall (oh : Home) (ov : View),
       direct self = false ->
       _ownerHome self = Some oh ->
       _ownerHome ov = Some oh ->
       ownerView self w = Ok (Some ov) w ->
       forall (s : BindStatus) (summary' : option string),
         (s = _BIND_STATUS_ACCEPTED /\ summary' = summary \/
          s = _BIND_STATUS_DECLINED /\ summary' = None) ->
         _bindStatus self <> s ->
         exists (self' : View) (w' : World) (mid : list Event),
           (if bool_decide (s = _BIND_STATUS_ACCEPTED)
            then acceptShare self summary w
            else declineShare self w) = Ok self' w' /\
           _bindStatus self' = s /\
           w_binds w' =
             updateShare_rows ov self (status_only s) (w_revisionSeq w)
               (w_binds w) /\
           w_trace w' =
             w_trace w ++ reply_sent self oh s summary' ++
             [SQLUpdateBindColumns (status_only s) (_resourceID ov)
                (h_resourceID (_home self))] ++
             mid ++
             reply_notified self ov oh s summary' (env_now (w_env w)) /\
           Forall (fun e => ~ outward_event e) mid /\
           w_notifications w' =
             (if h_external oh then w_notifications w
              else <[(h_uid oh, (_name self +:+ "-reply")%string) :=
                       reply_notification self ov oh s summary'
                         (env_now (w_env w))]>
                     (w_notifications w))).
Proof.
  intros self summary w. split; [|split].
  - intros [Hd | Hs]; unfold acceptShare.
    + now rewrite Hd.
    + unfold shareStatus. rewrite Hs. decide_consts.
      now rewrite andb_false_r.
  - intros [Hd | Hs]; unfold declineShare.
    + now rewrite Hd.
    + unfold shareStatus. rewrite Hs. decide_consts.
      now rewrite andb_false_r.
  - intros oh ov Hd Hoh Hovh Hov s summary' Hcase Hne.
    destruct Hcase as [[-> ->] | [-> ->]]; decide_consts.
    + unfold acceptShare. rewrite Hd. unfold shareStatus.
      rewrite (bool_decide_eq_true_2 _ Hne). cbn [negb andb].
      destruct (reply_transition self ov oh _BIND_STATUS_ACCEPTED summary
                  [NewShare (h_resourceID (_home self)) (_resourceID self)
                     summary] w Hoh Hovh Hov Hne
                  (fun v => newShare v summary))
        as (self' & w' & mid & Hrun & Hs & _ & Hb & _ & Htr & Hmid & Hn & _).
      * intros v w0 Hvh Hvr. unfold newShare. now rewrite Hvh, Hvr.
      * repeat constructor. cbn. tauto.
      * exists self', w', mid. repeat split; assumption.
    + unfold declineShare. rewrite Hd. unfold shareStatus.
      rewrite (bool_decide_eq_true_2 _ Hne). cbn [negb andb].
      destruct (reply_transition self ov oh _BIND_STATUS_DECLINED None [] w
                  Hoh Hovh Hov Hne (fun _ => ret tt))
        as (self' & w' & mid & Hrun & Hs & _ & Hb & _ & Htr & Hmid & Hn & _).
      * intros v w0 _ _. unfold ret. f_equal. expose.
        rewrite app_nil_r. now destruct w0.
      * constructor.
      * exists self', w', mid. repeat split; assumption.
Qed.

Lemma accept_decline_share_witness :
  exists (self' : View) (w' : World),
    (if bool_decide (_BIND_STATUS_ACCEPTED = _BIND_STATUS_ACCEPTED)
     then acceptShare
            (makeView Sample.home02
               (Sample.world [Sample.own01; Sample.invited02])
               Sample.invited02)
            (Some "my copy"%string)
            (Sample.world [Sample.own01; Sample.invited02])
     else declineShare
            (makeView Sample.home02
               (Sample.world [Sample.own01; Sample.invited02])
               Sample.invited02)
            (Sample.world [Sample.own01; Sample.invited02]))
    = Ok self' w' /\
    _bindStatus self' = _BIND_STATUS_ACCEPTED.
Proof.
  destruct (proj2 (proj2
              (accept_decline_share
                 (makeView Sample.home02
                    (Sample.world [Sample.own01; Sample.invited02])
                    Sample.invited02)
                 (Some "my copy"%string)
                 (Sample.world [Sample.own01; Sample.invited02])))
              Sample.home01 Sample.calendar01 eq_refl eq_refl eq_refl eq_refl
              _BIND_STATUS_ACCEPTED (Some "my copy"%string)
              (or_introl (conj eq_refl eq_refl))
              ltac:(discriminate))
    as (self' & w' & mid & Hrun & Hs & _).
  exists self', w'. split; [exact Hrun|exact Hs].
Defined.

(** ** Uninviting a sharee *)

Lemma _sendInviteNotification_run (self sv : View) (oh : Home)
  (st : option BindStatus) (w : World) :
  _ownerHome sv = Some oh ->
  _sendInviteNotification self sv st w =
  Ok tt
    (setTrace
       (fun t =>
          t ++
          [WriteNotificationObject (h_uid (_home sv)) (_name sv)
             (fst (invite_notification self sv oh st w))
             (snd (invite_notification self sv oh st w))])
       (setNotifications
          (insert (h_uid (_home sv), _name sv)
             (invite_notification self sv oh st w))
          w)).
Proof.
  intros Hoh.
  unfold _sendInviteNotification, invite_notification, displayName_or,
    ownerHome, hasSupportedComponents, getSupportedComponents,
    writeNotificationObject, sharedResourceType, shareName.
  rewrite Hoh.
  destruct (bool_decide (st = Some _BIND_STATUS_DELETED));
    destruct (env_hasSupportedComponents (w_env w)) eqn:Hhas;
    mrun; rewrite ?Hhas; mrun; reflexivity.
Qed.

Lemma binds_of_removed (self sv : View) (w w' : World) :
  w_binds w' =
    List.filter
      (fun r => negb (bind_matches (_resourceID self)
                        (h_resourceID (_home sv)) r))
      (w_binds w) ->
  binds_of (_resourceID self) (h_resourceID (_home sv)) w' = [].
Proof.
  intros Hb. unfold binds_of. rewrite Hb. apply filter_filter_negb.
Qed.

(** C4, as the code has it.  When no view of the sharee is found,
    [uninviteUIDFromShare] does nothing.  When one is found (its owner's
    home resolved), the call ends with [removeShare], so that no bind of the
    resource is left in the sharee's home, whatever came before: for an
    external sharee the uninvite sent on the conduit; for a local direct
    share nothing; for a local share by invitation that is not accepted, the
    removal of the pending notification, nothing being written; and for one
    that is accepted, one notification written to the sharee under the
    share's UID.  That notification is an invite notification, not a reply:
    its type is [invite-notification] and it has no [in-reply-to]; its
    status is [DELETED] and its summary is the display name of the sharee's
    view, or the text of the bind message when the view has none. *)
Theorem uninvite_notifications :
  forall (self : View) (shareeUID : string) (w : World),
    (shareeView self shareeUID w = Ok None w ->
     uninviteUIDFromShare self shareeUID w = Ok tt w) /\
    (forall (sv : View) (oh : Home),
       shareeView self shareeUID w = Ok (Some sv) w ->
       _ownerHome sv = Some oh ->
       let inbox := (h_uid (_home sv), _name sv) in
       exists (w' : World) (pre : list Event),
         uninviteUIDFromShare self shareeUID w = Ok tt w' /\
         binds_of (_resourceID self) (h_resourceID (_home sv)) w' = [] /\
         w_trace w' =
           w_trace w ++ pre ++
           removeShare_events self sv (env_queryCacher (w_env w)) /\
         (h_external (_home sv) = true ->
          pre = [Send_shareuninvite (h_homeType oh) (h_uid oh)
                   (_resourceID self) (h_uid (_home sv)) (_name sv)] /\
          w_notifications w' = w_notifications w) /\
         (h_external (_home sv) = false -> direct sv = true ->
          pre = [] /\ w_notifications w' = w_notifications w) /\
         (h_external (_home sv) = false -> direct sv = false ->
          _bindStatus sv <> _BIND_STATUS_ACCEPTED ->
          pre = [RemoveNotificationObjectWithUID (fst inbox) (snd inbox)] /\
          w_notifications w' = delete inbox (w_notifications w)) /\
         (h_external (_home sv) = false -> direct sv = false ->
          _bindStatus sv = _BIND_STATUS_ACCEPTED ->
          exists ntype ndata : PyDict,
            pre = [WriteNotificationObject (fst inbox) (snd inbox) ntype
                     ndata] /\
            w_notifications w' =
              <[inbox := (ntype, ndata)]> (w_notifications w) /\
            dict_get "notification-type" ndata =
              Some (PyStr "invite-notification") /\
            dict_get "in-reply-to" ndata = None /\
            dict_get "status" ndata = Some (PyStatus _BIND_STATUS_DELETED) /\
            dict_get "summary" ndata =
              Some (PyStr
                      match w_displayName w !!
                              (h_resourceID (_home sv), _resourceID sv) with
                      | Some d => d
                      | None => py_str (_bindMessage sv)
                      end))).
Proof.
  intros self shareeUID w. split.
  - intros Hnone. unfold uninviteUIDFromShare.
    now rewrite (bind_Ok _ _ _ _ _ Hnone).
  - intros sv oh Hsv Hoh inbox. unfold uninviteUIDFromShare.
    rewrite (bind_Ok _ _ _ _ _ Hsv).
    assert (Hstep :
      forall (pre : list Event) (w1 : World),
        same_frame w w1 -> w_binds w1 = w_binds w ->
        w_trace w1 = w_trace w ++ pre ->
        exists w' : World,
          removeShare self sv w1 = Ok tt w' /\
          binds_of (_resourceID self) (h_resourceID (_home sv)) w' = [] /\
          w_trace w' =
            w_trace w ++ pre ++
            removeShare_events self sv (env_queryCacher (w_env w)) /\
          w_notifications w' = w_notifications w1).
    { intros pre w1 Hfr Hb Htr.
      destruct (removeShare_run self sv w1)
        as (w' & Hrun & _ & Hn & Hb' & _ & Htr').
      exists w'. split; [exact Hrun|].
      split; [apply (binds_of_removed self sv w1 w' Hb')|].
      split; [|exact Hn].
      rewrite Htr', Htr. destruct Hfr as (-> & _).
      unfold removeShare_events. now rewrite <- !app_assoc. }
    destruct (h_external (viewerHome sv)) eqn:Hext.
    + unfold _sendExternalUninvite, ownerHome. rewrite Hoh. mrun.
      match goal with
      | |- context [removeShare self sv ?w1] =>
          destruct (Hstep [Send_shareuninvite (h_homeType oh) (h_uid oh)
                             (_resourceID self) (h_uid (_home sv)) (_name sv)]
                      w1)
            as (w' & Hrun & Hgone & Htr & Hn);
            [now repeat split|reflexivity|reflexivity|]
      end.
      rewrite Hrun. eexists. eexists. split; [reflexivity|].
      split; [exact Hgone|]. split; [exact Htr|].
      split; [intros _; split; [reflexivity|exact Hn]|].
      unfold viewerHome in Hext.
      repeat split; intros; congruence.
    + unfold viewerHome in Hext.
      destruct (direct sv) eqn:Hdir; cbn [negb].
      * mrun.
        destruct (Hstep [] w) as (w' & Hrun & Hgone & Htr & Hn);
          [apply same_frame_refl|reflexivity|now rewrite app_nil_r|].
        rewrite Hrun. eexists. eexists. split; [reflexivity|].
        split; [exact Hgone|]. split; [exact Htr|].
        split; [intros; congruence|].
        split; [intros _ _; split; [reflexivity|exact Hn]|].
        split; intros; congruence.
      * destruct (bool_decide (shareStatus sv <> _BIND_STATUS_ACCEPTED))
          eqn:Hst.
        -- apply bool_decide_eq_true_1 in Hst.
           unfold _removeInviteNotification, removeNotificationObjectWithUID.
           mrun.
           match goal with
           | |- context [removeShare self sv ?w1] =>
               destruct (Hstep [RemoveNotificationObjectWithUID
                                  (h_uid (_home sv)) (_name sv)] w1)
                 as (w' & Hrun & Hgone & Htr & Hn);
                 [now repeat split|reflexivity|reflexivity|]
           end.
           rewrite Hrun. eexists. eexists. split; [reflexivity|].
           split; [exact Hgone|]. split; [exact Htr|].
           split; [intros; congruence|].
           split; [intros; congruence|].
           split; [intros _ _ _; split; [reflexivity|exact Hn]|].
           intros _ _ Hacc. now elim Hst.
        -- apply bool_decide_eq_false_1 in Hst.
           assert (Hacc : _bindStatus sv = _BIND_STATUS_ACCEPTED).
           { destruct (decide (_bindStatus sv = _BIND_STATUS_ACCEPTED));
               [assumption|now elim Hst]. }
           rewrite (bind_Ok _ _ _ _ _
                      (_sendInviteNotification_run self sv oh
                         (Some _BIND_STATUS_DELETED) w Hoh)).
           match goal with
           | |- context [removeShare self sv ?w1] =>
               destruct (Hstep [WriteNotificationObject (h_uid (_home sv))
                                  (_name sv)
                                  (fst (invite_notification self sv oh
                                          (Some _BIND_STATUS_DELETED) w))
                                  (snd (invite_notification self sv oh
                                          (Some _BIND_STATUS_DELETED) w))] w1)
                 as (w' & Hrun & Hgone & Htr & Hn);
                 [now repeat split|reflexivity|reflexivity|]
           end.
           rewrite Hrun. eexists. eexists. split; [reflexivity|].
           split; [exact Hgone|]. split; [exact Htr|].
           split; [intros; congruence|].
           split; [intros; congruence|].
           split; [intros _ _ Hn'; now elim Hn'|].
           intros _ _ _. eexists. eexists.
           split; [reflexivity|].
           split; [rewrite Hn; proj; now destruct (invite_notification _ _ _ _ _)|].
           unfold invite_notification. decide_consts. proj.
           destruct (env_hasSupportedComponents (w_env w)); repeat split.
Qed.

Lemma uninvite_notifications_witness :
  exists (w' : World) (pre : list Event),
    uninviteUIDFromShare Sample.calendar01 "user02"
      (Sample.world [Sample.own01; Sample.accepted02]) = Ok tt w' /\
    binds_of 10 2 w' = [].
Proof.
  destruct (proj2 (uninvite_notifications Sample.calendar01 "user02"
                     (Sample.world [Sample.own01; Sample.accepted02]))
              (makeView Sample.home02
                 (Sample.world [Sample.own01; Sample.accepted02])
                 Sample.accepted02)
              Sample.home01 eq_refl eq_refl)
    as (w' & pre & Hrun & Hgone & _).
  exists w', pre. split; [exact Hrun|exact Hgone].
Defined.

(** C4 as it was stated fails: what is written when an accepted sharee is
    uninvited has the shape of an invite, not of a reply.  It is filed in
    the sharee's collection under the share's UID with the type
    [invite-notification] and without [in-reply-to], and nothing is filed as
    a reply in the owner's collection. *)
Lemma uninvite_reply_shaped_counterexample :
  exists (w' : World) (ntype ndata : PyDict),
    uninviteUIDFromShare Sample.calendar01 "user02"
      (Sample.world [Sample.own01; Sample.accepted02]) = Ok tt w' /\
    w_notifications w' !! ("user02"%string, "share-02"%string)
      = Some (ntype, ndata) /\
    dict_get "notification-type" ndata = Some (PyStr "invite-notification") /\
    dict_get "notification-type" ndata <> Some (PyStr "invite-reply") /\
    dict_get "in-reply-to" ndata = None /\
    dict_get "uid" ndata = Some (PyStr "share-02") /\
    w_notifications w' !! ("user01"%string, "share-02-reply"%string) = None.
Proof.
  eexists. eexists. eexists.
  split; [vm_compute; reflexivity|].
  split; [vm_compute; reflexivity|].
  repeat split; try (vm_compute; reflexivity).
  vm_compute. discriminate.
Qed.

(** ** [shareWith] when the bind is already there *)

Lemma gentle_keeps g : gentle g -> keeps_keys g.
Proof.
  intros Hg r. destruct (Hg r) as (_ & ? & ? & ? & ? & _). now repeat split.
Qed.

Lemma binds_of_map (g : BindRow -> BindRow) resourceID homeID w w'
  (extra : list BindRow) :
  keeps_keys g ->
  w_binds w' = map g (w_binds w ++ extra) ->
  binds_of resourceID homeID w' =
  map g (binds_of resourceID homeID w ++
         List.filter (bind_matches resourceID homeID) extra).
Proof.
  intros Hg Hb. unfold binds_of. rewrite Hb.
  rewrite filter_map_commute by (intros r; now apply bind_matches_keeps).
  now rewrite filter_app_eq.
Qed.

Lemma allChildWithID_found (h : Home) (resourceID : Z) (w : World)
  (child : View) :
  allChildWithID h resourceID w = Ok (Some child) w ->
  exists (r : BindRow) (rest : list BindRow),
    binds_of resourceID (h_resourceID h) w = r :: rest /\
    child = makeView h w r /\
    RESOURCE_ID r = resourceID /\
    HOME_RESOURCE_ID r = h_resourceID h.
Proof.
  unfold allChildWithID. rewrite objectWith_run, findView_by_id.
  intros [= Hc].
  destruct (binds_of resourceID (h_resourceID h) w) as [|r rest] eqn:Hb;
    [discriminate|].
  injection Hc as <-. exists r, rest. split; [reflexivity|].
  split; [reflexivity|].
  assert (Hin : In r (binds_of resourceID (h_resourceID h) w))
    by (rewrite Hb; now left).
  unfold binds_of in Hin. apply filter_In in Hin. destruct Hin as [_ Hm].
  unfold bind_matches in Hm. apply andb_true_iff in Hm. destruct Hm as [H1 H2].
  split; now apply Z.eqb_eq.
Qed.

Lemma allChildWithID_single (h : Home) (resourceID : Z) (w : World)
  (r : BindRow) :
  binds_of resourceID (h_resourceID h) w = [r] ->
  allChildWithID h resourceID w = Ok (Some (makeView h w r)) w.
Proof.
  intros Hb. unfold allChildWithID.
  now rewrite objectWith_run, findView_by_id, Hb.
Qed.

Lemma shareWith_race (self : View) (h : Home) mode status summary shareName
  (w : World) (child : View) :
  let st := status_or_accepted status in
  owned self = true ->
  allChildWithID h (_resourceID self) w = Ok (Some child) w ->
  exists w1 : World,
    same_but_uuid w w1 /\
    shareWith self h mode status summary shareName w =
      (n <- shareWith_fallback self h mode st summary ;;
       shareWith_finish self h n) w1 /\
    exists (self' : View) (w' : World),
      shareWith self h mode status summary shareName w
        = Ok (_name child, self') w' /\
      self' = setShared_view self /\
      w_homes w' = w_homes w /\
      w_env w' = w_env w /\
      (forall r : BindRow,
         binds_of (_resourceID self) (h_resourceID h) w = [r] ->
         exists r' : BindRow,
           binds_of (_resourceID self) (h_resourceID h) w' = [r'] /\
           BIND_MODE r' = mode /\
           BIND_STATUS r' = st /\
           RESOURCE_NAME r' = _name child).
Proof.
  intros st Hown Hchild.
  destruct (allChildWithID_found _ _ _ _ Hchild)
    as (r0 & rest & Hb0 & Hc & Hr0 & Hh0).
  destruct (subtransaction_doInsert_race self h mode st summary shareName w)
    as (w1 & Hsub & Hsame); [now rewrite Hb0|].
  exists w1. split; [exact Hsame|].
  assert (Heq : shareWith self h mode status summary shareName w =
                (n <- shareWith_fallback self h mode st summary ;;
                 shareWith_finish self h n) w1).
  { unfold shareWith. fold (status_or_accepted status). fold st.
    unfold bind at 1. rewrite Hsub. reflexivity. }
  split; [exact Heq|]. rewrite Heq.
  destruct Hsame as (He1 & Hb1 & Hh1 & _).
  assert (Hchild1 : allChildWithID h (_resourceID self) w1 = Ok (Some child) w1).
  { unfold allChildWithID in *. rewrite objectWith_run in *.
    rewrite (findView_frame _ _ _ w w1 Hb1 Hh1). now injection Hchild as ->. }
  assert (Hrid : _resourceID child = _resourceID self)
    by (rewrite Hc; cbn; exact Hr0).
  destruct (updateShare_effect self child (Some mode) (Some st) summary w1 Hrid)
    as (child' & w2 & g & Hrun & Hfr & _ & Hfix & _ & Hb2 & Hk & _ & Hg).
  destruct (shareWith_finish_run self h (_name child') w2 Hown)
    as (w3 & evs & g3 & Hrun3 & Hstep & _ & Hg3 & _).
  destruct Hfix as (Hch & _ & _ & _ & Hname).
  assert (Hall : (n <- shareWith_fallback self h mode st summary ;;
                  shareWith_finish self h n) w1
                 = Ok (_name child, setShared_view self) w3).
  { unfold shareWith_fallback. rewrite bind_assoc.
    rewrite (bind_Ok _ _ _ _ _ Hchild1). mrun.
    rewrite (bind_Ok _ _ _ _ _ Hrun). mrun.
    rewrite Hrun3. now rewrite Hname. }
  exists (setShared_view self), w3.
  split; [exact Hall|]. split; [reflexivity|].
  destruct Hstep as (He3 & Hh3 & _ & _ & _ & _ & _ & _ & Hb3).
  destruct Hfr as (He2 & Hh2 & _).
  split; [congruence|]. split; [congruence|].
  intros r Hr.
  assert (r0 = r) as -> by (rewrite Hr in Hb0; now injection Hb0).
  rewrite app_nil_r in Hb3.
  rewrite (binds_of_map g3 _ _ w2 w3 [] (gentle_keeps _ Hg3))
    by (now rewrite app_nil_r).
  rewrite (binds_of_map g _ _ w1 w2 [] Hk) by (now rewrite app_nil_r).
  rewrite !app_nil_r. rewrite (binds_of_frame _ _ w w1 Hb1), Hr.
  exists (g3 (g r)). split; [reflexivity|].
  destruct (Hg3 (g r)) as (-> & _ & _ & _ & -> & ->).
  assert (Hm : bind_matches (_resourceID self) (h_resourceID (_home child)) r
               = true).
  { rewrite Hc. cbn. unfold bind_matches. rewrite Hr0, Hh0, !Z.eqb_refl.
    reflexivity. }
  destruct (Hg r Hm) as (-> & -> & _).
  destruct (Hk r) as (_ & _ & -> & _).
  destruct (updateShare_columnMap_on_row child r mode st summary)
    as (-> & ->); [now rewrite Hc|now rewrite Hc|].
  rewrite Hc. now repeat split.
Qed.

Lemma setShared_view_fixed (self : View) :
  owned (setShared_view self) = owned self /\
  _resourceID (setShared_view self) = _resourceID self /\
  _home (setShared_view self) = _home self /\
  _ownerHome (setShared_view self) = _ownerHome self /\
  _externalID (setShared_view self) = _externalID self /\
  _name (setShared_view self) = _name self.
Proof.
  unfold setShared_view.
  destruct (bool_decide (_bindMessage self = Some "shared"%string));
    now repeat split.
Qed.

Lemma new_bind_matches (self : View) (h : Home) mode st summary n :
  bind_matches (_resourceID self) (h_resourceID h)
    (new_bind self h mode st summary n) = true.
Proof. unfold bind_matches, new_bind. cbn. now rewrite !Z.eqb_refl. Qed.

(** After an insert that went through, the sharee's home holds exactly one
    bind of the resource. *)
Lemma binds_of_after_insert (self : View) (h : Home) (row : BindRow)
  (g : BindRow -> BindRow) (evs : list Event) (w w' : World) :
  bind_matches (_resourceID self) (h_resourceID h) row = true ->
  RESOURCE_ID row = _resourceID self ->
  HOME_RESOURCE_ID row = h_resourceID h ->
  insert_conflicts row (w_binds w) = false ->
  bind_step w w' [row] g evs -> gentle g ->
  binds_of (_resourceID self) (h_resourceID h) w' = [g row].
Proof.
  intros Hm Hr Hh Hfree Hstep Hg.
  destruct Hstep as (_ & _ & _ & _ & _ & _ & _ & _ & Hb).
  rewrite (binds_of_map g _ _ w w' [row] (gentle_keeps _ Hg) Hb).
  destruct (insert_conflicts_free row (w_binds w) Hfree) as (Hnone & _).
  unfold binds_of. rewrite <- Hr, <- Hh, Hnone. cbn.
  rewrite Hr, Hh, Hm. reflexivity.
Qed.

(** C1.  For an owner's view and a sharee's home: [shareWith] with no status
    is [shareWith] with [ACCEPTED].  When a bind of the resource is already
    in the sharee's home, every attempt of the insert fails, the retries are
    used up, and [shareWith] does not raise: it continues with the fallback
    (the bind is read again and updated with the mode, status and summary
    asked for) and returns the name of the bind that was there, whatever
    name was asked for; the one bind of the pair stays one, with the mode
    and status asked for.  So a [shareWith] whose insert goes through,
    followed by another one for the same pair, leaves exactly one bind, with
    the name the first call gave it and the mode and status of the second
    call. *)
Theorem shareWith_create_race :
  forall (self : View) (shareeHome : Home) (mode : BindMode)
         (status : option BindStatus) (summary shareName : option string)
         (w : World),
    owned self = true ->
    let st := status_or_accepted status in
    let rid := _resourceID self in
    let hid := h_resourceID shareeHome in
    shareWith self shareeHome mode None summary shareName w =
      shareWith self shareeHome mode (Some _BIND_STATUS_ACCEPTED) summary
        shareName w /\
    (forall child : View,
       allChildWithID shareeHome rid w = Ok (Some child) w ->
       exists w1 : World,
         same_but_uuid w w1 /\
         shareWith self shareeHome mode status summary shareName w =
           (n <- shareWith_fallback self shareeHome mode st summary ;;
            shareWith_finish self shareeHome n) w1 /\
         exists (self' : View) (w' : World),
           shareWith self shareeHome mode status summary shareName w
             = Ok (_name child, self') w' /\
           (forall r : BindRow,
              binds_of rid hid w = [r] ->
              exists r' : BindRow,
                binds_of rid hid w' = [r'] /\
                BIND_MODE r' = mode /\
                BIND_STATUS r' = st /\
                RESOURCE_NAME r' = _name child)) /\
    (insert_conflicts
       (new_bind self shareeHome mode st summary (next_name shareName w))
       (w_binds w) = false ->
     forall (mode2 : BindMode) (status2 : option BindStatus)
            (summary2 shareName2 : option string),
     exists (n : string) (self1 : View) (w1 : World) (self2 : View)
            (w2 : World) (r : BindRow),
       shareWith self shareeHome mode status summary shareName w
         = Ok (n, self1) w1 /\
       shareWith self1 shareeHome mode2 status2 summary2 shareName2 w1
         = Ok (n, self2) w2 /\
       binds_of rid hid w2 = [r] /\
       BIND_MODE r = mode2 /\
       BIND_STATUS r = status_or_accepted status2 /\
       RESOURCE_NAME r = n).
Proof.
  intros self h mode status summary shareName w Hown st rid hid.
  split; [reflexivity|]. split.
  - intros child Hchild.
    destruct (shareWith_race self h mode status summary shareName w child
                Hown Hchild)
      as (w1 & Hsame & Heq & self' & w' & Hrun & _ & _ & _ & Hrows).
    exists w1. split; [exact Hsame|]. split; [exact Heq|].
    exists self', w'. split; [exact Hrun|exact Hrows].
  - intros Hfree mode2 status2 summary2 shareName2.
    destruct (shareWith_new self h mode status summary shareName w Hown Hfree)
      as (w1 & evs & g & Hrun1 & Hstep & _ & Hg).
    fold (status_or_accepted status) in Hstep. fold st in Hstep.
    set (row := new_bind self h mode st summary (next_name shareName w)) in *.
    assert (Hone : binds_of rid hid w1 = [g row]).
    { apply (binds_of_after_insert self h row g evs w w1);
        try assumption; try reflexivity.
      apply new_bind_matches. }
    destruct (setShared_view_fixed self) as (Hown1 & Hrid1 & _).
    assert (Hchild : allChildWithID h (_resourceID (setShared_view self)) w1
                     = Ok (Some (makeView h w1 (g row))) w1).
    { rewrite Hrid1. now apply allChildWithID_single. }
    destruct (shareWith_race (setShared_view self) h mode2 status2 summary2
                shareName2 w1 _ ltac:(now rewrite Hown1) Hchild)
      as (_ & _ & _ & self2 & w2 & Hrun2 & _ & _ & _ & Hrows).
    rewrite Hrid1 in Hrows.
    destruct (Hrows (g row) Hone) as (r & Hr & Hm & Hs & Hn).
    assert (Hname : _name (makeView h w1 (g row)) = next_name shareName w).
    { cbn. now destruct (Hg row) as (_ & _ & _ & _ & -> & _). }
    rewrite Hname in *.
    exists (next_name shareName w), (setShared_view self), w1, self2, w2, r.
    repeat split; assumption.
Qed.

Lemma shareWith_create_race_witness :
  exists (n : string) (self1 : View) (w1 : World) (self2 : View) (w2 : World)
         (r : BindRow),
    shareWith Sample.calendar01 Sample.home02 _BIND_MODE_READ None None
      (Some "share-02"%string) (Sample.world [Sample.own01])
      = Ok (n, self1) w1 /\
    shareWith self1 Sample.home02 _BIND_MODE_WRITE
      (Some _BIND_STATUS_INVITED) None (Some "other-name"%string) w1
      = Ok (n, self2) w2 /\
    binds_of (_resourceID Sample.calendar01) (h_resourceID Sample.home02) w2
      = [r] /\
    BIND_MODE r = _BIND_MODE_WRITE /\
    BIND_STATUS r = status_or_accepted (Some _BIND_STATUS_INVITED) /\
    RESOURCE_NAME r = n.
Proof.
  exact (proj2 (proj2
           (shareWith_create_race Sample.calendar01 Sample.home02
              _BIND_MODE_READ None None (Some "share-02"%string)
              (Sample.world [Sample.own01]) eq_refl))
           eq_refl _BIND_MODE_WRITE (Some _BIND_STATUS_INVITED) None
           (Some "other-name"%string)).
Defined.

(** ** Creating a share *)

Lemma find_appended {A} (p : A -> bool) (l : list A) (x : A) :
  List.find p l = None -> p x = true -> List.find p (l ++ [x]) = Some x.
Proof.
  intros Hn Hx. induction l as [|y l IH]; cbn in *; [now rewrite Hx|].
  destruct (p y); [discriminate|]. now apply IH.
Qed.

Lemma homeWithUID_create_spec homeType uid w h w0 :
  homeWithUID homeType uid true w = Ok (Some h) w0 ->
  find_home homeType uid (w_homes w0) = Some h /\
  (exists extra, w_homes w0 = w_homes w ++ extra) /\
  w_binds w0 = w_binds w /\
  w_env w0 = w_env w /\
  w_trace w0 = w_trace w /\
  w_notifications w0 = w_notifications w /\
  w_children w0 = w_children w /\
  w_displayName w0 = w_displayName w /\
  w_supportedComponents w0 = w_supportedComponents w /\
  w_uuidCalls w0 = w_uuidCalls w.
Proof.
  unfold homeWithUID.
  destruct (find_home homeType uid (w_homes w)) as [h0|] eqn:Hf.
  - intros [= <- <-]. split; [exact Hf|].
    split; [exists []; now rewrite app_nil_r|]. now repeat split.
  - intros [= <- <-]. proj. split.
    + unfold find_home in *. apply find_appended; [exact Hf|]. cbn.
      now rewrite Z.eqb_refl, String.eqb_refl.
    + split; [eexists; reflexivity|]. now repeat split.
Qed.

Lemma owns_view_fields w (self self' : View) :
  owned self' = owned self ->
  _resourceID self' = _resourceID self ->
  _home self' = _home self ->
  _ownerHome self' = _ownerHome self ->
  owns w self -> owns w self'.
Proof.
  unfold owns. intros -> -> -> ->. trivial.
Qed.

Lemma owns_more_homes w w0 self :
  w_binds w0 = w_binds w ->
  (exists extra, w_homes w0 = w_homes w ++ extra) ->
  owns w self -> owns w0 self.
Proof.
  intros Hb (extra & Hh) (Hown & Hoh & Hres & own & Hone & Hm & Hs).
  split; [exact Hown|]. split; [exact Hoh|]. split.
  - eapply ownerHomeOf_more_homes; eassumption.
  - exists own. rewrite (binds_of_frame _ _ w w0 Hb). now repeat split.
Qed.

Lemma owns_bind_step w w' added g evs self :
  owns w self ->
  bind_step w w' added g evs ->
  gentle g ->
  List.filter
    (bind_matches (_resourceID self) (h_resourceID (_home self))) added = [] ->
  owns w' self.
Proof.
  intros (Hown & Hoh & Hres & own & Hone & Hm & Hs) Hstep Hg Hadded.
  destruct Hstep as (_ & Hh & _ & _ & _ & _ & _ & _ & Hb).
  split; [exact Hown|]. split; [exact Hoh|]. split.
  - rewrite (ownerHomeOf_map g _ (setBinds (fun rows => rows ++ added) w) w').
    + eapply ownerHomeOf_app; [| |exact Hres]; reflexivity.
    + intros r. destruct (Hg r) as (? & ? & ? & _). now repeat split.
    + exact Hb.
    + exact Hh.
  - exists (g own).
    rewrite (binds_of_map g _ _ w w' added (gentle_keeps _ Hg) Hb).
    rewrite Hone, Hadded. cbn. split; [reflexivity|].
    destruct (Hg own) as (-> & _ & _ & _ & _ & ->). now split.
Qed.

(** The owner's bind and a free slot in the sharee's home are in different
    homes. *)
Lemma owner_row_elsewhere w self (row : BindRow) :
  owns w self ->
  RESOURCE_ID row = _resourceID self ->
  insert_conflicts row (w_binds w) = false ->
  bind_matches (_resourceID self) (h_resourceID (_home self)) row = false.
Proof.
  intros (_ & _ & _ & own & Hone & _) Hr Hfree.
  destruct (insert_conflicts_free row (w_binds w) Hfree) as (Hnone & _).
  unfold bind_matches. rewrite Hr, Z.eqb_refl. cbn.
  destruct (HOME_RESOURCE_ID row =? h_resourceID (_home self)) eqn:Hh;
    [|reflexivity].
  apply Z.eqb_eq in Hh. rewrite Hr, Hh in Hnone.
  unfold binds_of in Hone. rewrite Hone in Hnone. discriminate.
Qed.

Lemma shareeView_found (self : View) (uid : string) (h : Home) (r : BindRow)
  (w : World) :
  h_uid (_home self) <> uid ->
  find_home (h_homeType (_home self)) uid (w_homes w) = Some h ->
  binds_of (_resourceID self) (h_resourceID h) w = [r] ->
  shareeView self uid w = Ok (Some (makeView h w r)) w.
Proof.
  intros Hne Hh Hb. unfold shareeView.
  destruct (String.eqb_spec (h_uid (_home self)) uid) as [Heq|_];
    [now elim Hne|].
  rewrite (bind_Ok _ _ _ _ _ (homeWithUID_lookup _ _ _)), Hh.
  unfold id. now apply allChildWithID_single.
Qed.

Lemma createShare_new (self : View) (uid : string) (mode : BindMode)
  (summary shareName : option string) (w : World) (h : Home) (w0 : World) :
  let st := if bool_decide (mode <> _BIND_MODE_DIRECT)
            then _BIND_STATUS_INVITED else _BIND_STATUS_ACCEPTED in
  let row := new_bind self h mode st summary (next_name shareName w) in
  owns w self ->
  h_uid (_home self) <> uid ->
  homeWithUID (h_homeType (_home self)) uid true w = Ok (Some h) w0 ->
  insert_conflicts row (w_binds w) = false ->
  exists (w' : World) (g : BindRow -> BindRow) (evs : list Event),
    createShare self uid mode summary shareName w
      = Ok (Some (makeView h w' (g row)), setShared_view self) w' /\
    bind_step w0 w' [row] g evs /\ inward evs /\ gentle g /\
    binds_of (_resourceID self) (h_resourceID h) w' = [g row] /\
    owns w' (setShared_view self) /\
    (exists oh', _ownerHome (makeView h w' (g row)) = Some oh') /\
    shareeView (setShared_view self) uid w'
      = Ok (Some (makeView h w' (g row))) w'.
Proof.
  intros st row Howns Hne Hhome Hfree.
  destruct (homeWithUID_create_spec _ _ _ _ _ Hhome)
    as (Hfind & Hextra & Hb0 & He0 & Ht0 & Hn0 & Hc0 & Hd0 & Hs0 & Hu0).
  pose proof Howns as (Hown & Hoh & _).
  assert (Hname : next_name shareName w0 = next_name shareName w).
  { unfold next_name. now rewrite He0, Hu0. }
  assert (Hfree0 : insert_conflicts
                     (new_bind self h mode st summary (next_name shareName w0))
                     (w_binds w0) = false).
  { rewrite Hname, Hb0. exact Hfree. }
  destruct (shareWith_new self h mode (Some st) summary shareName w0 Hown
              Hfree0)
    as (w' & evs & g & Hrun & Hstep & Hin & Hg).
  rewrite Hname in Hrun, Hstep. fold row in Hstep.
  assert (Howns0 : owns w0 self) by (eapply owns_more_homes; eassumption).
  assert (Hone : binds_of (_resourceID self) (h_resourceID h) w' = [g row]).
  { apply (binds_of_after_insert self h row g evs w0 w');
      try assumption; try reflexivity.
    - apply new_bind_matches.
    - now rewrite Hb0. }
  destruct (setShared_view_fixed self) as (Hf1 & Hf2 & Hf3 & Hf4 & _).
  assert (Howns' : owns w' (setShared_view self)).
  { apply (owns_view_fields w' self); try assumption.
    apply (owns_bind_step w0 w' [row] g evs); try assumption.
    cbn. rewrite (owner_row_elsewhere w self row Howns eq_refl Hfree).
    reflexivity. }
  assert (Hhomes : w_homes w' = w_homes w0) by apply Hstep.
  assert (Hsv : shareeView (setShared_view self) uid w'
                = Ok (Some (makeView h w' (g row))) w').
  { apply shareeView_found.
    - now rewrite Hf3.
    - now rewrite Hf3, Hhomes.
    - now rewrite Hf2. }
  exists w', g, evs.
  split.
  { unfold createShare, ownerHome. rewrite Hoh. mrun.
    rewrite (bind_Ok _ _ _ _ _ Hhome). mrun.
    rewrite (bind_Ok _ _ _ _ _ Hrun). mrun.
    rewrite (bind_Ok _ _ _ _ _ Hsv). reflexivity. }
  split; [exact Hstep|]. split; [exact Hin|]. split; [exact Hg|].
  split; [exact Hone|]. split; [exact Howns'|]. split; [|exact Hsv].
  unfold makeView. cbn [_ownerHome].
  destruct (bool_decide (BIND_MODE (g row) = _BIND_MODE_OWN));
    [eexists; reflexivity|].
  destruct Howns' as (_ & _ & Hres & _).
  destruct (Hg row) as (_ & _ & -> & _). cbn [row new_bind RESOURCE_ID].
  rewrite <- Hf2, Hres. eexists; reflexivity.
Qed.

(** ** Direct shares *)

Lemma shareeView_absent (self : View) (uid : string) (h : Home) (w w0 : World) :
  homeWithUID (h_homeType (_home self)) uid true w = Ok (Some h) w0 ->
  binds_of (_resourceID self) (h_resourceID h) w = [] ->
  shareeView self uid w = Ok None w.
Proof.
  intros Hhome Hnone. unfold shareeView.
  destruct (String.eqb (h_uid (_home self)) uid); [reflexivity|].
  rewrite (bind_Ok _ _ _ _ _ (homeWithUID_lookup _ _ _)).
  unfold homeWithUID in Hhome.
  destruct (find_home (h_homeType (_home self)) uid (w_homes w)) as [h0|];
    [|reflexivity].
  injection Hhome as -> _.
  unfold allChildWithID, id. rewrite objectWith_run, findView_by_id, Hnone.
  reflexivity.
Qed.

Lemma _sendExternalInvite_run (self sv : View) (oh : Home) (w : World) :
  _ownerHome sv = Some oh ->
  exists e : Event,
    _sendExternalInvite self sv w
      = Ok tt (setTrace (fun t => t ++ [e]) w) /\
    is_invite_to (h_uid (_home sv)) (_name sv) (_bindMode sv) e.
Proof.
  intros Hoh. unfold _sendExternalInvite, ownerHome, hasSupportedComponents,
    getSupportedComponents.
  rewrite Hoh. mrun.
  destruct (env_hasSupportedComponents (w_env w)); mrun;
    eexists; (split; [reflexivity|]); cbn; now repeat split.
Qed.

(** A direct share with a sharee who has no view of the resource yet. *)
Lemma directShareWithUser_new (self : View) (uid : string)
  (shareName : option string) (w : World) (h : Home) (w0 : World) :
  let row := new_bind self h _BIND_MODE_DIRECT _BIND_STATUS_ACCEPTED None
               (next_name shareName w) in
  owns w self ->
  h_uid (_home self) <> uid ->
  homeWithUID (h_homeType (_home self)) uid true w = Ok (Some h) w0 ->
  insert_conflicts row (w_binds w) = false ->
  exists (sv : View) (w' : World) (g : BindRow -> BindRow)
         (evs fed : list Event),
    directShareWithUser self uid shareName w
      = Ok (sv, setShared_view self) w' /\
    gentle g /\
    w_binds w' = map g (w_binds w ++ [row]) /\
    w_homes w' = w_homes w0 /\
    binds_of (_resourceID self) (h_resourceID h) w' = [g row] /\
    (forall shareName2 : option string,
       directShareWithUser (setShared_view self) uid shareName2 w'
         = Ok (sv, setShared_view self) w') /\
    w_trace w' =
      w_trace w ++ evs ++
      [NewShare (h_resourceID h) (_resourceID self) None] ++ fed /\
    inward evs /\
    (if h_external h
     then exists e, fed = [e] /\
                    is_invite_to uid (next_name shareName w)
                      _BIND_MODE_DIRECT e
     else fed = []) /\
    w_notifications w' = w_notifications w.
Proof.
  intros row0 Howns Hne Hhome Hfree. subst row0.
  pose proof (createShare_new self uid _BIND_MODE_DIRECT None shareName w h w0
                Howns Hne Hhome) as Hcreate.
  cbv zeta in Hcreate.
  rewrite (bool_decide_eq_false_2 (_BIND_MODE_DIRECT <> _BIND_MODE_DIRECT))
    in Hcreate by (intros H; now apply H).
  destruct (Hcreate Hfree)
    as (w1 & g & evs & Hrun & Hstep & Hin & Hg & Hone & Howns1 & (oh' & Hoh')
        & Hsv).
  set (row := new_bind self h _BIND_MODE_DIRECT _BIND_STATUS_ACCEPTED None
                (next_name shareName w)) in *.
  set (sv := makeView h w1 (g row)) in *.
  destruct (homeWithUID_create_spec _ _ _ _ _ Hhome)
    as (_ & _ & Hb0 & _ & Ht0 & Hn0 & _).
  destruct (insert_conflicts_free row (w_binds w) Hfree) as (Hnone & _).
  assert (Habs : shareeView self uid w = Ok None w).
  { eapply shareeView_absent; [exact Hhome|]. exact Hnone. }
  destruct (Hg row) as (Hgm & _ & Hgr & _ & Hgn & Hgs).
  assert (Hfed : exists (w' : World) (fed : list Event),
            (if h_external (viewerHome sv)
             then _sendExternalInvite (setShared_view self) sv
             else ret tt)
              (setTrace
                 (fun t => t ++ [NewShare (h_resourceID (_home sv))
                                   (_resourceID sv) None]) w1)
            = Ok tt w' /\
            w_binds w' = w_binds w1 /\ w_homes w' = w_homes w1 /\
            w_notifications w' = w_notifications w1 /\
            w_trace w' =
              w_trace w1 ++
              [NewShare (h_resourceID (_home sv)) (_resourceID sv) None] ++
              fed /\
            (if h_external h
             then exists e, fed = [e] /\
                            is_invite_to uid (next_name shareName w)
                              _BIND_MODE_DIRECT e
             else fed = [])).
  { change (viewerHome sv) with h.
    destruct (h_external h) eqn:Hext.
    - match goal with
      | |- context [_sendExternalInvite ?a ?b ?c] =>
          destruct (_sendExternalInvite_run a b oh' c Hoh') as (e & He & Hinv)
      end.
      eexists. exists [e]. split; [exact He|]. proj.
      repeat split; try reflexivity.
      + now rewrite <- app_assoc.
      + exists e. split; [reflexivity|].
        destruct e; try contradiction. cbn in Hinv |- *.
        destruct Hinv as (-> & -> & ->).
        assert (Huid : h_uid h = uid).
        { destruct (homeWithUID_create_spec _ _ _ _ _ Hhome) as (Hf & _).
          unfold find_home in Hf. apply find_some in Hf.
          destruct Hf as (_ & Hf). apply andb_true_iff in Hf.
          destruct Hf as (_ & Hf). now apply String.eqb_eq in Hf. }
        now rewrite Huid, Hgn, Hgm.
    - eexists. exists []. split; [reflexivity|]. proj.
      repeat split; try reflexivity. }
  destruct Hfed as (w' & fed & Hfedrun & Hb' & Hh' & Hn' & Ht' & Hfedspec).
  exists sv, w', g, evs, fed.
  assert (Hsv' : shareeView (setShared_view self) uid w' = Ok (Some sv) w').
  { now apply (shareeView_frame _ _ w1 w'). }
  split.
  { unfold directShareWithUser. rewrite (bind_Ok _ _ _ _ _ Habs).
    rewrite (bind_Ok _ _ _ _ _ Hrun). mrun. unfold newShare. mrun.
    rewrite (bind_Ok _ _ _ _ _ Hfedrun). reflexivity. }
  split; [exact Hg|].
  split; [rewrite Hb', <- Hb0; apply Hstep|].
  split; [rewrite Hh'; apply Hstep|].
  split; [rewrite (binds_of_frame _ _ w1 w' Hb'); exact Hone|].
  split.
  { intros shareName2. unfold directShareWithUser.
    now rewrite (bind_Ok _ _ _ _ _ Hsv'). }
  destruct Hstep as (_ & _ & _ & _ & _ & Hn1 & _ & Ht1 & _).
  split.
  { rewrite Ht', Ht1, Ht0. rewrite <- !app_assoc. do 2 f_equal.
    subst sv. cbn. now rewrite Hgr. }
  split; [exact Hin|]. split; [exact Hfedspec|].
  now rewrite Hn', Hn1, Hn0.
Qed.

(** C3.  For the owner's view of a resource, a sharee other than the owner,
    and a free slot in the sharee's home (no bind of the resource there and
    the name unused): [directShareWithUser] leaves exactly one bind of the
    pair, of mode [DIRECT] and accepted; called again, with whatever name,
    it changes nothing and returns the same view.  The first call issues,
    after events that reach no other party, the call of the first-share
    hook and then, only when the sharee's home is external, the invite on
    the conduit; it writes no notification. *)
Theorem direct_share_idempotent :
  forall (self : View) (uid : string) (shareName : option string)
         (w : World) (h : Home) (w0 : World),
    owns w self ->
    h_uid (_home self) <> uid ->
    homeWithUID (h_homeType (_home self)) uid true w = Ok (Some h) w0 ->
    insert_conflicts
      (new_bind self h _BIND_MODE_DIRECT _BIND_STATUS_ACCEPTED None
         (next_name shareName w))
      (w_binds w) = false ->
    exists (sv self' : View) (w' : World) (r : BindRow)
           (evs fed : list Event),
      directShareWithUser self uid shareName w = Ok (sv, self') w' /\
      binds_of (_resourceID self) (h_resourceID h) w' = [r] /\
      BIND_MODE r = _BIND_MODE_DIRECT /\
      BIND_STATUS r = _BIND_STATUS_ACCEPTED /\
      (forall shareName2 : option string,
         directShareWithUser self' uid shareName2 w' = Ok (sv, self') w') /\
      w_trace w' =
        w_trace w ++ evs ++
        [NewShare (h_resourceID h) (_resourceID self) None] ++ fed /\
      inward evs /\
      (if h_external h
       then exists e, fed = [e] /\
                      is_invite_to uid (next_name shareName w)
                        _BIND_MODE_DIRECT e
       else fed = []) /\
      w_notifications w' = w_notifications w.
Proof.
  intros self uid shareName w h w0 Howns Hne Hhome Hfree.
  destruct (directShareWithUser_new self uid shareName w h w0 Howns Hne
              Hhome Hfree)
    as (sv & w' & g & evs & fed & Hrun & Hg & _ & _ & Hone & Hagain & Htr
        & Hin & Hfed & Hn).
  exists sv, (setShared_view self), w',
    (g (new_bind self h _BIND_MODE_DIRECT _BIND_STATUS_ACCEPTED None
          (next_name shareName w))), evs, fed.
  destruct (Hg (new_bind self h _BIND_MODE_DIRECT _BIND_STATUS_ACCEPTED None
                  (next_name shareName w)))
    as (Hgm & _ & _ & _ & _ & Hgs).
  split; [exact Hrun|]. split; [exact Hone|].
  split; [exact Hgm|]. split; [exact Hgs|].
  split; [exact Hagain|]. split; [exact Htr|].
  split; [exact Hin|]. split; [exact Hfed|exact Hn].
Qed.

Lemma direct_share_idempotent_witness :
  exists (sv self' : View) (w' : World) (r : BindRow),
    directShareWithUser Sample.calendar01 "puser03" (Some "share-03"%string)
      (Sample.world [Sample.own01]) = Ok (sv, self') w' /\
    binds_of (_resourceID Sample.calendar01) (h_resourceID Sample.home03) w'
      = [r] /\
    BIND_MODE r = _BIND_MODE_DIRECT /\
    directShareWithUser self' "puser03" (Some "share-03"%string) w'
      = Ok (sv, self') w'.
Proof.
  destruct (direct_share_idempotent Sample.calendar01 "puser03"
              (Some "share-03"%string) (Sample.world [Sample.own01])
              Sample.home03 (Sample.world [Sample.own01])
              (conj eq_refl
                 (conj eq_refl
                    (conj eq_refl
                       (ex_intro _ Sample.own01
                          (conj eq_refl (conj eq_refl eq_refl))))))
              ltac:(discriminate) eq_refl eq_refl)
    as (sv & self' & w' & r & evs & fed & Hrun & Hone & Hmode & _ & Hagain & _).
  exists sv, self', w', r.
  split; [exact Hrun|]. split; [exact Hone|]. split; [exact Hmode|].
  apply Hagain.
Defined.

(** ** Inviting *)

Lemma ownerHomeOf_map_in (g : BindRow -> BindRow) resourceID w w' :
  (forall r, In r (w_binds w) ->
             RESOURCE_ID (g r) = RESOURCE_ID r /\
             HOME_RESOURCE_ID (g r) = HOME_RESOURCE_ID r /\
             (BIND_MODE (g r) = _BIND_MODE_OWN <-> BIND_MODE r = _BIND_MODE_OWN)) ->
  w_binds w' = map g (w_binds w) ->
  w_homes w' = w_homes w ->
  ownerHomeOf resourceID w' = ownerHomeOf resourceID w.
Proof.
  intros Hg Hb Hh. unfold ownerHomeOf. rewrite Hb, Hh. clear Hb Hh.
  induction (w_binds w) as [|r rows IH]; [reflexivity|]. cbn.
  destruct (Hg r (or_introl eq_refl)) as (-> & Hhome & Hmode).
  rewrite (bool_decide_ext _ _ Hmode).
  destruct ((RESOURCE_ID r =? resourceID) &&
            bool_decide (BIND_MODE r = _BIND_MODE_OWN));
    [now rewrite Hhome|].
  apply IH. intros x Hx. apply Hg. now right.
Qed.

Lemma binds_of_in resourceID homeID w r :
  In r (binds_of resourceID homeID w) <->
  In r (w_binds w) /\ bind_matches resourceID homeID r = true.
Proof. unfold binds_of. apply filter_In. Qed.

Lemma bind_matches_other_home resourceID homeID homeID' r :
  homeID <> homeID' ->
  bind_matches resourceID homeID' r = true ->
  bind_matches resourceID homeID r = false.
Proof.
  unfold bind_matches. intros Hne Hm.
  apply andb_true_iff in Hm. destruct Hm as [-> Hh]. cbn.
  apply Z.eqb_eq in Hh. apply Z.eqb_neq. congruence.
Qed.

(** Rows are transformed; the sharee's bind changes its mode and status, no
    other row changes, and the sharee's bind neither is nor becomes the
    owner's: the share is still there, with the new mode and status. *)
Lemma shared_with_map (g : BindRow -> BindRow) w w' self uid h mode status
  mode' status' :
  shared_with w self uid h mode status ->
  w_binds w' = map g (w_binds w) ->
  w_homes w' = w_homes w ->
  keeps_keys g ->
  (forall r,
     bind_matches (_resourceID self) (h_resourceID h) r = false -> g r = r) ->
  (forall r,
     bind_matches (_resourceID self) (h_resourceID h) r = true ->
     BIND_MODE r = mode -> BIND_STATUS r = status ->
     BIND_MODE (g r) = mode' /\ BIND_STATUS (g r) = status') ->
  mode <> _BIND_MODE_OWN -> mode' <> _BIND_MODE_OWN ->
  shared_with w' self uid h mode' status'.
Proof.
  intros (Howns & Hne & Hfind & Hhid & r & Hone & Hrm & Hrs) Hb Hh Hk Hg0 Hg1
    Hnown Hnown'.
  assert (Hmr : bind_matches (_resourceID self) (h_resourceID h) r = true).
  { apply (binds_of_in _ _ w r). rewrite Hone. now left. }
  assert (Honly : forall x, In x (w_binds w) ->
            bind_matches (_resourceID self) (h_resourceID h) x = true ->
            x = r).
  { intros x Hx Hmx.
    assert (Hin : In x (binds_of (_resourceID self) (h_resourceID h) w))
      by (apply binds_of_in; now split).
    rewrite Hone in Hin. destruct Hin as [<-|[]]. reflexivity. }
  destruct (Hg1 r Hmr Hrm Hrs) as (Hgm & Hgs).
  split; [|split; [exact Hne|split; [now rewrite Hh|split; [exact Hhid|]]]].
  - destruct Howns as (Hown & Hoh & Hres & own & Hoone & Hom & Hos).
    split; [exact Hown|]. split; [exact Hoh|]. split.
    + rewrite <- Hres. apply (ownerHomeOf_map_in g); try assumption.
      intros x Hx. destruct (Hk x) as (Hkh & Hkr & _).
      split; [exact Hkr|]. split; [exact Hkh|].
      destruct (bind_matches (_resourceID self) (h_resourceID h) x) eqn:Hmx.
      * rewrite (Honly x Hx Hmx). rewrite Hgm, Hrm. split; congruence.
      * now rewrite (Hg0 x Hmx).
    + exists own.
      rewrite (binds_of_map g _ _ w w' [] Hk) by (now rewrite app_nil_r).
      rewrite app_nil_r, Hoone. cbn.
      assert (Hmo : bind_matches (_resourceID self)
                      (h_resourceID (_home self)) own = true).
      { apply (binds_of_in _ _ w own). rewrite Hoone. now left. }
      rewrite (Hg0 own (bind_matches_other_home _ _ _ _ Hhid Hmo)).
      now repeat split.
  - exists (g r).
    rewrite (binds_of_map g _ _ w w' [] Hk) by (now rewrite app_nil_r).
    rewrite app_nil_r, Hone. now repeat split.
Qed.


Lemma shared_with_updateShare (self sv : View) uid h mode status
  (mode' : option BindMode) (status' : option BindStatus) summary w :
  shared_with w self uid h mode status ->
  sharee_view_of self h mode status sv ->
  mode <> _BIND_MODE_OWN ->
  mode' <> Some _BIND_MODE_OWN ->
  let mode2 := match mode' with Some m => m | None => mode end in
  let status2 := match status' with Some s => s | None => status end in
  exists (sv' : View) (w' : World),
    updateShare self sv mode' status' summary w = Ok sv' w' /\
    shared_with w' self uid h mode2 status2 /\
    sharee_view_of self h mode2 status2 sv' /\
    _name sv' = _name sv /\
    _bindMessage sv' =
      match summary with Some s => Some s | None => _bindMessage sv end /\
    same_frame w w' /\
    w_notifications w' = w_notifications w.
Proof.
  intros Hshared (Hh & Hrid & Hoh & Hm & Hs) Hnown Hnown' mode2 status2.
  destruct (updateShare_effect self sv mode' status' summary w Hrid)
    as (sv' & w' & g & Hrun & Hfr & Hn & Hfix & Hchg & Hb & Hk & Hg0 & Hg1).
  assert (Hcm :
    match cm_BIND_MODE (updateShare_columnMap sv mode' status' summary) with
    | Some m => m | None => mode end = mode2 /\
    match cm_BIND_STATUS (updateShare_columnMap sv mode' status' summary) with
    | Some s => s | None => status end = status2 /\
    match cm_MESSAGE (updateShare_columnMap sv mode' status' summary) with
    | Some s => Some s | None => _bindMessage sv end
    = match summary with Some s => Some s | None => _bindMessage sv end).
  { subst mode2 status2. cbn. rewrite Hm, Hs. repeat split.
    - destruct mode' as [m|]; [|reflexivity]. case_bool_decide as H;
        [reflexivity|]. destruct (decide (m = mode)); [congruence|now elim H].
    - destruct status' as [s|]; [|reflexivity]. case_bool_decide as H;
        [reflexivity|]. destruct (decide (s = status)); [congruence|now elim H].
    - destruct summary as [s|]; [|reflexivity]. case_bool_decide as H;
        [reflexivity|].
      destruct (decide (Some s = _bindMessage sv)); [congruence|now elim H]. }
  destruct Hcm as (Hcm1 & Hcm2 & Hcm3).
  destruct Hfix as (Hf1 & Hf2 & Hf3 & Hf4 & Hf5).
  destruct Hchg as (Hc1 & Hc2 & Hc3).
  rewrite Hm in Hc1. rewrite Hs in Hc2.
  rewrite Hcm1 in Hc1. rewrite Hcm2 in Hc2. rewrite Hcm3 in Hc3.
  rewrite Hh in Hg0, Hg1.
  assert (Hnown2 : mode2 <> _BIND_MODE_OWN).
  { subst mode2. destruct mode' as [m|]; congruence. }
  exists sv', w'. split; [exact Hrun|].
  split.
  { apply (shared_with_map g w w' self uid h mode status mode2 status2);
      try assumption.
    - apply Hfr.
    - intros x Hx Hxm Hxs. destruct (Hg1 x Hx) as (-> & -> & _).
      rewrite Hxm, Hxs. now split. }
  split; [unfold sharee_view_of; rewrite Hf1, Hf2, Hf3;
          repeat split; assumption|].
  split; [exact Hf5|]. split; [exact Hc3|]. split; [exact Hfr|exact Hn].
Qed.

Lemma updateShare_rows_status (ov sv : View) (s : BindStatus) (rev : Z)
  (rows : list BindRow) :
  _resourceID ov = _resourceID sv ->
  exists g : BindRow -> BindRow,
    updateShare_rows ov sv (status_only s) rev rows = map g rows /\
    keeps_keys g /\
    (forall r,
       bind_matches (_resourceID sv) (h_resourceID (_home sv)) r = false ->
       g r = r) /\
    (forall r,
       bind_matches (_resourceID sv) (h_resourceID (_home sv)) r = true ->
       BIND_MODE (g r) = BIND_MODE r /\ BIND_STATUS (g r) = s).
Proof.
  intros Hrid.
  exists (fun r =>
            if bind_matches (_resourceID sv) (h_resourceID (_home sv)) r
            then (if bool_decide (s = _BIND_STATUS_ACCEPTED)
                  then set_revision rev (apply_columnMap (status_only s) r)
                  else apply_columnMap (status_only s) r)
            else r).
  split; [|split; [|split]].
  - unfold updateShare_rows. cbn [cm_BIND_STATUS status_only]. rewrite Hrid.
    rewrite !updateRows_as_map.
    destruct (bool_decide (s = _BIND_STATUS_ACCEPTED)); [|reflexivity].
    rewrite map_map. apply map_ext. intros r.
    destruct (bind_matches _ _ r) eqn:Hm.
    + now rewrite (bind_matches_keeps _ _ _ _
                     (apply_columnMap_keeps (status_only s))), Hm.
    + now rewrite Hm.
  - intros r. destruct (bind_matches _ _ r); [|now repeat split].
    destruct (bool_decide (s = _BIND_STATUS_ACCEPTED)); now repeat split.
  - intros r Hm. now rewrite Hm.
  - intros r Hm. rewrite Hm.
    destruct (bool_decide (s = _BIND_STATUS_ACCEPTED)); now split.
Qed.

Lemma ownerView_of_sharee w self uid h mode status sv :
  shared_with w self uid h mode status ->
  sharee_view_of self h mode status sv ->
  exists ov : View,
    ownerView sv w = Ok (Some ov) w /\
    _ownerHome ov = Some (_home self) /\
    _resourceID ov = _resourceID sv.
Proof.
  intros (Howns & _) (_ & Hrid & Hoh & _).
  destruct Howns as (_ & _ & _ & own & Hone & Hm & Hs).
  exists (makeView (_home self) w own).
  assert (Hmo : bind_matches (_resourceID self) (h_resourceID (_home self)) own
                = true).
  { apply (binds_of_in _ _ w own). rewrite Hone. now left. }
  unfold bind_matches in Hmo. apply andb_true_iff in Hmo.
  destruct Hmo as (Hr & _). apply Z.eqb_eq in Hr.
  split; [|split].
  - unfold ownerView, ownerHome, childWithID. rewrite Hoh. mrun.
    rewrite objectWith_run. unfold id. rewrite findView_accepted_by_id.
    rewrite Hrid, Hone. cbn [List.find].
    rewrite (bool_decide_eq_true_2 _ Hs). reflexivity.
  - unfold makeView. cbn. now rewrite (bool_decide_eq_true_2 _ Hm).
  - cbn. congruence.
Qed.

(** One reply of the sharee, accepting or declining, on a share recorded in
    the state. *)
Lemma shared_with_reply w self uid h mode status sv (s : BindStatus)
  (summary : option string) (hook : list Event) (k : View -> M unit) :
  shared_with w self uid h mode status ->
  sharee_view_of self h mode status sv ->
  mode <> _BIND_MODE_OWN ->
  status <> s ->
  (forall v w0,
     _home v = _home sv -> _resourceID v = _resourceID sv ->
     k v w0 = Ok tt (setTrace (fun t => t ++ hook) w0)) ->
  inward hook ->
  exists (sv' : View) (w' : World),
    (ext <- external sv ;;
     (if ext : bool then _replyExternalInvite sv s summary else ret tt) ;;;
     ov0 <- ownerView sv ;;
     ov0 <- deref ov0 ;;
     self0 <- updateShare ov0 sv None (Some s) None ;;
     k self0 ;;;
     ovext <- external ov0 ;;
     (if negb ovext then _sendReplyNotification self0 ov0 summary
      else ret tt) ;;;
     ret self0) w = Ok sv' w' /\
    shared_with w' self uid h mode s /\
    sharee_view_of self h mode s sv' /\
    w_children w' = children_after sv (Some s) (w_children w) /\
    _name sv' = _name sv.
Proof.
  intros Hshared Hview Hnown Hne Hk Hhook.
  destruct (ownerView_of_sharee _ _ _ _ _ _ _ Hshared Hview)
    as (ov & Hov & Hovh & Hovr).
  pose proof Hview as (Hh & Hrid & Hoh & Hm & Hs).
  destruct (reply_transition sv ov (_home self) s summary hook w Hoh Hovh Hov
              ltac:(congruence) k Hk Hhook)
    as (sv' & w' & mid & Hrun & Hs' & Hm' & Hb & Hhomes & _ & _ & _ & Hsv' & Hch).
  exists sv', w'. split; [exact Hrun|].
  destruct (updateShare_rows_status ov sv s (w_revisionSeq w) (w_binds w) Hovr)
    as (g & Hg & Hk' & Hg0 & Hg1).
  rewrite Hg in Hb. rewrite Hrid, Hh in Hg0, Hg1.
  destruct (updateShare_view_fixed sv (status_only s) (w_revisionSeq w))
    as (Hf1 & Hf2 & Hf3 & _ & Hf5).
  rewrite <- Hsv' in Hf1, Hf2, Hf3, Hf5.
  split; [|split; [|split; [exact Hch|exact Hf5]]].
  - apply (shared_with_map g w w' self uid h mode status mode s);
      try assumption.
    intros x Hx Hxm _. destruct (Hg1 x Hx) as (-> & ->). now split.
  - unfold sharee_view_of. rewrite Hf1, Hf2, Hf3, Hm', Hs'.
    now repeat split.
Qed.

Lemma invite_dispatch_run (self sv : View) (oh : Home) (w : World) :
  _ownerHome sv = Some oh ->
  exists w' : World,
    (if h_external (viewerHome sv) then _sendExternalInvite self sv
     else _sendInviteNotification self sv None) w = Ok tt w' /\
    w_binds w' = w_binds w /\ w_homes w' = w_homes w /\
    w_env w' = w_env w /\ w_children w' = w_children w.
Proof.
  intros Hoh. destruct (h_external (viewerHome sv)).
  - destruct (_sendExternalInvite_run self sv oh w Hoh) as (e & Hrun & _).
    eexists. split; [exact Hrun|]. now repeat split.
  - rewrite (_sendInviteNotification_run self sv oh None w Hoh).
    eexists. split; [reflexivity|]. now repeat split.
Qed.

Lemma shareeView_found_inv (self : View) (uid : string) (w : World)
  (sv : View) :
  shareeView self uid w = Ok (Some sv) w ->
  exists (r : BindRow) (rest : list BindRow),
    binds_of (_resourceID self) (h_resourceID (_home sv)) w = r :: rest /\
    sv = makeView (_home sv) w r /\
    RESOURCE_ID r = _resourceID self.
Proof.
  rewrite shareeView_run. intros [= Hsv].
  destruct (String.eqb (h_uid (_home self)) uid); [discriminate|].
  destruct (find_home _ uid (w_homes w)) as [h|]; [|discriminate].
  assert (Hchild : allChildWithID h (_resourceID self) w = Ok (Some sv) w).
  { unfold allChildWithID. rewrite objectWith_run. unfold id in Hsv.
    now rewrite Hsv. }
  destruct (allChildWithID_found _ _ _ _ Hchild) as (r & rest & Hb & -> & Hr & _).
  exists r, rest. cbn. now repeat split.
Qed.

Lemma reinvite_columnMap (sv : View) (r : BindRow) mode summary :
  BIND_MODE r = _bindMode sv ->
  BIND_STATUS r = _bindStatus sv ->
  let status :=
    if bool_decide (shareStatus sv = _BIND_STATUS_DECLINED) ||
       bool_decide (shareStatus sv = _BIND_STATUS_INVALID)
    then Some _BIND_STATUS_INVITED else None in
  let cm := updateShare_columnMap sv (Some mode) status summary in
  match cm_BIND_MODE cm with Some m => m | None => BIND_MODE r end = mode /\
  match cm_BIND_STATUS cm with Some s => s | None => BIND_STATUS r end
    = reinvited_status (BIND_STATUS r) /\
  match cm_MESSAGE cm with Some s => Some s | None => _bindMessage sv end
    = match summary with Some s => Some s | None => _bindMessage sv end.
Proof.
  intros Hm Hs. cbn. unfold reinvited_status, shareStatus. rewrite Hs.
  split; [|split].
  - case_bool_decide as H; cbn; [reflexivity|].
    rewrite Hm. destruct (decide (mode = _bindMode sv)); [congruence|].
    now elim H.
  - destruct (bool_decide (_bindStatus sv = _BIND_STATUS_DECLINED) ||
              bool_decide (_bindStatus sv = _BIND_STATUS_INVALID)) eqn:Hd;
      [|reflexivity].
    rewrite bool_decide_eq_true_2; [reflexivity|].
    apply orb_true_iff in Hd.
    destruct Hd as [Hd|Hd]; apply bool_decide_eq_true_1 in Hd; congruence.
  - destruct summary as [s|]; [|reflexivity]. case_bool_decide as H;
      [reflexivity|].
    destruct (decide (Some s = _bindMessage sv)); [congruence|now elim H].
Qed.


Lemma accept_step w self uid h mode status sv summary :
  shared_with w self uid h mode status ->
  sharee_view_of self h mode status sv ->
  mode <> _BIND_MODE_OWN -> mode <> _BIND_MODE_DIRECT ->
  status <> _BIND_STATUS_ACCEPTED ->
  exists (sv' : View) (w' : World),
    acceptShare sv summary w = Ok sv' w' /\
    shared_with w' self uid h mode _BIND_STATUS_ACCEPTED /\
    sharee_view_of self h mode _BIND_STATUS_ACCEPTED sv' /\
    w_children w' =
      children_after sv (Some _BIND_STATUS_ACCEPTED) (w_children w) /\
    _name sv' = _name sv.
Proof.
  intros Hshared Hview Hnown Hnd Hne.
  pose proof Hview as (_ & _ & _ & Hm & Hs).
  unfold acceptShare, direct, shareStatus. rewrite Hm, Hs.
  rewrite (bool_decide_eq_false_2 _ Hnd), (bool_decide_eq_true_2 _ Hne).
  cbn [negb andb].
  apply (shared_with_reply w self uid h mode status sv _BIND_STATUS_ACCEPTED
           summary
           [NewShare (h_resourceID (_home sv)) (_resourceID sv) summary]
           (fun v => newShare v summary)); try assumption.
  - intros v w0 Hvh Hvr. unfold newShare. now rewrite Hvh, Hvr.
  - repeat constructor. cbn. tauto.
Qed.


Lemma owns_frame w w' self :
  w_binds w' = w_binds w -> w_homes w' = w_homes w ->
  owns w self -> owns w' self.
Proof.
  intros Hb Hh. apply owns_more_homes; [exact Hb|].
  exists []. now rewrite app_nil_r.
Qed.

(** Inviting a sharee who has no view of the resource yet. *)
Lemma invite_new (self : View) (uid : string) mode summary shareName
  (w : World) (h : Home) (w0 : World) :
  let st := created_status mode in
  owns w self ->
  h_uid (_home self) <> uid ->
  homeWithUID (h_homeType (_home self)) uid true w = Ok (Some h) w0 ->
  insert_conflicts
    (new_bind self h mode st summary (next_name shareName w)) (w_binds w)
    = false ->
  exists (sv : View) (w' : World),
    inviteUIDToShare self uid mode summary shareName w
      = Ok (sv, setShared_view self) w' /\
    shared_with w' (setShared_view self) uid h mode st /\
    _home sv = h /\ _resourceID sv = _resourceID self /\
    _bindMode sv = mode /\ _bindStatus sv = st /\
    _name sv = next_name shareName w /\
    (mode <> _BIND_MODE_OWN ->
     sharee_view_of (setShared_view self) h mode st sv) /\
    w_homes w' = w_homes w0 /\
    exists g : BindRow -> BindRow,
      gentle g /\
      w_binds w' =
        map g (w_binds w ++
               [new_bind self h mode st summary (next_name shareName w)]).
Proof.
  intros st Howns Hne Hhome Hfree.
  destruct (createShare_new self uid mode summary shareName w h w0 Howns Hne
              Hhome Hfree)
    as (w1 & g & evs & Hrun & Hstep & _ & Hg & Hone & Howns1 & (oh' & Hoh')
        & Hsv).
  set (row := new_bind self h mode st summary (next_name shareName w)) in *.
  destruct (invite_dispatch_run (setShared_view self) (makeView h w1 (g row))
              oh' w1 Hoh')
    as (w' & Hdisp & Hb' & Hh' & _).
  destruct (Hg row) as (Hgm & Hgh & Hgr & _ & Hgn & Hgs).
  destruct (setShared_view_fixed self) as (_ & Hf2 & Hf3 & _).
  destruct (homeWithUID_create_spec _ _ _ _ _ Hhome) as (Hfind & _).
  assert (Hshared : shared_with w' (setShared_view self) uid h mode st).
  { split; [now apply (owns_frame w1 w')|].
    split; [now rewrite Hf3|].
    split.
    { rewrite Hf3, Hh'. destruct Hstep as (_ & -> & _). exact Hfind. }
    split.
    { rewrite Hf3. intros Heq.
      pose proof (owner_row_elsewhere w self row Howns eq_refl Hfree) as Hno.
      unfold bind_matches in Hno. cbn [row new_bind RESOURCE_ID
        HOME_RESOURCE_ID] in Hno.
      rewrite Heq, !Z.eqb_refl in Hno. discriminate. }
    exists (g row). rewrite Hf2, (binds_of_frame _ _ w1 w' Hb').
    split; [exact Hone|]. now split. }
  exists (makeView h w1 (g row)), w'.
  split.
  { unfold inviteUIDToShare. rewrite (bind_Ok _ _ _ _ _
      (shareeView_absent self uid h w w0 Hhome
         (proj1 (insert_conflicts_free row (w_binds w) Hfree)))).
    rewrite (bind_Ok _ _ _ _ _ Hrun). mrun.
    rewrite (bind_Ok _ _ _ _ _ Hdisp). reflexivity. }
  split; [exact Hshared|].
  split; [reflexivity|]. split; [exact Hgr|].
  split; [exact Hgm|]. split; [exact Hgs|]. split; [exact Hgn|].
  split.
  { intros Hnown. unfold sharee_view_of, makeView. cbn.
    rewrite (bool_decide_eq_false_2 (BIND_MODE (g row) = _BIND_MODE_OWN))
      by (rewrite Hgm; exact Hnown).
    rewrite Hgr. cbn [row new_bind RESOURCE_ID].
    destruct Howns1 as (_ & _ & Hres & _). rewrite Hf2 in Hres.
    rewrite Hres, Hf2. now repeat split. }
  destruct (homeWithUID_create_spec _ _ _ _ _ Hhome) as (_ & _ & Hb0 & _).
  split; [rewrite Hh'; apply Hstep|].
  exists g. split; [exact Hg|]. rewrite Hb', <- Hb0. apply Hstep.
Qed.



(** ** An external invite whose collection name is taken *)

Lemma createChildWithName_taken (home : Home) (name : string)
  (externalID : option Z) (w : World) :
  existsb (fun r => (HOME_RESOURCE_ID r =? h_resourceID home) &&
                    String.eqb (RESOURCE_NAME r) name) (w_binds w) = true ->
  createChildWithName home name externalID w
    = Raise (HomeChildNameAlreadyExistsError name) w.
Proof. intros H. unfold createChildWithName. now rewrite H. Qed.

Lemma createChildWithName_free (home : Home) (name : string)
  (externalID : option Z) (w : World) :
  existsb (fun r => (HOME_RESOURCE_ID r =? h_resourceID home) &&
                    String.eqb (RESOURCE_NAME r) name) (w_binds w) = false ->
  let r := child_row home (w_nextResourceID w) name externalID in
  createChildWithName home name externalID w
    = Ok (makeView home w r)
        (setTrace
           (fun t => t ++ [SQLInsertBind r; NotifyChanged (h_resourceID home)])
           (setNextResourceID Z.succ (setBinds (fun rows => rows ++ [r]) w))).
Proof. intros H r. unfold createChildWithName. now rewrite H. Qed.

(** The stale collection found by its name. *)
Lemma childWithName_found (home : Home) (name : string) (w : World)
  (old : View) :
  childWithName home name w = Ok (Some old) w ->
  exists r : BindRow,
    In r (w_binds w) /\
    HOME_RESOURCE_ID r = h_resourceID home /\
    RESOURCE_NAME r = name /\
    _resourceID old = RESOURCE_ID r.
Proof.
  unfold childWithName. rewrite objectWith_run. unfold findView.
  intros [= H].
  destruct (List.find _ (w_binds w)) as [r|] eqn:Hf; [|discriminate].
  injection H as <-. apply find_some in Hf. destruct Hf as (Hin & Hp).
  apply andb_true_iff in Hp. destruct Hp as (Hp & _).
  apply andb_true_iff in Hp. destruct Hp as (Hh & Hn).
  exists r. split; [exact Hin|]. split; [now apply Z.eqb_eq|].
  split; [now apply String.eqb_eq|reflexivity].
Qed.

Lemma name_taken (home : Home) (name : string) (w : World) (r : BindRow) :
  In r (w_binds w) ->
  HOME_RESOURCE_ID r = h_resourceID home ->
  RESOURCE_NAME r = name ->
  existsb (fun r => (HOME_RESOURCE_ID r =? h_resourceID home) &&
                    String.eqb (RESOURCE_NAME r) name) (w_binds w) = true.
Proof.
  intros Hin Hh Hn. apply existsb_exists. exists r. split; [exact Hin|].
  now rewrite Hh, Hn, Z.eqb_refl, String.eqb_refl.
Qed.

(** Once the stale collection is removed its name is free again. *)
Lemma name_free_after_removal (home : Home) (name : string) (w : World)
  (r0 : BindRow) :
  unique_names w ->
  In r0 (w_binds w) ->
  HOME_RESOURCE_ID r0 = h_resourceID home ->
  RESOURCE_NAME r0 = name ->
  existsb (fun r => (HOME_RESOURCE_ID r =? h_resourceID home) &&
                    String.eqb (RESOURCE_NAME r) name)
    (List.filter (fun r => negb (RESOURCE_ID r =? RESOURCE_ID r0)) (w_binds w))
  = false.
Proof.
  intros Huniq Hin Hh Hn.
  destruct (existsb _ _) eqn:He; [|reflexivity].
  apply existsb_exists in He. destruct He as (x & Hx & Hp).
  apply filter_In in Hx. destruct Hx as (Hx & Hne).
  apply andb_true_iff in Hp. destruct Hp as (Hxh & Hxn).
  apply Z.eqb_eq in Hxh. apply String.eqb_eq in Hxn.
  assert (RESOURCE_ID x = RESOURCE_ID r0)
    by (apply Huniq; try assumption; congruence).
  apply negb_true_iff, Z.eqb_neq in Hne. contradiction.
Qed.

Lemma homeWithUID_present homeType uid create w h :
  find_home homeType uid (w_homes w) = Some h ->
  homeWithUID homeType uid create w = Ok (Some h) w.
Proof. intros H. unfold homeWithUID. now rewrite H. Qed.

Lemma find_home_spec homeType uid hs h :
  find_home homeType uid hs = Some h ->
  h_homeType h = homeType /\ h_uid h = uid.
Proof.
  unfold find_home. intros H. apply find_some in H. destruct H as (_ & H).
  apply andb_true_iff in H. destruct H as (H1 & H2).
  split; [now apply Z.eqb_eq|now apply String.eqb_eq].
Qed.

(** The handler of the name collision, on a stale collection without
    invitations: the stale rows go, the collection is created again. *)
Lemma shadow_recreated (ownerHome : Home) (ownerRID : Z) (ownerName : string)
  (w : World) (old : View) :
  childWithName ownerHome ownerName w = Ok (Some old) w ->
  sharingInvites old w = Ok [] w ->
  unique_names w ->
  let row := child_row ownerHome (w_nextResourceID w) ownerName
               (Some ownerRID) in
  exists (ownerView : View) (w' : World),
    try_except
      (createChildWithName ownerHome ownerName (Some ownerRID))
      (fun e =>
         match e with
         | HomeChildNameAlreadyExistsError _ =>
             old <- childWithName ownerHome ownerName ;;
             oldOwnerView <- deref old ;;
             invites <- sharingInvites oldOwnerView ;;
             if negb (length invites =? 0)%nat then
               emit (LogError still_has_shares) ;;;
               raise e
             else
               emit (LogError trying_to_fix) ;;;
               removeExternalChild ownerHome oldOwnerView ;;;
               createChildWithName ownerHome ownerName (Some ownerRID)
         | _ => raise e
         end) w = Ok ownerView w' /\
    _home ownerView = ownerHome /\
    _ownerHome ownerView = Some ownerHome /\
    _bindMode ownerView = _BIND_MODE_OWN /\
    _resourceID ownerView = w_nextResourceID w /\
    _externalID ownerView = Some ownerRID /\
    w_binds w' =
      List.filter (fun r => negb (RESOURCE_ID r =? _resourceID old))
        (w_binds w) ++ [row] /\
    w_homes w' = w_homes w /\
    w_env w' = w_env w /\
    w_uuidCalls w' = w_uuidCalls w /\
    w_notifications w' = w_notifications w /\
    w_trace w' =
      w_trace w ++
      [LogError trying_to_fix;
       SQLDeleteBind (_resourceID old) (h_resourceID ownerHome);
       SQLInsertBind row; NotifyChanged (h_resourceID ownerHome)].
Proof.
  intros Hold Hinv Huniq row.
  destruct (childWithName_found _ _ _ _ Hold) as (r0 & Hin & Hh & Hn & Hid).
  pose proof (name_taken ownerHome ownerName w r0 Hin Hh Hn) as Htaken.
  pose proof (name_free_after_removal ownerHome ownerName w r0 Huniq Hin Hh Hn)
    as Hfree.
  unfold try_except.
  rewrite (createChildWithName_taken _ _ _ _ Htaken).
  rewrite (bind_Ok _ _ _ _ _ Hold). cbn [deref]. rewrite bind_ret.
  rewrite (bind_Ok _ _ _ _ _ Hinv). cbn [length Nat.eqb negb].
  unfold removeExternalChild, children_pop. mrun.
  rewrite createChildWithName_free
    by (proj; rewrite Hid; exact Hfree).
  eexists _, _. split; [reflexivity|].
  cbn. rewrite <- !app_assoc. cbn. rewrite Hid. now repeat split.
Qed.

(** The new owner collection owns its resource once it is created. *)
Lemma recreated_owns (ownerHome : Home) (ownerRID : Z) (ownerName : string)
  (w w' : World) (oldID : Z) (ownerView : View) :
  let row := child_row ownerHome (w_nextResourceID w) ownerName
               (Some ownerRID) in
  fresh_resourceID w ->
  homeWithResourceID (h_resourceID ownerHome) (w_homes w) = Some ownerHome ->
  _home ownerView = ownerHome ->
  _ownerHome ownerView = Some ownerHome ->
  _bindMode ownerView = _BIND_MODE_OWN ->
  _resourceID ownerView = w_nextResourceID w ->
  w_binds w' =
    List.filter (fun r => negb (RESOURCE_ID r =? oldID)) (w_binds w) ++ [row] ->
  w_homes w' = w_homes w ->
  owns w' ownerView /\
  binds_of (w_nextResourceID w) (h_resourceID ownerHome) w' = [row].
Proof.
  intros row Hfresh Hhome Hv1 Hv2 Hv3 Hv4 Hb Hh.
  assert (Hnone : forall p,
            List.filter
              (fun r => (RESOURCE_ID r =? w_nextResourceID w) && p r)
              (List.filter (fun r => negb (RESOURCE_ID r =? oldID))
                 (w_binds w)) = []).
  { intros p. apply filter_nil_iff. intros x Hx.
    apply filter_In in Hx. destruct Hx as (Hx & _).
    apply Hfresh in Hx. apply Z.eqb_neq in Hx. now rewrite Hx. }
  assert (Hone : binds_of (w_nextResourceID w) (h_resourceID ownerHome) w'
                 = [row]).
  { unfold binds_of. rewrite Hb, filter_app_eq.
    unfold bind_matches at 1. rewrite Hnone. cbn [app List.filter].
    unfold bind_matches, row, child_row.
    cbn [RESOURCE_ID HOME_RESOURCE_ID]. now rewrite !Z.eqb_refl. }
  split; [|exact Hone].
  split; [unfold owned; rewrite Hv3; now apply bool_decide_eq_true_2|].
  split; [now rewrite Hv1|].
  split.
  { rewrite Hv4, Hv1. unfold ownerHomeOf. rewrite Hb, Hh.
    rewrite find_head_filter, filter_app_eq, Hnone.
    cbn [app List.filter row child_row RESOURCE_ID BIND_MODE].
    rewrite Z.eqb_refl.
    rewrite (bool_decide_eq_true_2 (_BIND_MODE_OWN = _BIND_MODE_OWN) eq_refl).
    cbn [andb head HOME_RESOURCE_ID]. exact Hhome. }
  exists row. rewrite Hv4, Hv1. split; [exact Hone|]. now split.
Qed.

(** The share of the new collection with the invited home, by either of the
    two calls [processExternalInvite] chooses between. *)
Lemma external_share_step (ownerView : View) (self : Home) (mode : BindMode)
  (summary : option string) (shareUID : string) (w : World) :
  let row := new_bind ownerView self mode (created_status mode)
               (if bool_decide (mode = _BIND_MODE_DIRECT) then None
                else summary) shareUID in
  owns w ownerView ->
  h_uid (_home ownerView) <> h_uid self ->
  find_home (h_homeType (_home ownerView)) (h_uid self) (w_homes w)
    = Some self ->
  insert_conflicts row (w_binds w) = false ->
  exists (r : View * View) (w' : World) (g : BindRow -> BindRow),
    (if bool_decide (mode = _BIND_MODE_DIRECT) then
       directShareWithUser ownerView (h_uid self) (Some shareUID)
     else
       inviteUIDToShare ownerView (h_uid self) mode summary (Some shareUID)) w
      = Ok r w' /\
    gentle g /\
    w_binds w' = map g (w_binds w ++ [row]) /\
    w_homes w' = w_homes w.
Proof.
  intros row Howns Hne Hfind Hfree.
  pose proof (homeWithUID_present _ _ true w self Hfind) as Hhome.
  subst row. case_bool_decide as Hmode.
  - subst mode.
    unfold created_status in Hfree.
    rewrite (bool_decide_eq_false_2 (_BIND_MODE_DIRECT <> _BIND_MODE_DIRECT))
      in Hfree by (intros H; now apply H).
    destruct (directShareWithUser_new ownerView (h_uid self) (Some shareUID)
                w self w Howns Hne Hhome Hfree)
      as (sv & w' & g & evs & fed & Hrun & Hg & Hb & Hh & _).
    exists (sv, setShared_view ownerView), w', g.
    unfold created_status.
    rewrite (bool_decide_eq_false_2 (_BIND_MODE_DIRECT <> _BIND_MODE_DIRECT))
      by (intros H; now apply H).
    split; [exact Hrun|]. split; [exact Hg|]. split; [exact Hb|exact Hh].
  - destruct (invite_new ownerView (h_uid self) mode summary (Some shareUID)
                w self w Howns Hne Hhome Hfree)
      as (sv & w' & Hrun & _ & _ & _ & _ & _ & _ & _ & Hh & g & Hg & Hb).
    exists (sv, setShared_view ownerView), w', g.
    split; [exact Hrun|]. split; [exact Hg|]. split; [exact Hb|exact Hh].
Qed.

(** No row of the invited home stands in the way of the new bind. *)
Lemma external_bind_free (ownerHome self : Home) (ownerView : View)
  (ownerRID oldID : Z) (ownerName shareUID : string) (mode : BindMode)
  (status : BindStatus) (msg : option string) (w : World)
  (rows : list BindRow) :
  fresh_resourceID w ->
  h_resourceID self <> h_resourceID ownerHome ->
  (forall r, In r (w_binds w) -> HOME_RESOURCE_ID r = h_resourceID self ->
             RESOURCE_NAME r <> shareUID) ->
  _resourceID ownerView = w_nextResourceID w ->
  rows =
    List.filter (fun r => negb (RESOURCE_ID r =? oldID)) (w_binds w) ++
    [child_row ownerHome (w_nextResourceID w) ownerName (Some ownerRID)] ->
  insert_conflicts (new_bind ownerView self mode status msg shareUID) rows
    = false.
Proof.
  intros Hfresh Hne Hname Hid ->. unfold insert_conflicts.
  destruct (existsb _ _) eqn:He; [|reflexivity].
  apply existsb_exists in He. destruct He as (x & Hx & Hp).
  cbn [new_bind HOME_RESOURCE_ID RESOURCE_ID RESOURCE_NAME] in Hp.
  apply andb_true_iff in Hp. destruct Hp as (Hxh & Hp).
  apply Z.eqb_eq in Hxh. apply in_app_or in Hx. destruct Hx as [Hx|[<-|[]]].
  - apply filter_In in Hx. destruct Hx as (Hx & _).
    apply orb_true_iff in Hp. destruct Hp as [Hp|Hp].
    + apply Z.eqb_eq in Hp. rewrite Hid in Hp.
      exfalso. exact (Hfresh x Hx Hp).
    + apply String.eqb_eq in Hp. exfalso. exact (Hname x Hx Hxh Hp).
  - cbn [child_row HOME_RESOURCE_ID] in Hxh. exfalso. apply Hne.
    now symmetry.
Qed.

(** C8. [processExternalInvite] on a name collision: the owner's home is
    external, no collection of it carries the external id of the invite, and
    a collection [old] of it already has the name.  If [old] still has
    invitations, the call raises the name error of the failed creation and
    the state is as before but for one line in the log.  If [old] has no
    invitation, then, in a store whose names are unique per home and whose
    next resource id is unused, for an invited home that is registered,
    differs from the owner's and has no bind named like the share, the call
    succeeds: no row of the stale resource remains, the owner's home has one
    new collection with the name and the external id of the invite, and the
    invited home has one bind to it with the share's name, the mode of the
    invite and the status a new share of that mode gets. *)
Theorem external_invite_name_collision :
  forall (self : Home) (ownerUID : string) (ownerRID : Z)
         (ownerName shareUID : string) (bindMode : BindMode)
         (summary : option string)
         (copy_invite_properties : list (string * string))
         (supported_components : option string)
         (w : World) (ownerHome : Home) (old : View)
         (invites : list SharingInvitation),
    find_home (h_homeType self) ownerUID (w_homes w) = Some ownerHome ->
    h_external ownerHome = true ->
    childWithExternalID ownerHome ownerRID w = Ok None w ->
    childWithName ownerHome ownerName w = Ok (Some old) w ->
    sharingInvites old w = Ok invites w ->
    (invites <> [] ->
     SharingHomeMixIn.processExternalInvite self ownerUID ownerRID ownerName
       shareUID bindMode summary copy_invite_properties supported_components w
     = Raise (HomeChildNameAlreadyExistsError ownerName)
         (setTrace (fun t => t ++ [LogError still_has_shares]) w)) /\
    (invites = [] ->
     unique_names w ->
     fresh_resourceID w ->
     find_home (h_homeType self) (h_uid self) (w_homes w) = Some self ->
     h_uid self <> ownerUID ->
     h_resourceID self <> h_resourceID ownerHome ->
     homeWithResourceID (h_resourceID ownerHome) (w_homes w)
       = Some ownerHome ->
     (forall r, In r (w_binds w) -> HOME_RESOURCE_ID r = h_resourceID self ->
                RESOURCE_NAME r <> shareUID) ->
     exists (w' : World) (own shr : BindRow),
       SharingHomeMixIn.processExternalInvite self ownerUID ownerRID ownerName
         shareUID bindMode summary copy_invite_properties supported_components
         w = Ok tt w' /\
       (forall r, In r (w_binds w') -> RESOURCE_ID r <> _resourceID old) /\
       binds_of (w_nextResourceID w) (h_resourceID ownerHome) w' = [own] /\
       BIND_MODE own = _BIND_MODE_OWN /\
       EXTERNAL_ID own = Some ownerRID /\
       RESOURCE_NAME own = ownerName /\
       binds_of (w_nextResourceID w) (h_resourceID self) w' = [shr] /\
       RESOURCE_NAME shr = shareUID /\
       BIND_MODE shr = bindMode /\
       BIND_STATUS shr = created_status bindMode /\
       EXTERNAL_ID shr = Some ownerRID).
Proof.
  intros self ownerUID ownerRID ownerName shareUID bindMode summary props
    comps w ownerHome old invites Hfind Hext Hnoext Hold Hinv.
  pose proof (homeWithUID_present _ _ true w ownerHome Hfind) as Hhome.
  destruct (find_home_spec _ _ _ _ Hfind) as (Htype & Huid).
  destruct (childWithName_found _ _ _ _ Hold) as (r0 & Hin0 & Hh0 & Hn0 & Hid0).
  split.
  - intros Hne.
    unfold SharingHomeMixIn.processExternalInvite.
    rewrite (bind_Ok _ _ _ _ _ Hhome). rewrite Hext. cbn [negb].
    rewrite (bind_Ok _ _ _ _ _ Hnoext).
    rewrite bind_assoc.
    assert (Htry :
      try_except
        (createChildWithName ownerHome ownerName (Some ownerRID))
        (fun e =>
           match e with
           | HomeChildNameAlreadyExistsError _ =>
               old <- childWithName ownerHome ownerName ;;
               oldOwnerView <- deref old ;;
               invites <- sharingInvites oldOwnerView ;;
               if negb (length invites =? 0)%nat then
                 emit (LogError still_has_shares) ;;;
                 raise e
               else
                 emit (LogError trying_to_fix) ;;;
                 removeExternalChild ownerHome oldOwnerView ;;;
                 createChildWithName ownerHome ownerName (Some ownerRID)
           | _ => raise e
           end) w
      = Raise (HomeChildNameAlreadyExistsError ownerName)
          (setTrace (fun t => t ++ [LogError still_has_shares]) w)).
    { unfold try_except.
      rewrite (createChildWithName_taken _ _ _ _
                 (name_taken ownerHome ownerName w r0 Hin0 Hh0 Hn0)).
      rewrite (bind_Ok _ _ _ _ _ Hold). cbn [deref]. rewrite bind_ret.
      rewrite (bind_Ok _ _ _ _ _ Hinv).
      destruct invites as [|i invites]; [now contradiction Hne|].
      cbn [length Nat.eqb negb]. now mrun. }
    now rewrite (bind_Raise _ _ _ _ _ Htry).
  - intros -> Huniq Hfresh Hself Hdiff Hhid Hres Hname.
    destruct (shadow_recreated ownerHome ownerRID ownerName w old Hold Hinv
                Huniq)
      as (ownerView & w1 & Htry & Hv1 & Hv2 & Hv3 & Hv4 & Hv5 & Hb1 & Hh1
          & _).
    set (row := child_row ownerHome (w_nextResourceID w) ownerName
                  (Some ownerRID)) in *.
    (* the supported components of the new collection *)
    assert (Hcomp : exists w2,
      (has <- hasSupportedComponents ;;
       match comps with
       | Some c => if has : bool then setSupportedComponents ownerView c
                   else ret tt
       | None => ret tt
       end ;;; ret ownerView) w1 = Ok ownerView w2 /\
      w_binds w2 = w_binds w1 /\ w_homes w2 = w_homes w1).
    { unfold hasSupportedComponents, setSupportedComponents.
      destruct comps as [c|];
        [destruct (env_hasSupportedComponents (w_env w1)) eqn:Hhas|].
      - eexists. split; [mrun; rewrite Hhas; mrun; reflexivity|].
        now split.
      - eexists. split; [mrun; rewrite Hhas; mrun; reflexivity|].
        now split.
      - eexists. split; [mrun; reflexivity|]. now split. }
    destruct Hcomp as (w2 & Hcomp & Hb2 & Hh2).
    rewrite Hb1 in Hb2. rewrite Hh1 in Hh2.
    destruct (recreated_owns ownerHome ownerRID ownerName w w2
                (_resourceID old) ownerView Hfresh Hres Hv1 Hv2 Hv3 Hv4 Hb2
                Hh2) as (Howns & Hone).
    fold row in Hone.
    set (shr0 := new_bind ownerView self bindMode (created_status bindMode)
                   (if bool_decide (bindMode = _BIND_MODE_DIRECT) then None
                    else summary) shareUID).
    assert (Hfree : insert_conflicts shr0 (w_binds w2) = false).
    { eapply external_bind_free; try eassumption. }
    destruct (external_share_step ownerView self bindMode summary shareUID w2
                Howns) as (r & w3 & g & Hshare & Hg & Hb3 & Hh3).
    { rewrite Hv1, Huid. intros Heq. now apply Hdiff. }
    { rewrite Hv1, Htype, Hh2. exact Hself. }
    { exact Hfree. }
    fold shr0 in Hb3.
    assert (Hrun :
      SharingHomeMixIn.processExternalInvite self ownerUID ownerRID ownerName
        shareUID bindMode summary props comps w
      = Ok tt
          (setTrace
             (fun t => t ++ [SetInviteCopyProperties
                               (h_resourceID (_home (fst r)))
                               (_resourceID (fst r)) props]) w3)).
    { unfold SharingHomeMixIn.processExternalInvite.
      rewrite (bind_Ok _ _ _ _ _ Hhome). rewrite Hext. cbn [negb].
      rewrite (bind_Ok _ _ _ _ _ Hnoext).
      rewrite bind_assoc.
      rewrite (bind_Ok _ _ _ _ _ Htry).
      rewrite (bind_Ok _ _ _ _ _ Hcomp).
      rewrite (bind_Ok _ _ _ _ _ Hshare).
      unfold setInviteCopyProperties. reflexivity. }
    pose proof (gentle_keeps g Hg) as Hkeys.
    assert (Hgone : forall x, In x (w_binds w3) ->
                              RESOURCE_ID x <> _resourceID old).
    { intros x Hx. rewrite Hb3 in Hx. apply in_map_iff in Hx.
      destruct Hx as (y & <- & Hy).
      destruct (Hkeys y) as (_ & -> & _).
      apply in_app_or in Hy. destruct Hy as [Hy|[<-|[]]].
      - rewrite Hb2 in Hy. apply in_app_or in Hy.
        destruct Hy as [Hy|[<-|[]]].
        + apply filter_In in Hy. destruct Hy as (_ & Hy).
          now apply negb_true_iff, Z.eqb_neq in Hy.
        + cbn [row child_row RESOURCE_ID]. rewrite Hid0.
          intros Heq. exact (Hfresh r0 Hin0 (eq_sym Heq)).
      - cbn [shr0 new_bind RESOURCE_ID]. rewrite Hv4, Hid0.
        intros Heq. exact (Hfresh r0 Hin0 (eq_sym Heq)). }
    assert (Hown3 : binds_of (w_nextResourceID w) (h_resourceID ownerHome) w3
                    = [g row]).
    { rewrite (binds_of_map g _ _ w2 w3 [shr0] Hkeys Hb3), Hone.
      cbn [List.filter]. unfold bind_matches at 1.
      cbn [shr0 new_bind RESOURCE_ID HOME_RESOURCE_ID].
      replace (h_resourceID self =? h_resourceID ownerHome) with false
        by (symmetry; now apply Z.eqb_neq).
      now rewrite andb_false_r. }
    assert (Hshr3 : binds_of (w_nextResourceID w) (h_resourceID self) w3
                    = [g shr0]).
    { rewrite (binds_of_map g _ _ w2 w3 [shr0] Hkeys Hb3).
      replace (binds_of (w_nextResourceID w) (h_resourceID self) w2)
        with (@nil BindRow).
      - cbn [List.filter app]. unfold bind_matches.
        cbn [shr0 new_bind RESOURCE_ID HOME_RESOURCE_ID].
        now rewrite Hv4, !Z.eqb_refl.
      - symmetry. unfold binds_of. apply filter_nil_iff. intros x Hx.
        rewrite Hb2 in Hx. unfold bind_matches.
        apply in_app_or in Hx. destruct Hx as [Hx|[<-|[]]].
        + apply filter_In in Hx. destruct Hx as (Hx & _).
          apply Hfresh in Hx. apply Z.eqb_neq in Hx. now rewrite Hx.
        + cbn [row child_row RESOURCE_ID HOME_RESOURCE_ID].
          replace (h_resourceID ownerHome =? h_resourceID self) with false
            by (symmetry; apply Z.eqb_neq; intros Heq; now apply Hhid).
          now rewrite andb_false_r. }
    destruct (Hg row) as (Hgm & _ & _ & Hge & Hgn & _).
    destruct (Hg shr0) as (Hsm & _ & _ & Hse & Hsn & Hss).
    eexists _, (g row), (g shr0).
    split; [exact Hrun|].
    split; [exact Hgone|].
    split; [exact Hown3|].
    split; [now rewrite Hgm|].
    split; [now rewrite Hge|].
    split; [now rewrite Hgn|].
    split; [exact Hshr3|].
    split; [now rewrite Hsn|].
    split; [now rewrite Hsm|].
    split; [now rewrite Hss|].
    rewrite Hse. cbn [shr0 new_bind EXTERNAL_ID]. exact Hv5.
Qed.

Lemma external_invite_name_collision_witness :
  SharingHomeMixIn.processExternalInvite Sample.home02 "puser03" 8
    "remote-cal" "share-xyz" _BIND_MODE_READ (Some "hello"%string) [] None
    (Sample.world [Sample.shadow03; Sample.shadow_share01])
  = Raise (HomeChildNameAlreadyExistsError "remote-cal")
      (setTrace (fun t => t ++ [LogError still_has_shares])
         (Sample.world [Sample.shadow03; Sample.shadow_share01])) /\
  exists (w' : World) (own shr : BindRow),
    SharingHomeMixIn.processExternalInvite Sample.home02 "puser03" 8
      "remote-cal" "share-xyz" _BIND_MODE_READ (Some "hello"%string) [] None
      (Sample.world [Sample.shadow03]) = Ok tt w' /\
    (forall r, In r (w_binds w') ->
               RESOURCE_ID r <> _resourceID Sample.shadow_view) /\
    binds_of (w_nextResourceID (Sample.world [Sample.shadow03]))
      (h_resourceID Sample.home03) w' = [own] /\
    BIND_MODE own = _BIND_MODE_OWN /\
    EXTERNAL_ID own = Some 8 /\
    RESOURCE_NAME own = "remote-cal"%string /\
    binds_of (w_nextResourceID (Sample.world [Sample.shadow03]))
      (h_resourceID Sample.home02) w' = [shr] /\
    RESOURCE_NAME shr = "share-xyz"%string /\
    BIND_MODE shr = _BIND_MODE_READ /\
    BIND_STATUS shr = created_status _BIND_MODE_READ /\
    EXTERNAL_ID shr = Some 8.
Proof.
  split.
  - refine (proj1 (external_invite_name_collision Sample.home02 "puser03" 8
                     "remote-cal" "share-xyz" _BIND_MODE_READ
                     (Some "hello"%string) [] None
                     (Sample.world [Sample.shadow03; Sample.shadow_share01])
                     Sample.home03 Sample.shadow_view
                     [mkSharingInvitation "shadow-share" "puser03" 3 "user01"
                        1 _BIND_MODE_READ _BIND_STATUS_ACCEPTED None]
                     _ _ _ _ _) _).
    + reflexivity.
    + reflexivity.
    + reflexivity.
    + reflexivity.
    + reflexivity.
    + discriminate.
  - refine (proj2 (external_invite_name_collision Sample.home02 "puser03" 8
                     "remote-cal" "share-xyz" _BIND_MODE_READ
                     (Some "hello"%string) [] None
                     (Sample.world [Sample.shadow03])
                     Sample.home03 Sample.shadow_view []
                     _ _ _ _ _) _ _ _ _ _ _ _ _).
    + reflexivity.
    + reflexivity.
    + reflexivity.
    + reflexivity.
    + reflexivity.
    + reflexivity.
    + intros r1 r2 [<-|[]] [<-|[]] _ _. reflexivity.
    + intros r [<-|[]]. discriminate.
    + reflexivity.
    + discriminate.
    + discriminate.
    + reflexivity.
    + intros r [<-|[]]. discriminate.
Defined.

(** * Further properties of the sharing code *)

(** ** The shared mark of an owner's collection *)

(** X1.  [setShared] and [isShared].  On a view that is not the owner's,
    [setShared] fails its assertion and changes nothing.  On the owner's
    view it succeeds, [isShared] then answers the flag that was set, and a
    second call with the same flag changes nothing.  It writes only when the
    message of the view is not already the one the flag stands for
    (["shared"], or none): then the message column of the owner's rows of
    the resource is set, the other rows stay, the cache entries of the view
    are invalidated and a property change is notified; no notification is
    written. *)
Theorem setShared_isShared :
  forall (self : View) (shared : bool) (w : World),
    let newMessage := if shared then Some "shared"%string else None in
    let rid := _resourceID self in
    let hid := h_resourceID (_home self) in
    (owned self = false ->
     setShared self shared w =
       Raise (AssertionError "Cannot change share mode on a shared collection")
         w) /\
    (owned self = true ->
     exists (self' : View) (w' : World),
       setShared self shared w = Ok self' w' /\
       isShared self' = shared /\
       setShared self' shared w' = Ok self' w' /\
       (_bindMessage self = newMessage -> self' = self /\ w' = w) /\
       (_bindMessage self <> newMessage ->
        self' = with_bindMessage newMessage self /\
        w_binds w' =
          updateRows (set_message newMessage) rid hid (w_binds w) /\
        (forall r : BindRow,
           In r (binds_of rid hid w') -> MESSAGE r = newMessage) /\
        (forall r : BindRow,
           bind_matches rid hid r = false ->
           In r (w_binds w') <-> In r (w_binds w)) /\
        w_trace w' =
          w_trace w ++
          [SQLUpdateMessage newMessage rid hid] ++
          invalidation_events (env_queryCacher (w_env w)) self' ++
          [NotifyPropertyChanged hid rid] /\
        w_notifications w' = w_notifications w)).
Proof.
  intros self shared w newMessage rid hid. split.
  - intros Hown. unfold setShared. now rewrite Hown.
  - intros Hown. unfold setShared. rewrite Hown. cbn [negb].
    fold newMessage.
    assert (Hflag : forall v : View,
              owned v = true -> _bindMessage v = newMessage ->
              isShared v = shared).
    { intros v Hv Hm. unfold isShared. rewrite Hv, Hm. cbn [andb].
      subst newMessage. destruct shared.
      - now apply bool_decide_eq_true_2.
      - now apply bool_decide_eq_false_2. }
    case_bool_decide as Hmsg.
    + exists self, w. split; [reflexivity|].
      split; [now apply Hflag|].
      split.
      { rewrite Hown. cbn [negb]. fold newMessage.
        now rewrite (bool_decide_eq_true_2 _ Hmsg). }
      split; [now split|]. intros Hne. now elim Hne.
    + rewrite (bind_Ok _ _ _ _ _ (run_modify _ _)).
      rewrite (bind_Ok _ _ _ _ _ (run_emit _ _)).
      rewrite (bind_Ok _ _ _ _ _ (invalidateQueryCache_run _ _)).
      unfold notifyPropertyChanged. mrun.
      eexists. eexists. split; [reflexivity|].
      split; [now apply Hflag|].
      split.
      { unfold owned in *. proj. rewrite Hown. cbn [negb]. fold newMessage.
        now rewrite (bool_decide_eq_true_2 (newMessage = newMessage) eq_refl). }
      split; [intros Heq; now elim Hmsg|].
      intros _. split; [reflexivity|].
      split; [reflexivity|].
      split.
      { intros r Hr. unfold binds_of in Hr. proj_all.
        fold rid hid in Hr.
        rewrite filter_updateRows_same in Hr by apply set_message_keeps.
        apply in_map_iff in Hr. now destruct Hr as (r0 & <- & _). }
      split.
      { intros r Hr. proj. fold rid hid. unfold updateRows.
        rewrite in_map_iff. split.
        - intros (r0 & Hr0 & Hin).
          destruct (bind_matches rid hid r0) eqn:Hm0.
          + subst r.
            rewrite (bind_matches_keeps _ _ _ r0 (set_message_keeps newMessage))
              in Hr. congruence.
          + now subst r.
        - intros Hin. exists r. now rewrite Hr. }
      split; [|reflexivity].
      proj. fold rid hid. now rewrite <- !app_assoc.
Qed.

Lemma setShared_isShared_witness :
  exists (self' : View) (w' : World),
    setShared Sample.calendar01 false (Sample.world [Sample.own01])
      = Ok self' w' /\
    isShared self' = false.
Proof.
  destruct (proj2 (setShared_isShared Sample.calendar01 false
                     (Sample.world [Sample.own01])) eq_refl)
    as (self' & w' & Hrun & Hflag & _).
  exists self', w'. split; [exact Hrun|exact Hflag].
Defined.

(** ** Leaving a share *)

Lemma external_run (v : View) (oh : Home) (w : World) :
  _ownerHome v = Some oh -> external v w = Ok (h_external oh) w.
Proof. intros H. unfold external, ownerHome. now rewrite H. Qed.

Lemma _replyExternalInvite_run (self : View) (oh : Home) (s : BindStatus)
  (summary : option string) (w : World) :
  _ownerHome self = Some oh ->
  _replyExternalInvite self s summary w =
  Ok tt
    (setTrace
       (fun t =>
          t ++ [Send_sharereply (h_homeType (_home self)) (h_uid oh)
                  (h_uid (_home self)) (_name self) s summary]) w).
Proof. intros H. unfold _replyExternalInvite, ownerHome. now rewrite H. Qed.

Lemma inward_removeShare_events (ov sv : View) (qc : bool) :
  inward (removeShare_events ov sv qc).
Proof.
  unfold removeShare_events. apply inward_app.
  - repeat constructor; intros [].
  - apply inward_invalidation.
Qed.

(** What the owner's view found for a sharee's view is. *)
Lemma ownerView_found (self ov : View) (oh : Home) (w : World) :
  _ownerHome self = Some oh ->
  ownerView self w = Ok (Some ov) w ->
  _home ov = oh /\ _resourceID ov = _resourceID self.
Proof.
  intros Hoh. unfold ownerView, ownerHome. rewrite Hoh. mrun.
  unfold childWithID. rewrite objectWith_run. unfold findView.
  intros [= H].
  destruct (List.find _ (w_binds w)) as [r|] eqn:Hf; [|discriminate].
  injection H as <-. apply find_some in Hf. destruct Hf as (_ & Hp).
  apply andb_true_iff in Hp. destruct Hp as (Hp & _).
  apply andb_true_iff in Hp. destruct Hp as (_ & Hr).
  split; [reflexivity|]. now apply Z.eqb_eq in Hr.
Qed.

(** The removal of a direct share by its sharee. *)
Lemma deleteShare_direct_run (self ov : View) (oh : Home) (w : World) :
  _ownerHome self = Some oh ->
  _ownerHome ov = Some oh ->
  ownerView self w = Ok (Some ov) w ->
  direct self = true ->
  exists w' : World,
    deleteShare self w = Ok self w' /\
    w_binds w' =
      List.filter
        (fun r => negb (bind_matches (_resourceID self)
                          (h_resourceID (_home self)) r))
        (w_binds w) /\
    binds_of (_resourceID self) (h_resourceID (_home self)) w' = [] /\
    w_children w' !!
      (h_resourceID (_home self), inl (_name self) : ChildKey) = None /\
    w_children w' !!
      (h_resourceID (_home self), inr (_resourceID self) : ChildKey) = None /\
    w_notifications w' = w_notifications w /\
    w_trace w' =
      w_trace w ++
      removeShare_events ov self (env_queryCacher (w_env w)) ++
      reply_sent self oh _BIND_STATUS_DECLINED None.
Proof.
  intros Hoh Hovh Hov Hdir.
  destruct (ownerView_found self ov oh w Hoh Hov) as (Hhome & Hrid).
  unfold deleteShare.
  rewrite (bind_Ok _ _ _ _ _ Hov). rewrite Hdir. cbn [deref].
  rewrite bind_ret.
  destruct (removeShare_run ov self w)
    as (w1 & Hrun & Hfr & Hn & Hb & Hc & Htr).
  rewrite (bind_Ok _ _ _ _ _ Hrun).
  rewrite (bind_Ok _ _ _ _ _ (external_run ov oh w1 Hovh)).
  rewrite Hrid in Hb.
  assert (Hgone : binds_of (_resourceID self) (h_resourceID (_home self)) w1
                  = []).
  { unfold binds_of. rewrite Hb. apply filter_filter_negb. }
  assert (Hc1 : w_children w1 !!
                  (h_resourceID (_home self), inl (_name self) : ChildKey)
                = None).
  { rewrite Hc. rewrite lookup_delete_ne by discriminate.
    apply lookup_delete_eq. }
  assert (Hc2 : w_children w1 !!
                  (h_resourceID (_home self), inr (_resourceID self)
                   : ChildKey) = None).
  { rewrite Hc. apply lookup_delete_eq. }
  unfold reply_sent. destruct (h_external oh).
  - rewrite (bind_Ok _ _ _ _ _
               (_replyExternalInvite_run self oh _BIND_STATUS_DECLINED None
                  w1 Hoh)).
    eexists. split; [reflexivity|]. proj.
    split; [exact Hb|]. split; [exact Hgone|].
    split; [exact Hc1|]. split; [exact Hc2|]. split; [exact Hn|].
    rewrite Htr. unfold removeShare_events. now rewrite <- !app_assoc.
  - mrun. exists w1. split; [reflexivity|].
    split; [exact Hb|]. split; [exact Hgone|].
    split; [exact Hc1|]. split; [exact Hc2|]. split; [exact Hn|].
    rewrite Htr. unfold removeShare_events.
    now rewrite app_nil_r, <- ?app_assoc.
Qed.

(** A reply of a sharee that changes the status of the share. *)
Lemma reply_run (self ov : View) (oh : Home) (s : BindStatus)
  (summary : option string) (w : World) :
  direct self = false ->
  _ownerHome self = Some oh ->
  _ownerHome ov = Some oh ->
  ownerView self w = Ok (Some ov) w ->
  _bindStatus self <> s ->
  (s = _BIND_STATUS_ACCEPTED \/
   s = _BIND_STATUS_DECLINED /\ summary = None) ->
  exists (self' : View) (w' : World) (g : BindRow -> BindRow)
         (mid : list Event),
    (if bool_decide (s = _BIND_STATUS_ACCEPTED)
     then acceptShare self summary w
     else declineShare self w) = Ok self' w' /\
    _bindStatus self' = s /\
    _name self' = _name self /\
    w_binds w' = map g (w_binds w) /\
    keeps_keys g /\
    (forall r,
       bind_matches (_resourceID self) (h_resourceID (_home self)) r = false ->
       g r = r) /\
    (forall r,
       bind_matches (_resourceID self) (h_resourceID (_home self)) r = true ->
       BIND_MODE (g r) = BIND_MODE r /\ BIND_STATUS (g r) = s) /\
    w_homes w' = w_homes w /\
    w_notifications w' =
      (if h_external oh then w_notifications w
       else <[(h_uid oh, (_name self +:+ "-reply")%string) :=
                reply_notification self ov oh s summary (env_now (w_env w))]>
              (w_notifications w)) /\
    w_trace w' =
      w_trace w ++ reply_sent self oh s summary ++
      [SQLUpdateBindColumns (status_only s) (_resourceID ov)
         (h_resourceID (_home self))] ++
      mid ++
      reply_notified self ov oh s summary (env_now (w_env w)) /\
    Forall (fun e => ~ outward_event e) mid.
Proof.
  intros Hd Hoh Hovh Hov Hne Hcase.
  destruct (ownerView_found self ov oh w Hoh Hov) as (_ & Hrid).
  destruct (updateShare_rows_status ov self s (w_revisionSeq w) (w_binds w)
              Hrid) as (g & Hg & Hkeys & Hother & Hsame).
  assert (Hname : _name (updateShare_view self (status_only s)
                           (w_revisionSeq w)) = _name self)
    by apply updateShare_view_fixed.
  destruct Hcase as [->|[-> ->]]; decide_consts.
  - unfold acceptShare. rewrite Hd. unfold shareStatus.
    rewrite (bool_decide_eq_true_2 _ Hne). cbn [negb andb].
    destruct (reply_transition self ov oh _BIND_STATUS_ACCEPTED summary
                [NewShare (h_resourceID (_home self)) (_resourceID self)
                   summary] w Hoh Hovh Hov Hne
                (fun v => newShare v summary))
      as (self' & w' & mid & Hrun & Hs & _ & Hb & Hh & Htr & Hmid & Hn & Hv
          & _).
    + intros v w0 Hvh Hvr. unfold newShare. now rewrite Hvh, Hvr.
    + repeat constructor. cbn. tauto.
    + exists self', w', g, mid. split; [exact Hrun|]. split; [exact Hs|].
      split; [now rewrite Hv|]. split; [now rewrite Hb|].
      split; [exact Hkeys|]. split; [exact Hother|]. split; [exact Hsame|].
      split; [exact Hh|]. split; [exact Hn|]. split; [exact Htr|exact Hmid].
  - unfold declineShare. rewrite Hd. unfold shareStatus.
    rewrite (bool_decide_eq_true_2 _ Hne). cbn [negb andb].
    destruct (reply_transition self ov oh _BIND_STATUS_DECLINED None [] w
                Hoh Hovh Hov Hne (fun _ => ret tt))
      as (self' & w' & mid & Hrun & Hs & _ & Hb & Hh & Htr & Hmid & Hn & Hv
          & _).
    + intros v w0 _ _. unfold ret. f_equal. expose.
      rewrite app_nil_r. now destruct w0.
    + constructor.
    + exists self', w', g, mid. split; [exact Hrun|]. split; [exact Hs|].
      split; [now rewrite Hv|]. split; [now rewrite Hb|].
      split; [exact Hkeys|]. split; [exact Hother|]. split; [exact Hsame|].
      split; [exact Hh|]. split; [exact Hn|]. split; [exact Htr|exact Hmid].
Qed.

(** X2.  [deleteShare], the sharee leaving a share.  With the owner's view
    resolved: a direct share is removed (the bind is deleted, the sharee's
    home forgets the child under its name and its id, nothing is written to
    a notification collection) and the owner's pod is told [DECLINED] after
    the removal, only when the owner is external; any other share is
    declined as by [declineShare], so its bind stays in the table, with the
    status [DECLINED] and the mode it had, and no other row changes. *)
Theorem deleteShare_direct_or_declined :
  forall (self ov : View) (oh : Home) (w : World),
    _ownerHome self = Some oh ->
    _ownerHome ov = Some oh ->
    ownerView self w = Ok (Some ov) w ->
    let rid := _resourceID self in
    let hid := h_resourceID (_home self) in
    (direct self = true ->
     exists w' : World,
       deleteShare self w = Ok self w' /\
       w_binds w' =
         List.filter (fun r => negb (bind_matches rid hid r)) (w_binds w) /\
       binds_of rid hid w' = [] /\
       w_children w' !! (hid, inl (_name self) : ChildKey) = None /\
       w_children w' !! (hid, inr rid : ChildKey) = None /\
       w_notifications w' = w_notifications w /\
       w_trace w' =
         w_trace w ++
         removeShare_events ov self (env_queryCacher (w_env w)) ++
         reply_sent self oh _BIND_STATUS_DECLINED None) /\
    (direct self = false ->
     deleteShare self w = declineShare self w /\
     (_bindStatus self <> _BIND_STATUS_DECLINED ->
      exists (self' : View) (w' : World) (g : BindRow -> BindRow),
        deleteShare self w = Ok self' w' /\
        _bindStatus self' = _BIND_STATUS_DECLINED /\
        w_binds w' = map g (w_binds w) /\
        keeps_keys g /\
        (forall r, bind_matches rid hid r = false -> g r = r) /\
        (forall r, bind_matches rid hid r = true ->
                   BIND_MODE (g r) = BIND_MODE r /\
                   BIND_STATUS (g r) = _BIND_STATUS_DECLINED))).
Proof.
  intros self ov oh w Hoh Hovh Hov rid hid. split.
  - intros Hdir.
    exact (deleteShare_direct_run self ov oh w Hoh Hovh Hov Hdir).
  - intros Hdir.
    assert (Heq : deleteShare self w = declineShare self w).
    { unfold deleteShare. rewrite (bind_Ok _ _ _ _ _ Hov). now rewrite Hdir. }
    split; [exact Heq|]. intros Hst. rewrite Heq.
    destruct (reply_run self ov oh _BIND_STATUS_DECLINED None w Hdir Hoh Hovh
                Hov Hst (or_intror (conj eq_refl eq_refl)))
      as (self' & w' & g & mid & Hrun & Hs & _ & Hb & Hkeys & Hother & Hsame
          & _).
    rewrite (bool_decide_eq_false_2
               (_BIND_STATUS_DECLINED = _BIND_STATUS_ACCEPTED))
      in Hrun by discriminate.
    exists self', w', g. split; [exact Hrun|]. split; [exact Hs|].
    split; [exact Hb|]. split; [exact Hkeys|].
    split; [exact Hother|exact Hsame].
Qed.

Lemma deleteShare_direct_or_declined_witness :
  exists w' : World,
    deleteShare
      (makeView Sample.home03 (Sample.world [Sample.own01; Sample.direct03])
         Sample.direct03)
      (Sample.world [Sample.own01; Sample.direct03])
    = Ok (makeView Sample.home03
            (Sample.world [Sample.own01; Sample.direct03]) Sample.direct03)
        w' /\
    binds_of 10 3 w' = [].
Proof.
  destruct (proj1 (deleteShare_direct_or_declined
                     (makeView Sample.home03
                        (Sample.world [Sample.own01; Sample.direct03])
                        Sample.direct03)
                     Sample.calendar01 Sample.home01
                     (Sample.world [Sample.own01; Sample.direct03])
                     eq_refl eq_refl eq_refl) eq_refl)
    as (w' & Hrun & _ & Hgone & _).
  exists w'. split; [exact Hrun|exact Hgone].
Defined.

(** X3.  [unshare] on a sharee's view, with the owner's view resolved: the
    sharee's bind is deleted and the child leaves the index of the sharee's
    home, whatever the mode and the status of the share; the owner is not
    told: nothing is sent to another pod and no notification is written or
    removed. *)
Theorem unshare_by_sharee :
  forall (self ov : View) (oh : Home) (w : World),
    owned self = false ->
    _ownerHome self = Some oh ->
    ownerView self w = Ok (Some ov) w ->
    let rid := _resourceID self in
    let hid := h_resourceID (_home self) in
    exists (w' : World) (evs : list Event),
      unshare self w = Ok tt w' /\
      w_binds w' =
        List.filter (fun r => negb (bind_matches rid hid r)) (w_binds w) /\
      binds_of rid hid w' = [] /\
      w_children w' !! (hid, inl (_name self) : ChildKey) = None /\
      w_children w' !! (hid, inr rid : ChildKey) = None /\
      w_notifications w' = w_notifications w /\
      w_homes w' = w_homes w /\
      w_trace w' = w_trace w ++ evs /\
      inward evs.
Proof.
  intros self ov oh w Hown Hoh Hov rid hid.
  destruct (ownerView_found self ov oh w Hoh Hov) as (_ & Hrid).
  unfold unshare. rewrite Hown.
  rewrite (bind_Ok _ _ _ _ _ Hov). cbn [deref]. rewrite bind_ret.
  destruct (removeShare_run ov self w)
    as (w1 & Hrun & Hfr & Hn & Hb & Hc & Htr).
  rewrite Hrid in Hb. fold rid hid in Hb.
  exists w1, (removeShare_events ov self (env_queryCacher (w_env w))).
  split; [exact Hrun|]. split; [exact Hb|].
  split.
  { unfold binds_of. rewrite Hb. apply filter_filter_negb. }
  split.
  { rewrite Hc. fold hid. rewrite lookup_delete_ne by discriminate.
    apply lookup_delete_eq. }
  split; [rewrite Hc; apply lookup_delete_eq|].
  split; [exact Hn|].
  split; [apply Hfr|].
  split; [exact Htr|apply inward_removeShare_events].
Qed.

Lemma unshare_by_sharee_witness :
  exists (w' : World) (evs : list Event),
    unshare
      (makeView Sample.home02 (Sample.world [Sample.own01; Sample.accepted02])
         Sample.accepted02)
      (Sample.world [Sample.own01; Sample.accepted02]) = Ok tt w' /\
    binds_of 10 2 w' = [] /\
    w_notifications w' = w_notifications
                           (Sample.world [Sample.own01; Sample.accepted02]).
Proof.
  destruct (unshare_by_sharee
              (makeView Sample.home02
                 (Sample.world [Sample.own01; Sample.accepted02])
                 Sample.accepted02)
              Sample.calendar01 Sample.home01
              (Sample.world [Sample.own01; Sample.accepted02])
              eq_refl eq_refl eq_refl)
    as (w' & evs & Hrun & _ & Hgone & _ & _ & Hn & _).
  exists w', evs. split; [exact Hrun|]. split; [exact Hgone|exact Hn].
Defined.

(** ** Going through the sharees of a collection *)

Lemma filter_filter_and {A} (p q : A -> bool) (l : list A) :
  List.filter p (List.filter q l) = List.filter (fun x => q x && p x) l.
Proof.
  induction l as [|x l IH]; [reflexivity|]. cbn.
  destruct (q x); cbn; [destruct (p x)|]; now rewrite IH.
Qed.

Lemma find_filter_keep {A} (p q : A -> bool) (l : list A) :
  (forall y, In y l -> p y = true -> q y = true) ->
  List.find p (List.filter q l) = List.find p l.
Proof.
  induction l as [|x l IH]; [reflexivity|]. intros H. cbn.
  destruct (p x) eqn:Hp.
  - rewrite (H x (or_introl eq_refl) Hp). cbn. now rewrite Hp.
  - destruct (q x); cbn; rewrite ?Hp; apply IH; intros y Hy; apply H;
      now right.
Qed.

Lemma filter_in_eq {A} (p q : A -> bool) (l : list A) :
  (forall x, In x l -> p x = q x) -> List.filter p l = List.filter q l.
Proof.
  induction l as [|x l IH]; [reflexivity|]. intros H. cbn.
  rewrite (H x (or_introl eq_refl)).
  rewrite IH by (intros y Hy; apply H; now right). reflexivity.
Qed.

(** Distinct keys: the elements with the key of [x] are [x] alone. *)
Lemma NoDup_key_single {A} (f : A -> Z) (l : list A) (x : A) :
  List.NoDup (map f l) -> In x l ->
  List.filter (fun y => f y =? f x) l = [x].
Proof.
  induction l as [|y l IH]; [intros _ []|].
  cbn [map]. intros Hnd Hin. apply List.NoDup_cons_iff in Hnd.
  destruct Hnd as (Hy & Hnd). cbn [List.filter].
  destruct Hin as [->|Hin].
  - rewrite Z.eqb_refl. f_equal. apply filter_nil_iff. intros z Hz.
    apply Z.eqb_neq. intros Heq. apply Hy. rewrite <- Heq.
    now apply in_map.
  - destruct (f y =? f x) eqn:Heq.
    + apply Z.eqb_eq in Heq. exfalso. apply Hy. rewrite Heq.
      now apply in_map.
    + now apply IH.
Qed.

Lemma homeWithResourceID_spec homeID hs h :
  homeWithResourceID homeID hs = Some h ->
  In h hs /\ h_resourceID h = homeID.
Proof.
  unfold homeWithResourceID. intros H. apply find_some in H.
  destruct H as (Hin & Heq). split; [exact Hin|now apply Z.eqb_eq].
Qed.

Lemma NoDup_map_filter {A} (f : A -> Z) (p : A -> bool) (l : list A) :
  List.NoDup (map f l) -> List.NoDup (map f (List.filter p l)).
Proof.
  induction l as [|x l IH]; [intros; constructor|].
  cbn [map List.filter]. intros Hnd. apply List.NoDup_cons_iff in Hnd.
  destruct Hnd as (Hx & Hnd). destruct (p x); [|now apply IH].
  cbn [map]. constructor; [|now apply IH].
  intros Hin. apply Hx. apply in_map_iff in Hin.
  destruct Hin as (y & Hy & Hin). apply filter_In in Hin.
  rewrite <- Hy. apply in_map. now destruct Hin.
Qed.

(** What precedes [removeShare] in [uninviteUIDFromShare] leaves the binds
    and the homes alone. *)
Lemma uninvite_run (self : View) (uid : string) (w : World) (sv : View)
  (oh : Home) :
  shareeView self uid w = Ok (Some sv) w ->
  _ownerHome sv = Some oh ->
  exists w' : World,
    uninviteUIDFromShare self uid w = Ok tt w' /\
    w_binds w' =
      List.filter
        (fun r => negb (bind_matches (_resourceID self)
                          (h_resourceID (_home sv)) r))
        (w_binds w) /\
    w_homes w' = w_homes w /\
    w_env w' = w_env w.
Proof.
  intros Hsv Hoh. unfold uninviteUIDFromShare.
  rewrite (bind_Ok _ _ _ _ _ Hsv).
  assert (Hpre : exists w1 : World,
    (if h_external (viewerHome sv) then _sendExternalUninvite self sv
     else
       if negb (direct sv) then
         if bool_decide (shareStatus sv <> _BIND_STATUS_ACCEPTED) then
           _removeInviteNotification self sv
         else _sendInviteNotification self sv (Some _BIND_STATUS_DELETED)
       else ret tt) w = Ok tt w1 /\
    w_binds w1 = w_binds w /\ w_homes w1 = w_homes w /\ w_env w1 = w_env w).
  { destruct (h_external (viewerHome sv)).
    - unfold _sendExternalUninvite, ownerHome. rewrite Hoh. mrun.
      eexists. split; [reflexivity|]. now repeat split.
    - destruct (direct sv); cbn [negb].
      + exists w. now repeat split.
      + destruct (bool_decide (shareStatus sv <> _BIND_STATUS_ACCEPTED)).
        * unfold _removeInviteNotification, removeNotificationObjectWithUID.
          mrun. eexists. split; [reflexivity|]. now repeat split.
        * rewrite (_sendInviteNotification_run self sv oh
                     (Some _BIND_STATUS_DELETED) w Hoh).
          eexists. split; [reflexivity|]. now repeat split. }
  destruct Hpre as (w1 & Hpre & Hb1 & Hh1 & He1).
  rewrite (bind_Ok _ _ _ _ _ Hpre).
  destruct (removeShare_run self sv w1)
    as (w' & Hrun & Hfr & _ & Hb & _).
  exists w'. split; [exact Hrun|].
  split; [now rewrite Hb, Hb1|].
  destruct Hfr as (He & Hh & _).
  split; [now rewrite Hh|now rewrite He].
Qed.

Section Sharees.

Variable w : World.
Variable self : View.
Hypothesis Howns : owns w self.
Hypothesis Hres : sharees_resolve w self.

(** A row of the resource outside the owner's home. *)
Lemma sharee_row (r : BindRow) :
  In r (w_binds w) ->
  is_sharee_bind (_resourceID self) r = true ->
  RESOURCE_ID r = _resourceID self /\
  HOME_RESOURCE_ID r <> h_resourceID (_home self).
Proof.
  intros Hin Hs. unfold is_sharee_bind in Hs.
  apply andb_true_iff in Hs. destruct Hs as (Hr & Hm).
  apply Z.eqb_eq in Hr. apply bool_decide_eq_true_1 in Hm.
  split; [exact Hr|]. intros Hh.
  destruct Howns as (_ & _ & _ & own & Hone & Hmode & _).
  assert (Hin' : In r (binds_of (_resourceID self)
                         (h_resourceID (_home self)) w)).
  { apply binds_of_in. split; [exact Hin|].
    unfold bind_matches. now rewrite Hr, Hh, !Z.eqb_refl. }
  rewrite Hone in Hin'. destruct Hin' as [<-|[]]. contradiction.
Qed.

Lemma owner_row_only (r : BindRow) :
  In r (w_binds w) ->
  RESOURCE_ID r = _resourceID self ->
  BIND_MODE r = _BIND_MODE_OWN ->
  HOME_RESOURCE_ID r = h_resourceID (_home self).
Proof.
  intros Hin Hr Hm.
  destruct (decide (HOME_RESOURCE_ID r = h_resourceID (_home self)))
    as [Heq|Hne]; [exact Heq|].
  destruct Hres as (_ & _ & Hall).
  destruct (Hall r Hin Hr Hne) as (Hmode & _). contradiction.
Qed.

(** The state in the course of the loop: the rows of the resource in the
    homes [done] are gone. *)
Lemma sharee_still_bound (done : list Z) (wi : World) (r : BindRow) :
  w_binds wi = without_binds (_resourceID self) done (w_binds w) ->
  In r (w_binds w) ->
  RESOURCE_ID r = _resourceID self ->
  ~ In (HOME_RESOURCE_ID r) done ->
  binds_of (_resourceID self) (HOME_RESOURCE_ID r) wi = [r].
Proof.
  intros Hb Hin Hr Hdone. unfold binds_of. rewrite Hb.
  unfold without_binds. rewrite filter_filter_and.
  rewrite (filter_in_eq _
             (bind_matches (_resourceID self) (HOME_RESOURCE_ID r))).
  - destruct Hres as (_ & Hnd & _).
    assert (Hin' : In r (List.filter
                           (fun x => RESOURCE_ID x =? _resourceID self)
                           (w_binds w))).
    { apply filter_In. split; [exact Hin|]. now apply Z.eqb_eq. }
    pose proof (NoDup_key_single HOME_RESOURCE_ID _ r Hnd Hin') as Hone.
    rewrite filter_filter_and in Hone. rewrite <- Hone.
    apply filter_ext_eq. intros x. reflexivity.
  - intros x _. unfold bind_matches.
    destruct (RESOURCE_ID x =? _resourceID self); [|reflexivity].
    destruct (HOME_RESOURCE_ID x =? HOME_RESOURCE_ID r) eqn:Hh;
      [|now rewrite andb_false_r].
    apply Z.eqb_eq in Hh. cbn [andb]. rewrite andb_true_r.
    apply negb_true_iff. destruct (existsb _ done) eqn:He; [|reflexivity].
    apply existsb_exists in He. destruct He as (k & Hk & Hkx).
    apply Z.eqb_eq in Hkx. exfalso. apply Hdone. now rewrite <- Hh, Hkx.
Qed.

Lemma owner_still_resolved (done : list Z) (wi : World) :
  w_binds wi = without_binds (_resourceID self) done (w_binds w) ->
  w_homes wi = w_homes w ->
  ~ In (h_resourceID (_home self)) done ->
  ownerHomeOf (_resourceID self) wi = Some (_home self).
Proof.
  intros Hb Hh Hdone. destruct Howns as (_ & _ & Hoh & _).
  rewrite <- Hoh. unfold ownerHomeOf. rewrite Hb, Hh.
  unfold without_binds. rewrite find_filter_keep; [reflexivity|].
  intros y Hy Hp. apply andb_true_iff in Hp. destruct Hp as (Hr & Hm).
  apply Z.eqb_eq in Hr. apply bool_decide_eq_true_1 in Hm.
  pose proof (owner_row_only y Hy Hr Hm) as Hhome.
  apply negb_true_iff. rewrite Hhome.
  destruct (existsb _ done) eqn:He; [|now rewrite andb_false_r].
  apply existsb_exists in He. destruct He as (k & Hk & Hkx).
  apply Z.eqb_eq in Hkx. exfalso. apply Hdone. now rewrite Hkx.
Qed.

Lemma sharee_removed (done : list Z) (wi w1 : World) (k : Z) :
  w_binds wi = without_binds (_resourceID self) done (w_binds w) ->
  w_binds w1 =
    List.filter (fun r => negb (bind_matches (_resourceID self) k r))
      (w_binds wi) ->
  w_binds w1 = without_binds (_resourceID self) (k :: done) (w_binds w).
Proof.
  intros Hb Hb1. rewrite Hb1, Hb. unfold without_binds.
  rewrite filter_filter_and. apply filter_ext_eq. intros x.
  unfold bind_matches. cbn [existsb].
  destruct (RESOURCE_ID x =? _resourceID self); [|reflexivity].
  cbn [andb]. rewrite (Z.eqb_sym (HOME_RESOURCE_ID x) k).
  destruct (k =? HOME_RESOURCE_ID x), (existsb _ done); reflexivity.
Qed.

(** The sharee of a row, as the loops reach it: the invitation of the row
    is one, and [shareeView] on its UID gives the view of the row. *)
Lemma sharee_reached (done : list Z) (wi : World) (r : BindRow) :
  w_binds wi = without_binds (_resourceID self) done (w_binds w) ->
  w_homes wi = w_homes w ->
  ~ In (h_resourceID (_home self)) done ->
  In r (w_binds w) ->
  RESOURCE_ID r = _resourceID self ->
  HOME_RESOURCE_ID r <> h_resourceID (_home self) ->
  ~ In (HOME_RESOURCE_ID r) done ->
  exists h : Home,
    h_resourceID h = HOME_RESOURCE_ID r /\
    List.filter (fun h' => h_resourceID h' =? HOME_RESOURCE_ID r) (w_homes w)
      = [h] /\
    shareeView self (h_uid h) wi = Ok (Some (makeView h wi r)) wi /\
    _ownerHome (makeView h wi r) = Some (_home self).
Proof.
  intros Hb Hh Hown Hin Hr Hne Hdone.
  destruct Hres as (Hndh & _ & Hall).
  destruct (Hall r Hin Hr Hne) as (Hmode & h & Hfound & Huid & Hfind).
  destruct (homeWithResourceID_spec _ _ _ Hfound) as (Hhin & Hid).
  exists h. split; [exact Hid|]. split.
  { rewrite <- Hid. now apply (NoDup_key_single h_resourceID). }
  split.
  { apply shareeView_found.
    - intros Heq. now apply Huid.
    - now rewrite Hh.
    - rewrite Hid. now apply (sharee_still_bound done). }
  unfold makeView. cbn [_ownerHome].
  rewrite (bool_decide_eq_false_2 _ Hmode). rewrite Hr.
  now apply (owner_still_resolved done).
Qed.

End Sharees.

(** The invitations read from the rows [rows] of the sharees. *)
Lemma unshare_all_run (w : World) (self : View) (oh : Home) :
  owns w self ->
  sharees_resolve w self ->
  forall (rows : list BindRow) (done : list Z) (wi : World),
    (forall r, In r rows ->
               In r (w_binds w) /\
               RESOURCE_ID r = _resourceID self /\
               HOME_RESOURCE_ID r <> h_resourceID (_home self) /\
               ~ In (HOME_RESOURCE_ID r) done) ->
    List.NoDup (map HOME_RESOURCE_ID rows) ->
    w_binds wi = without_binds (_resourceID self) done (w_binds w) ->
    w_homes wi = w_homes w ->
    ~ In (h_resourceID (_home self)) done ->
    exists (w' : World) (evs : list Event),
      unshare_all self
        (map (invitation_of oh)
           (flat_map
              (fun r =>
                 map (fun h => (h_uid h, r))
                   (List.filter
                      (fun h => h_resourceID h =? HOME_RESOURCE_ID r)
                      (w_homes w)))
              rows)) wi = Ok tt w' /\
      w_binds w' =
        without_binds (_resourceID self)
          (rev (map HOME_RESOURCE_ID rows) ++ done) (w_binds w) /\
      w_homes w' = w_homes w /\
      w_notifications w' = w_notifications wi /\
      w_trace w' = w_trace wi ++ evs /\
      inward evs.
Proof.
  intros Howns Hres rows.
  induction rows as [|r rows IH]; intros done wi Hrows Hnd Hb Hh Hown.
  - exists wi, []. cbn. split; [reflexivity|]. split; [exact Hb|].
    split; [exact Hh|]. split; [reflexivity|].
    split; [now rewrite app_nil_r|constructor].
  - destruct (Hrows r (or_introl eq_refl)) as (Hin & Hr & Hne & Hdone).
    destruct (sharee_reached w self Howns Hres done wi r Hb Hh Hown Hin Hr
                Hne Hdone) as (h & Hid & Hjoin & Hsv & _).
    cbn [flat_map]. rewrite Hjoin. cbn [map app unshare_all].
    cbn [invitation_of inv_shareeUID fst].
    rewrite (bind_Ok _ _ _ _ _ Hsv). cbn [deref]. rewrite bind_ret.
    destruct (removeShare_run self (makeView h wi r) wi)
      as (w1 & Hrun & Hfr & Hn & Hb1 & _ & Htr).
    rewrite (bind_Ok _ _ _ _ _ Hrun).
    cbn [makeView _home] in Hb1. rewrite Hid in Hb1.
    pose proof (sharee_removed w self done wi w1 _ Hb Hb1) as Hb1'.
    apply List.NoDup_cons_iff in Hnd. destruct Hnd as (Hfresh & Hnd).
    destruct (IH (HOME_RESOURCE_ID r :: done) w1) as
      (w' & evs & Hloop & Hb' & Hh' & Hn' & Htr' & Hin').
    { intros r' Hr'. destruct (Hrows r' (or_intror Hr'))
        as (? & ? & ? & Hd'). repeat split; try assumption.
      intros [Heq|Hd]; [|now apply Hd'].
      apply Hfresh. rewrite Heq. now apply in_map. }
    { exact Hnd. }
    { exact Hb1'. }
    { destruct Hfr as (_ & -> & _). exact Hh. }
    { intros [Heq|Hd]; [now apply Hne|now apply Hown]. }
    exists w', (removeShare_events self (makeView h wi r)
                  (env_queryCacher (w_env wi)) ++ evs).
    split; [exact Hloop|]. split.
    { rewrite Hb'. cbn [map rev]. now rewrite <- app_assoc. }
    split; [exact Hh'|]. split; [now rewrite Hn', Hn|].
    split.
    { rewrite Htr', Htr. unfold removeShare_events.
      now rewrite <- !app_assoc. }
    apply inward_app; [apply inward_removeShare_events|exact Hin'].
Qed.


(** The rows the loops go through, and the table they leave. *)
Lemma sharee_rows (w : World) (self : View) :
  owns w self ->
  sharees_resolve w self ->
  let rows := List.filter (is_sharee_bind (_resourceID self)) (w_binds w) in
  (forall r, In r rows ->
             In r (w_binds w) /\
             RESOURCE_ID r = _resourceID self /\
             HOME_RESOURCE_ID r <> h_resourceID (_home self) /\
             ~ In (HOME_RESOURCE_ID r) []) /\
  List.NoDup (map HOME_RESOURCE_ID rows) /\
  without_binds (_resourceID self) (rev (map HOME_RESOURCE_ID rows) ++ [])
    (w_binds w) =
  List.filter (fun r => negb (is_sharee_bind (_resourceID self) r))
    (w_binds w).
Proof.
  intros Howns Hres rows. split; [|split].
  - intros r Hr. apply filter_In in Hr. destruct Hr as (Hin & Hs).
    destruct (sharee_row w self Howns r Hin Hs) as (Hrid & Hne).
    repeat split; try assumption. intros [].
  - destruct Hres as (_ & Hnd & _). subst rows.
    rewrite (filter_ext_eq (is_sharee_bind (_resourceID self))
               (fun r => (RESOURCE_ID r =? _resourceID self) &&
                         bool_decide (BIND_MODE r <> _BIND_MODE_OWN)))
      by reflexivity.
    rewrite <- filter_filter_and. now apply NoDup_map_filter.
  - unfold without_binds. apply filter_in_eq. intros x Hx. f_equal.
    rewrite app_nil_r. unfold is_sharee_bind.
    destruct (RESOURCE_ID x =? _resourceID self) eqn:Hr; [|reflexivity].
    apply Z.eqb_eq in Hr. cbn [andb].
    destruct (bool_decide (BIND_MODE x <> _BIND_MODE_OWN)) eqn:Hm.
    + apply existsb_exists. exists (HOME_RESOURCE_ID x).
      split; [|apply Z.eqb_refl].
      apply in_rev. rewrite rev_involutive. apply in_map.
      apply filter_In. split; [exact Hx|]. unfold is_sharee_bind.
      rewrite Hm. apply Z.eqb_eq in Hr. now rewrite Hr.
    + apply bool_decide_eq_false_1 in Hm.
      assert (Hmode : BIND_MODE x = _BIND_MODE_OWN).
      { destruct (decide (BIND_MODE x = _BIND_MODE_OWN));
          [assumption|now elim Hm]. }
      pose proof (owner_row_only w self Hres x Hx Hr Hmode) as Hhome.
      destruct (existsb _ _) eqn:He; [|reflexivity].
      apply existsb_exists in He. destruct He as (k & Hk & Hkx).
      apply Z.eqb_eq in Hkx. apply in_rev in Hk.
      rewrite ?rev_involutive in Hk.
      apply in_map_iff in Hk. destruct Hk as (r & Hrk & Hrin).
      apply filter_In in Hrin. destruct Hrin as (Hrin & Hs).
      destruct (sharee_row w self Howns r Hrin Hs) as (_ & Hne).
      exfalso. apply Hne. now rewrite Hrk, <- Hkx.
Qed.

Lemma no_invitation_left (self : View) (oh : Home) (w w' : World) :
  owned self = true ->
  _ownerHome self = Some oh ->
  w_binds w' =
    List.filter (fun r => negb (is_sharee_bind (_resourceID self) r))
      (w_binds w) ->
  sharingInvites self w' = Ok [] w'.
Proof.
  intros Hown Hoh Hb. rewrite (sharingInvites_owner self oh w' Hown Hoh).
  unfold _sharedInvitationBindForResourceID. rewrite Hb.
  rewrite (filter_ext_eq
             (fun r => (RESOURCE_ID r =? _resourceID self) &&
                       bool_decide (BIND_MODE r <> _BIND_MODE_OWN))
             (is_sharee_bind (_resourceID self))) by reflexivity.
  now rewrite filter_filter_negb.
Qed.

(** X4.  [unshare] on the owner's view, the sharees being within reach: every
    bind of the resource that is not the owner's is deleted, and no other
    row changes (the owner's row keeps its message, so the collection is
    still marked as shared); no invitation is left; nobody is told: nothing
    is sent to another pod, and the notification collections stay as they
    are. *)
Theorem unshare_by_owner :
  forall (self : View) (w : World),
    owns w self ->
    sharees_resolve w self ->
    exists (w' : World) (evs : list Event),
      unshare self w = Ok tt w' /\
      w_binds w' =
        List.filter (fun r => negb (is_sharee_bind (_resourceID self) r))
          (w_binds w) /\
      sharingInvites self w' = Ok [] w' /\
      w_homes w' = w_homes w /\
      w_notifications w' = w_notifications w /\
      w_trace w' = w_trace w ++ evs /\
      inward evs.
Proof.
  intros self w Howns Hres.
  pose proof Howns as (Hown & Hoh & _).
  destruct (sharee_rows w self Howns Hres) as (Hrows & Hnd & Hfinal).
  destruct (unshare_all_run w self (_home self) Howns Hres
              (List.filter (is_sharee_bind (_resourceID self)) (w_binds w))
              [] w Hrows Hnd)
    as (w' & evs & Hloop & Hb & Hh & Hn & Htr & Hin).
  { unfold without_binds. cbn [existsb].
    rewrite (filter_ext_eq _ (fun _ => true)).
    - clear. induction (w_binds w) as [|x l IH]; [reflexivity|].
      cbn. now rewrite <- IH.
    - intros x. now rewrite andb_false_r. }
  { reflexivity. }
  { intros []. }
  rewrite Hfinal in Hb.
  exists w', evs. split.
  { unfold unshare. rewrite Hown.
    rewrite (bind_Ok _ _ _ _ _
               (sharingInvites_owner self (_home self) w Hown Hoh)).
    exact Hloop. }
  split; [exact Hb|].
  split; [now apply (no_invitation_left self (_home self) w w')|].
  split; [exact Hh|]. split; [exact Hn|]. split; [exact Htr|exact Hin].
Qed.

Lemma unshare_by_owner_witness :
  exists (w' : World) (evs : list Event),
    unshare Sample.calendar01
      (Sample.world [Sample.own01; Sample.accepted02; Sample.direct03])
    = Ok tt w' /\
    w_binds w' =
      List.filter
        (fun r => negb (is_sharee_bind (_resourceID Sample.calendar01) r))
        (w_binds
           (Sample.world [Sample.own01; Sample.accepted02; Sample.direct03])).
Proof.
  destruct (unshare_by_owner Sample.calendar01
              (Sample.world [Sample.own01; Sample.accepted02; Sample.direct03]))
    as (w' & evs & Hrun & Hb & _).
  - split; [reflexivity|]. split; [reflexivity|]. split; [reflexivity|].
    exists Sample.own01. split; [reflexivity|]. split; reflexivity.
  - split; [|split].
    + repeat constructor; cbn; intuition discriminate.
    + repeat constructor; cbn; intuition discriminate.
    + intros r [<-|[<-|[<-|[]]]] _ Hne.
      * now elim Hne.
      * split; [discriminate|]. exists Sample.home02.
        split; [reflexivity|]. split; [discriminate|reflexivity].
      * split; [discriminate|]. exists Sample.home03.
        split; [reflexivity|]. split; [discriminate|reflexivity].
  - exists w', evs. split; [exact Hrun|exact Hb].
Defined.






(** ** Calls from another pod *)

Lemma childWithExternalID_found (home : Home) (externalID : Z) (w : World)
  (v : View) :
  childWithExternalID home externalID w = Ok (Some v) w ->
  exists r : BindRow,
    In r (w_binds w) /\
    HOME_RESOURCE_ID r = h_resourceID home /\
    EXTERNAL_ID r = Some externalID /\
    BIND_STATUS r = _BIND_STATUS_ACCEPTED /\
    v = makeView home w r.
Proof.
  unfold childWithExternalID. rewrite objectWith_run. unfold findView.
  intros [= H].
  destruct (List.find _ (w_binds w)) as [r|] eqn:Hf; [|discriminate].
  injection H as <-. apply find_some in Hf. destruct Hf as (Hin & Hp).
  apply andb_true_iff in Hp. destruct Hp as (Hp & Hs).
  apply andb_true_iff in Hp. destruct Hp as (Hh & He).
  exists r. split; [exact Hin|]. split; [now apply Z.eqb_eq|].
  split; [now apply bool_decide_eq_true_1 in He|].
  split; [now apply bool_decide_eq_true_1 in Hs|reflexivity].
Qed.

Lemma childWithExternalID_absent (home : Home) (externalID : Z) (w : World) :
  (forall r : BindRow,
     In r (w_binds w) ->
     HOME_RESOURCE_ID r = h_resourceID home ->
     EXTERNAL_ID r = Some externalID ->
     BIND_STATUS r <> _BIND_STATUS_ACCEPTED) ->
  childWithExternalID home externalID w = Ok None w.
Proof.
  intros Hall. unfold childWithExternalID. rewrite objectWith_run.
  unfold findView.
  destruct (List.find _ (w_binds w)) as [r|] eqn:Hf; [|reflexivity].
  apply find_some in Hf. destruct Hf as (Hin & Hp).
  apply andb_true_iff in Hp. destruct Hp as (Hp & Hs).
  apply andb_true_iff in Hp. destruct Hp as (Hh & He).
  apply Z.eqb_eq in Hh. apply bool_decide_eq_true_1 in He.
  apply bool_decide_eq_true_1 in Hs.
  now elim (Hall r Hin Hh He).
Qed.

(** X6.  [processExternalUninvite] turns down a call it cannot place, and leaves
    the state as it is: when the owner's UID has no home here or a home
    that is not external, the owner is invalid (no home is created for it);
    when no accepted collection of the owner's home has the external id of
    the call, the share is. *)
Theorem processExternalUninvite_rejects :
  forall (self : Home) (ownerUID : string) (ownerRID : Z)
         (shareUID : string) (w : World),
    (find_home (h_homeType self) ownerUID (w_homes w) = None ->
     SharingHomeMixIn.processExternalUninvite self ownerUID ownerRID shareUID
       w = Raise (ExternalShareFailed ("Invalid owner UID: " +:+ ownerUID)) w)
    /\
    (forall oh : Home,
       find_home (h_homeType self) ownerUID (w_homes w) = Some oh ->
       h_external oh = false ->
       SharingHomeMixIn.processExternalUninvite self ownerUID ownerRID
         shareUID w
       = Raise (ExternalShareFailed ("Invalid owner UID: " +:+ ownerUID)) w)
    /\
    (forall oh : Home,
       find_home (h_homeType self) ownerUID (w_homes w) = Some oh ->
       h_external oh = true ->
       (forall r : BindRow,
          In r (w_binds w) ->
          HOME_RESOURCE_ID r = h_resourceID oh ->
          EXTERNAL_ID r = Some ownerRID ->
          BIND_STATUS r <> _BIND_STATUS_ACCEPTED) ->
       SharingHomeMixIn.processExternalUninvite self ownerUID ownerRID
         shareUID w
       = Raise (ExternalShareFailed ("Invalid share ID: " +:+ shareUID)) w).
Proof.
  intros self ownerUID ownerRID shareUID w.
  unfold SharingHomeMixIn.processExternalUninvite.
  rewrite (bind_Ok _ _ _ _ _ (homeWithUID_lookup _ _ _)).
  split; [|split].
  - intros ->. reflexivity.
  - intros oh -> ->. reflexivity.
  - intros oh -> -> Hall. cbn [negb].
    now rewrite (bind_Ok _ _ _ _ _
                   (childWithExternalID_absent oh ownerRID w Hall)).
Qed.

Lemma processExternalUninvite_rejects_witness :
  SharingHomeMixIn.processExternalUninvite Sample.home02 "puser03" 8
    "share-xyz" (Sample.world [Sample.shadow03; Sample.shadow_share01])
  = Raise (ExternalShareFailed ("Invalid share ID: " +:+ "share-xyz"))
      (Sample.world [Sample.shadow03; Sample.shadow_share01]).
Proof.
  apply (proj2 (proj2 (processExternalUninvite_rejects Sample.home02
                         "puser03" 8 "share-xyz"
                         (Sample.world [Sample.shadow03;
                                        Sample.shadow_share01])))
           Sample.home03 eq_refl eq_refl).
  intros r [<-|[<-|[]]] _; discriminate.
Defined.

Lemma removeExternalChild_run (home : Home) (child : View) (w : World) :
  exists w' : World,
    removeExternalChild home child w = Ok tt w' /\
    w_binds w' =
      List.filter (fun r => negb (RESOURCE_ID r =? _resourceID child))
        (w_binds w) /\
    w_homes w' = w_homes w /\
    w_notifications w' = w_notifications w.
Proof.
  unfold removeExternalChild, children_pop. mrun.
  eexists. split; [reflexivity|]. now repeat split.
Qed.

(** X7.  [processExternalUninvite] for an invited home that has a bind of the
    owner's shadow collection (found by its external id; [shareUID] is not
    consulted): the bind is removed; then, if no other principal of this
    pod has a bind of the collection, the shadow collection itself is
    removed, and no row of the resource is left; if another one has, the
    shadow collection and the other binds stay. *)
Theorem processExternalUninvite_drops_last_reference :
  forall (self : Home) (ownerUID : string) (ownerRID : Z)
         (shareUID : string) (w : World) (oh : Home) (ov sv : View)
         (soh : Home),
    find_home (h_homeType self) ownerUID (w_homes w) = Some oh ->
    h_external oh = true ->
    childWithExternalID oh ownerRID w = Ok (Some ov) w ->
    owned ov = true ->
    shareeView ov (h_uid self) w = Ok (Some sv) w ->
    _ownerHome sv = Some soh ->
    let rid := _resourceID ov in
    let hid := h_resourceID (_home sv) in
    exists w' : World,
      SharingHomeMixIn.processExternalUninvite self ownerUID ownerRID shareUID
        w = Ok tt w' /\
      binds_of rid hid w' = [] /\
      ((forall r : BindRow,
          In r (w_binds w) -> is_sharee_bind rid r = true ->
          HOME_RESOURCE_ID r = hid) ->
       w_binds w' =
         List.filter (fun r => negb (RESOURCE_ID r =? rid)) (w_binds w)) /\
      (forall (r : BindRow) (h : Home),
         In r (w_binds w) -> is_sharee_bind rid r = true ->
         HOME_RESOURCE_ID r <> hid ->
         homeWithResourceID (HOME_RESOURCE_ID r) (w_homes w) = Some h ->
         w_binds w' =
           List.filter (fun r => negb (bind_matches rid hid r)) (w_binds w)).
Proof.
  intros self ownerUID ownerRID shareUID w oh ov sv soh Hfind Hext Hov Hown
    Hsv Hsoh rid hid.
  destruct (childWithExternalID_found _ _ _ _ Hov)
    as (r0 & _ & _ & _ & _ & Hview).
  assert (Hoh : _ownerHome ov = Some oh).
  { unfold owned in Hown. apply bool_decide_eq_true_1 in Hown.
    rewrite Hview in Hown |- *. cbn [makeView _bindMode _ownerHome] in *.
    now rewrite (bool_decide_eq_true_2 _ Hown). }
  destruct (uninvite_run ov (h_uid self) w sv soh Hsv Hsoh)
    as (w1 & Hun & Hb1 & Hh1 & _).
  fold rid hid in Hb1.
  pose proof (sharingInvites_owner ov oh w1 Hown Hoh) as Hinv.
  fold rid in Hinv.
  destruct (removeExternalChild_run oh ov w1) as (w2 & Hrm & Hb2 & _).
  fold rid in Hb2.
  assert (Hgone1 : binds_of rid hid w1 = []).
  { unfold binds_of. rewrite Hb1. apply filter_filter_negb. }
  assert (Hrun : forall w',
    (if (length (map (invitation_of oh)
                   (_sharedInvitationBindForResourceID rid w1)) =? 0)%nat
     then removeExternalChild oh ov else ret tt) w1 = Ok tt w' ->
    SharingHomeMixIn.processExternalUninvite self ownerUID ownerRID shareUID
      w = Ok tt w').
  { intros w' Hlast. unfold SharingHomeMixIn.processExternalUninvite.
    rewrite (bind_Ok _ _ _ _ _ (homeWithUID_lookup _ _ _)).
    rewrite Hfind, Hext. cbn [negb].
    rewrite (bind_Ok _ _ _ _ _ Hov).
    rewrite (bind_Ok _ _ _ _ _ Hun).
    rewrite (bind_Ok _ _ _ _ _ Hinv). exact Hlast. }
  destruct (_sharedInvitationBindForResourceID rid w1) as [|i rest] eqn:Hj.
  - exists w2. split; [apply Hrun; exact Hrm|].
    split.
    { unfold binds_of. rewrite Hb2. unfold binds_of in Hgone1.
      apply filter_nil_iff. intros x Hx. apply filter_In in Hx.
      destruct Hx as (Hx & _).
      now apply (proj1 (filter_nil_iff _ _) Hgone1). }
    split.
    { intros _. rewrite Hb2, Hb1. rewrite filter_filter_and.
      apply filter_ext_eq. intros x. unfold bind_matches.
      now destruct (RESOURCE_ID x =? rid), (HOME_RESOURCE_ID x =? hid). }
    intros r h Hin Hs Hne Hh. exfalso.
    unfold _sharedInvitationBindForResourceID in Hj.
    assert (Hin1 : In (h_uid h, r)
                     (flat_map
                        (fun r => map (fun h => (h_uid h, r))
                                    (List.filter
                                       (fun h => h_resourceID h =?
                                                 HOME_RESOURCE_ID r)
                                       (w_homes w1)))
                        (List.filter
                           (fun r => (RESOURCE_ID r =? rid) &&
                                     bool_decide
                                       (BIND_MODE r <> _BIND_MODE_OWN))
                           (w_binds w1)))).
    { apply in_flat_map. exists r. split.
      - apply filter_In. split; [|exact Hs].
        rewrite Hb1. apply filter_In. split; [exact Hin|].
        apply negb_true_iff. unfold bind_matches.
        replace (HOME_RESOURCE_ID r =? hid) with false
          by (symmetry; now apply Z.eqb_neq).
        apply andb_false_r.
      - apply in_map_iff. exists h. split; [reflexivity|].
        rewrite Hh1. apply filter_In.
        destruct (homeWithResourceID_spec _ _ _ Hh) as (Hhin & Hid).
        split; [exact Hhin|now apply Z.eqb_eq]. }
    rewrite Hj in Hin1. destruct Hin1.
  - exists w1. split; [apply Hrun; reflexivity|].
    split; [exact Hgone1|]. split; [|intros; exact Hb1].
    intros Hall. exfalso.
    assert (Hin1 : In i (_sharedInvitationBindForResourceID rid w1))
      by (rewrite Hj; now left).
    unfold _sharedInvitationBindForResourceID in Hin1.
    apply in_flat_map in Hin1. destruct Hin1 as (r & Hr & _).
    apply filter_In in Hr. destruct Hr as (Hr & Hs).
    rewrite Hb1 in Hr. apply filter_In in Hr. destruct Hr as (Hr & Hm).
    apply negb_true_iff in Hm. unfold bind_matches in Hm.
    pose proof (Hall r Hr Hs) as Hhome.
    unfold is_sharee_bind in Hs. apply andb_true_iff in Hs.
    destruct Hs as (Hrid & _).
    rewrite Hrid, Hhome, Z.eqb_refl in Hm. discriminate.
Qed.

Lemma processExternalUninvite_drops_last_reference_witness :
  exists w' : World,
    SharingHomeMixIn.processExternalUninvite Sample.home01 "puser03" 7
      "shadow-share" (Sample.world [Sample.shadow03; Sample.shadow_share01])
    = Ok tt w' /\
    w_binds w' =
      List.filter
        (fun r => negb (RESOURCE_ID r =? _resourceID Sample.shadow_view))
        (w_binds (Sample.world [Sample.shadow03; Sample.shadow_share01])).
Proof.
  destruct (processExternalUninvite_drops_last_reference Sample.home01
              "puser03" 7 "shadow-share"
              (Sample.world [Sample.shadow03; Sample.shadow_share01])
              Sample.home03 Sample.shadow_view
              (makeView Sample.home01
                 (Sample.world [Sample.shadow03; Sample.shadow_share01])
                 Sample.shadow_share01)
              Sample.home03 eq_refl eq_refl eq_refl eq_refl eq_refl eq_refl)
    as (w' & Hrun & _ & Hlast & _).
  exists w'. split; [exact Hrun|]. apply Hlast.
  intros r [<-|[<-|[]]] Hs; [discriminate Hs|reflexivity].
Defined.

Lemma anyObjectWithShareUID_absent (home : Home) (shareUID : string)
  (w : World) :
  (forall r : BindRow,
     In r (w_binds w) ->
     HOME_RESOURCE_ID r = h_resourceID home ->
     RESOURCE_NAME r <> shareUID) ->
  anyObjectWithShareUID home shareUID w = Ok None w.
Proof.
  intros Hall. unfold anyObjectWithShareUID. rewrite objectWith_run.
  unfold findView.
  destruct (List.find _ (w_binds w)) as [r|] eqn:Hf; [|reflexivity].
  apply find_some in Hf. destruct Hf as (Hin & Hp).
  apply andb_true_iff in Hp. destruct Hp as (Hp & _).
  apply andb_true_iff in Hp. destruct Hp as (Hh & Hn).
  apply Z.eqb_eq in Hh. apply String.eqb_eq in Hn.
  now elim (Hall r Hin Hh).
Qed.

(** X8.  [processExternalReply] turns down a reply it cannot place, and leaves
    the state as it is: when the sharee's UID has no home here or a home
    that is not external, the sharee is invalid; when the sharee's home has
    no bind named [shareUID], whatever its status, the share is.  The
    owner's UID of the call is not consulted. *)
Theorem processExternalReply_rejects :
  forall (self : Home) (ownerUID shareeUID shareUID : string)
         (bindStatus : BindStatus) (summary : option string) (w : World),
    (find_home (h_homeType self) shareeUID (w_homes w) = None ->
     SharingHomeMixIn.processExternalReply self ownerUID shareeUID shareUID
       bindStatus summary w
     = Raise (ExternalShareFailed ("Invalid sharee UID: " +:+ shareeUID)) w)
    /\
    (forall sh : Home,
       find_home (h_homeType self) shareeUID (w_homes w) = Some sh ->
       h_external sh = false ->
       SharingHomeMixIn.processExternalReply self ownerUID shareeUID shareUID
         bindStatus summary w
       = Raise (ExternalShareFailed ("Invalid sharee UID: " +:+ shareeUID)) w)
    /\
    (forall sh : Home,
       find_home (h_homeType self) shareeUID (w_homes w) = Some sh ->
       h_external sh = true ->
       (forall r : BindRow,
          In r (w_binds w) ->
          HOME_RESOURCE_ID r = h_resourceID sh ->
          RESOURCE_NAME r <> shareUID) ->
       SharingHomeMixIn.processExternalReply self ownerUID shareeUID shareUID
         bindStatus summary w
       = Raise (ExternalShareFailed ("Invalid share UID: " +:+ shareUID)) w).
Proof.
  intros self ownerUID shareeUID shareUID bindStatus summary w.
  unfold SharingHomeMixIn.processExternalReply.
  rewrite (bind_Ok _ _ _ _ _ (homeWithUID_lookup _ _ _)).
  split; [|split].
  - intros ->. reflexivity.
  - intros sh -> ->. reflexivity.
  - intros sh -> -> Hall. cbn [negb].
    now rewrite (bind_Ok _ _ _ _ _
                   (anyObjectWithShareUID_absent sh shareUID w Hall)).
Qed.

Lemma processExternalReply_rejects_witness :
  SharingHomeMixIn.processExternalReply Sample.home01 "user01" "user02"
    "share-02" _BIND_STATUS_ACCEPTED None
    (Sample.world [Sample.own01; Sample.invited02])
  = Raise (ExternalShareFailed ("Invalid sharee UID: " +:+ "user02"))
      (Sample.world [Sample.own01; Sample.invited02]).
Proof.
  exact (proj1 (proj2 (processExternalReply_rejects Sample.home01 "user01"
                         "user02" "share-02" _BIND_STATUS_ACCEPTED None
                         (Sample.world [Sample.own01; Sample.invited02])))
           Sample.home02 eq_refl eq_refl).
Defined.

(** X9.  [processExternalReply] with the share found in the external sharee's
    home and its owner's view resolved.  A reply [ACCEPTED] or [DECLINED]
    that changes the status of an invited share sets the status of the
    sharee's bind and of no other row, and files the reply in the owner's
    notification collection when the owner is local (for [DECLINED] the
    summary of the call is dropped); a reply that repeats the status, or
    [ACCEPTED] for a direct share, changes nothing; [DECLINED] for a direct
    share deletes the bind. *)
Theorem processExternalReply_applies_reply :
  forall (self : Home) (ownerUID shareeUID shareUID : string)
         (bindStatus : BindStatus) (summary : option string) (w : World)
         (sh : Home) (sv ov : View) (oh : Home),
    find_home (h_homeType self) shareeUID (w_homes w) = Some sh ->
    h_external sh = true ->
    anyObjectWithShareUID sh shareUID w = Ok (Some sv) w ->
    _ownerHome sv = Some oh ->
    _ownerHome ov = Some oh ->
    ownerView sv w = Ok (Some ov) w ->
    bindStatus = _BIND_STATUS_ACCEPTED \/ bindStatus = _BIND_STATUS_DECLINED ->
    let rid := _resourceID sv in
    let hid := h_resourceID (_home sv) in
    let said := if bool_decide (bindStatus = _BIND_STATUS_ACCEPTED)
                then summary else None in
    (direct sv = false -> _bindStatus sv <> bindStatus ->
     exists (w' : World) (g : BindRow -> BindRow) (mid : list Event),
       SharingHomeMixIn.processExternalReply self ownerUID shareeUID shareUID
         bindStatus summary w = Ok tt w' /\
       w_binds w' = map g (w_binds w) /\
       keeps_keys g /\
       (forall r, bind_matches rid hid r = false -> g r = r) /\
       (forall r, bind_matches rid hid r = true ->
                  BIND_MODE (g r) = BIND_MODE r /\
                  BIND_STATUS (g r) = bindStatus) /\
       w_notifications w' =
         (if h_external oh then w_notifications w
          else <[(h_uid oh, (_name sv +:+ "-reply")%string) :=
                   reply_notification sv ov oh bindStatus said
                     (env_now (w_env w))]>
                 (w_notifications w)) /\
       w_trace w' =
         w_trace w ++ reply_sent sv oh bindStatus said ++
         [SQLUpdateBindColumns (status_only bindStatus) (_resourceID ov) hid]
         ++ mid ++
         reply_notified sv ov oh bindStatus said (env_now (w_env w)) /\
       Forall (fun e => ~ outward_event e) mid) /\
    (direct sv = false /\ _bindStatus sv = bindStatus \/
     direct sv = true /\ bindStatus = _BIND_STATUS_ACCEPTED ->
     SharingHomeMixIn.processExternalReply self ownerUID shareeUID shareUID
       bindStatus summary w = Ok tt w) /\
    (direct sv = true -> bindStatus = _BIND_STATUS_DECLINED ->
     exists w' : World,
       SharingHomeMixIn.processExternalReply self ownerUID shareeUID shareUID
         bindStatus summary w = Ok tt w' /\
       w_binds w' =
         List.filter (fun r => negb (bind_matches rid hid r)) (w_binds w) /\
       binds_of rid hid w' = [] /\
       w_notifications w' = w_notifications w /\
       w_trace w' =
         w_trace w ++
         removeShare_events ov sv (env_queryCacher (w_env w)) ++
         reply_sent sv oh _BIND_STATUS_DECLINED None).
Proof.
  intros self ownerUID shareeUID shareUID bindStatus summary w sh sv ov oh
    Hfind Hext Hany Hoh Hovh Hov Hcase rid hid said.
  assert (Hhead : forall (m : M unit),
    (if bool_decide (bindStatus = _BIND_STATUS_ACCEPTED) then
       SharingHomeMixIn.acceptShare sh shareUID summary ;;; ret tt
     else if bool_decide (bindStatus = _BIND_STATUS_DECLINED) then
       if direct sv then deleteShare sv ;;; ret tt
       else SharingHomeMixIn.declineShare sh shareUID ;;; ret tt
     else ret tt) = m ->
    SharingHomeMixIn.processExternalReply self ownerUID shareeUID shareUID
      bindStatus summary w = m w).
  { intros m <-. unfold SharingHomeMixIn.processExternalReply.
    rewrite (bind_Ok _ _ _ _ _ (homeWithUID_lookup _ _ _)).
    rewrite Hfind, Hext. cbn [negb].
    now rewrite (bind_Ok _ _ _ _ _ Hany). }
  split; [|split].
  - intros Hdir Hne.
    destruct (reply_run sv ov oh bindStatus said w Hdir Hoh Hovh Hov Hne)
      as (sv' & w' & g & mid & Hrun & _ & _ & Hb & Hkeys & Hother & Hsame & _
          & Hn & Htr & Hmid).
    { subst said. destruct Hcase as [->| ->]; decide_consts; tauto. }
    exists w', g, mid. split.
    { rewrite (Hhead _ eq_refl).
      destruct Hcase as [->| ->]; decide_consts; decide_consts.
      - unfold SharingHomeMixIn.acceptShare.
        rewrite bind_assoc, (bind_Ok _ _ _ _ _ Hany).
        subst said. revert Hrun. decide_consts. intros Hrun.
        rewrite bind_assoc, (bind_Ok _ _ _ _ _ Hrun). reflexivity.
      - rewrite Hdir. unfold SharingHomeMixIn.declineShare.
        rewrite bind_assoc, (bind_Ok _ _ _ _ _ Hany).
        revert Hrun. decide_consts. intros Hrun.
        rewrite bind_assoc, (bind_Ok _ _ _ _ _ Hrun). reflexivity. }
    split; [exact Hb|]. split; [exact Hkeys|]. split; [exact Hother|].
    split; [exact Hsame|]. split; [exact Hn|].
    split; [|exact Hmid].
    rewrite Htr. destruct (ownerView_found sv ov oh w Hoh Hov) as (_ & _).
    reflexivity.
  - intros Hsame. rewrite (Hhead _ eq_refl).
    destruct Hsame as [(Hdir & Hst)|(Hdir & ->)].
    + destruct Hcase as [->| ->]; decide_consts; decide_consts.
      * unfold SharingHomeMixIn.acceptShare.
        rewrite bind_assoc, (bind_Ok _ _ _ _ _ Hany).
        unfold acceptShare, shareStatus. rewrite Hst. decide_consts.
        now rewrite andb_false_r.
      * rewrite Hdir. unfold SharingHomeMixIn.declineShare.
        rewrite bind_assoc, (bind_Ok _ _ _ _ _ Hany).
        unfold declineShare, shareStatus. rewrite Hst. decide_consts.
        now rewrite andb_false_r.
    + decide_consts. unfold SharingHomeMixIn.acceptShare.
      rewrite bind_assoc, (bind_Ok _ _ _ _ _ Hany).
      unfold acceptShare. now rewrite Hdir.
  - intros Hdir ->.
    destruct (deleteShare_direct_run sv ov oh w Hoh Hovh Hov Hdir)
      as (w' & Hrun & Hb & Hgone & _ & _ & Hn & Htr).
    exists w'. split.
    { rewrite (Hhead _ eq_refl). decide_consts. decide_consts.
      rewrite Hdir. now rewrite (bind_Ok _ _ _ _ _ Hrun). }
    split; [exact Hb|]. split; [exact Hgone|].
    split; [exact Hn|exact Htr].
Qed.

Lemma processExternalReply_applies_reply_witness :
  exists w' : World,
    SharingHomeMixIn.processExternalReply Sample.home01 "user01" "puser03"
      "share-03" _BIND_STATUS_DECLINED None
      (Sample.world [Sample.own01; Sample.direct03]) = Ok tt w' /\
    binds_of 10 3 w' = [].
Proof.
  destruct (proj2 (proj2
              (processExternalReply_applies_reply Sample.home01 "user01"
                 "puser03" "share-03" _BIND_STATUS_DECLINED None
                 (Sample.world [Sample.own01; Sample.direct03])
                 Sample.home03
                 (makeView Sample.home03
                    (Sample.world [Sample.own01; Sample.direct03])
                    Sample.direct03)
                 Sample.calendar01 Sample.home01
                 eq_refl eq_refl eq_refl eq_refl eq_refl eq_refl
                 (or_intror eq_refl)))
              eq_refl eq_refl)
    as (w' & Hrun & _ & Hgone & _).
  exists w'. split; [exact Hrun|exact Hgone].
Defined.

(** ** Replies through the home *)

(** X10.  [acceptShare] and [declineShare] of a home look the share up by its
    UID among all binds of the home, whatever their status.  With no bind
    of that name nothing changes, and the answers are [None] and [False].
    With one, [declineShare] answers [True] and [acceptShare] the view,
    also when there was nothing to do, the share being direct or already in
    the status asked for; otherwise, the owner's view being resolved, the
    bind is left with the new status. *)
Theorem home_accept_decline :
  forall (self : Home) (shareUID : string) (summary : option string)
         (w : World),
    ((forall r : BindRow,
        In r (w_binds w) ->
        HOME_RESOURCE_ID r = h_resourceID self ->
        RESOURCE_NAME r <> shareUID) ->
     SharingHomeMixIn.acceptShare self shareUID summary w = Ok None w /\
     SharingHomeMixIn.declineShare self shareUID w = Ok false w) /\
    (forall sv : View,
       anyObjectWithShareUID self shareUID w = Ok (Some sv) w ->
       (direct sv = true \/ _bindStatus sv = _BIND_STATUS_ACCEPTED ->
        SharingHomeMixIn.acceptShare self shareUID summary w
          = Ok (Some sv) w) /\
       (direct sv = true \/ _bindStatus sv = _BIND_STATUS_DECLINED ->
        SharingHomeMixIn.declineShare self shareUID w = Ok true w) /\
       (forall (ov : View) (oh : Home),
          direct sv = false ->
          _ownerHome sv = Some oh ->
          _ownerHome ov = Some oh ->
          ownerView sv w = Ok (Some ov) w ->
          (_bindStatus sv <> _BIND_STATUS_ACCEPTED ->
           exists (sv' : View) (w' : World) (g : BindRow -> BindRow),
             SharingHomeMixIn.acceptShare self shareUID summary w
               = Ok (Some sv') w' /\
             _bindStatus sv' = _BIND_STATUS_ACCEPTED /\
             w_binds w' = map g (w_binds w) /\
             (forall r,
                bind_matches (_resourceID sv) (h_resourceID (_home sv)) r
                  = false -> g r = r) /\
             (forall r,
                bind_matches (_resourceID sv) (h_resourceID (_home sv)) r
                  = true ->
                BIND_MODE (g r) = BIND_MODE r /\
                BIND_STATUS (g r) = _BIND_STATUS_ACCEPTED)) /\
          (_bindStatus sv <> _BIND_STATUS_DECLINED ->
           exists (w' : World) (g : BindRow -> BindRow),
             SharingHomeMixIn.declineShare self shareUID w = Ok true w' /\
             w_binds w' = map g (w_binds w) /\
             (forall r,
                bind_matches (_resourceID sv) (h_resourceID (_home sv)) r
                  = false -> g r = r) /\
             (forall r,
                bind_matches (_resourceID sv) (h_resourceID (_home sv)) r
                  = true ->
                BIND_MODE (g r) = BIND_MODE r /\
                BIND_STATUS (g r) = _BIND_STATUS_DECLINED)))).
Proof.
  intros self shareUID summary w. split.
  - intros Hall.
    pose proof (anyObjectWithShareUID_absent self shareUID w Hall) as Hnone.
    unfold SharingHomeMixIn.acceptShare, SharingHomeMixIn.declineShare.
    now rewrite !(bind_Ok _ _ _ _ _ Hnone).
  - intros sv Hany.
    unfold SharingHomeMixIn.acceptShare, SharingHomeMixIn.declineShare.
    rewrite !(bind_Ok _ _ _ _ _ Hany).
    split; [|split].
    + intros Hnoop.
      assert (Hrun : acceptShare sv summary w = Ok sv w).
      { unfold acceptShare, shareStatus. destruct Hnoop as [->| ->].
        - reflexivity.
        - decide_consts. now rewrite andb_false_r. }
      now rewrite (bind_Ok _ _ _ _ _ Hrun).
    + intros Hnoop.
      assert (Hrun : declineShare sv w = Ok sv w).
      { unfold declineShare, shareStatus. destruct Hnoop as [->| ->].
        - reflexivity.
        - decide_consts. now rewrite andb_false_r. }
      now rewrite (bind_Ok _ _ _ _ _ Hrun).
    + intros ov oh Hdir Hoh Hovh Hov. split.
      * intros Hne.
        destruct (reply_run sv ov oh _BIND_STATUS_ACCEPTED summary w Hdir
                    Hoh Hovh Hov Hne (or_introl eq_refl))
          as (sv' & w' & g & mid & Hrun & Hs & _ & Hb & _ & Hother & Hsame
              & _).
        revert Hrun. decide_consts. intros Hrun.
        exists sv', w', g. rewrite (bind_Ok _ _ _ _ _ Hrun).
        split; [reflexivity|]. split; [exact Hs|]. split; [exact Hb|].
        split; [exact Hother|exact Hsame].
      * intros Hne.
        destruct (reply_run sv ov oh _BIND_STATUS_DECLINED None w Hdir
                    Hoh Hovh Hov Hne (or_intror (conj eq_refl eq_refl)))
          as (sv' & w' & g & mid & Hrun & Hs & _ & Hb & _ & Hother & Hsame
              & _).
        revert Hrun. decide_consts. intros Hrun.
        exists w', g. rewrite (bind_Ok _ _ _ _ _ Hrun).
        split; [reflexivity|]. split; [exact Hb|].
        split; [exact Hother|exact Hsame].
Qed.

Lemma home_accept_decline_witness :
  SharingHomeMixIn.acceptShare Sample.home02 "no-such-share" None
    (Sample.world [Sample.own01; Sample.invited02])
  = Ok None (Sample.world [Sample.own01; Sample.invited02]) /\
  SharingHomeMixIn.declineShare Sample.home02 "no-such-share"
    (Sample.world [Sample.own01; Sample.invited02])
  = Ok false (Sample.world [Sample.own01; Sample.invited02]).
Proof.
  apply (proj1 (home_accept_decline Sample.home02 "no-such-share" None
                  (Sample.world [Sample.own01; Sample.invited02]))).
  intros r [<-|[<-|[]]] _; discriminate.
Defined.

(** X11.  [processExternalInvite] turns down an invite whose owner is not hosted
    on another pod: when the owner's UID has a home here that is not
    external the state stays as it is; when it has no home and the
    directory does not place it on another pod either, no bind is written,
    nothing is sent and no notification is written. *)
Theorem processExternalInvite_rejects_local_owner :
  forall (self : Home) (ownerUID : string) (ownerRID : Z)
         (ownerName shareUID : string) (bindMode : BindMode)
         (summary : option string)
         (copy_invite_properties : list (string * string))
         (supported_components : option string) (w : World),
    (forall oh : Home,
       find_home (h_homeType self) ownerUID (w_homes w) = Some oh ->
       h_external oh = false ->
       SharingHomeMixIn.processExternalInvite self ownerUID ownerRID
         ownerName shareUID bindMode summary copy_invite_properties
         supported_components w
       = Raise (ExternalShareFailed ("Invalid owner UID: " +:+ ownerUID)) w)
    /\
    (find_home (h_homeType self) ownerUID (w_homes w) = None ->
     env_external (w_env w) ownerUID = false ->
     exists w' : World,
       SharingHomeMixIn.processExternalInvite self ownerUID ownerRID
         ownerName shareUID bindMode summary copy_invite_properties
         supported_components w
       = Raise (ExternalShareFailed ("Invalid owner UID: " +:+ ownerUID)) w'
       /\
       w_binds w' = w_binds w /\
       w_trace w' = w_trace w /\
       w_notifications w' = w_notifications w).
Proof.
  intros self ownerUID ownerRID ownerName shareUID bindMode summary props
    comps w.
  unfold SharingHomeMixIn.processExternalInvite. split.
  - intros oh Hfind Hext.
    rewrite (bind_Ok _ _ _ _ _ (homeWithUID_present _ _ true w oh Hfind)).
    now rewrite Hext.
  - intros Hfind Hext. unfold homeWithUID at 1. unfold bind at 1.
    rewrite Hfind. cbn [h_external]. rewrite Hext. cbn [negb].
    eexists. split; [reflexivity|]. now repeat split.
Qed.

Lemma processExternalInvite_rejects_local_owner_witness :
  SharingHomeMixIn.processExternalInvite Sample.home02 "user01" 8
    "remote-cal" "share-xyz" _BIND_MODE_READ None [] None
    (Sample.world [Sample.own01])
  = Raise (ExternalShareFailed ("Invalid owner UID: " +:+ "user01"))
      (Sample.world [Sample.own01]).
Proof.
  exact (proj1 (processExternalInvite_rejects_local_owner Sample.home02
                  "user01" 8 "remote-cal" "share-xyz" _BIND_MODE_READ None []
                  None (Sample.world [Sample.own01]))
           Sample.home01 eq_refl eq_refl).
Defined.

Lemma try_except_Ok {A} (m : M A) (h : Exn -> M A) w a w' :
  m w = Ok a w' -> try_except m h w = Ok a w'.
Proof. intros H. unfold try_except. now rewrite H. Qed.

Lemma filter_fresh (w : World) :
  fresh_resourceID w ->
  List.filter (fun r => negb (RESOURCE_ID r =? w_nextResourceID w))
    (w_binds w) = w_binds w.
Proof.
  intros Hfresh.
  rewrite (filter_in_eq _ (fun _ => true)).
  - induction (w_binds w) as [|x l IH]; [reflexivity|]. cbn.
    now rewrite IH.
  - intros x Hx. apply negb_true_iff. apply Z.eqb_neq. now apply Hfresh.
Qed.

(** X12.  [processExternalInvite] when the name of the owner's collection is not
    in the way.  If an accepted collection of the owner's home has the
    external id of the invite, it is used as it is: no collection is
    created, and the one bind added is the invited home's.  If none has and
    the name is free, the shadow collection is created with that name and
    external id, and the invited home is bound to it.  The bind has the name
    [shareUID], the mode of the invite, and the status [INVITED], or
    [ACCEPTED] for a direct share; the rows already there keep their keys,
    mode and status. *)
Theorem processExternalInvite_places_invite :
  forall (self : Home) (ownerUID : string) (ownerRID : Z)
         (ownerName shareUID : string) (bindMode : BindMode)
         (summary : option string)
         (copy_invite_properties : list (string * string))
         (supported_components : option string) (w : World) (oh : Home),
    find_home (h_homeType self) ownerUID (w_homes w) = Some oh ->
    h_external oh = true ->
    find_home (h_homeType self) (h_uid self) (w_homes w) = Some self ->
    h_uid self <> ownerUID ->
    let status := created_status bindMode in
    let message := if bool_decide (bindMode = _BIND_MODE_DIRECT) then None
                   else summary in
    (forall ov : View,
       childWithExternalID oh ownerRID w = Ok (Some ov) w ->
       owns w ov ->
       insert_conflicts (new_bind ov self bindMode status message shareUID)
         (w_binds w) = false ->
       exists (w' : World) (g : BindRow -> BindRow),
         SharingHomeMixIn.processExternalInvite self ownerUID ownerRID
           ownerName shareUID bindMode summary copy_invite_properties
           supported_components w = Ok tt w' /\
         gentle g /\
         w_binds w' =
           map g (w_binds w ++
                  [new_bind ov self bindMode status message shareUID]) /\
         w_homes w' = w_homes w) /\
    ((forall r : BindRow,
        In r (w_binds w) ->
        HOME_RESOURCE_ID r = h_resourceID oh ->
        (EXTERNAL_ID r = Some ownerRID ->
         BIND_STATUS r <> _BIND_STATUS_ACCEPTED) /\
        RESOURCE_NAME r <> ownerName) ->
     fresh_resourceID w ->
     h_resourceID self <> h_resourceID oh ->
     homeWithResourceID (h_resourceID oh) (w_homes w) = Some oh ->
     (forall r : BindRow,
        In r (w_binds w) ->
        HOME_RESOURCE_ID r = h_resourceID self ->
        RESOURCE_NAME r <> shareUID) ->
     exists (w' : World) (g : BindRow -> BindRow),
       SharingHomeMixIn.processExternalInvite self ownerUID ownerRID
         ownerName shareUID bindMode summary copy_invite_properties
         supported_components w = Ok tt w' /\
       gentle g /\
       w_binds w' =
         map g (w_binds w ++
                [child_row oh (w_nextResourceID w) ownerName (Some ownerRID);
                 mkBindRow bindMode (h_resourceID self) (w_nextResourceID w)
                   (Some ownerRID) shareUID status 0 message]) /\
       w_homes w' = w_homes w).
Proof.
  intros self ownerUID ownerRID ownerName shareUID bindMode summary props
    comps w oh Hfind Hext Hself Hdiff status message.
  pose proof (homeWithUID_present _ _ true w oh Hfind) as Hhome.
  destruct (find_home_spec _ _ _ _ Hfind) as (Htype & Huid).
  split.
  - intros ov Hov Howns Hfree.
    destruct (childWithExternalID_found _ _ _ _ Hov)
      as (r0 & _ & _ & _ & _ & Hview).
    assert (Hvh : _home ov = oh) by now rewrite Hview.
    destruct (external_share_step ov self bindMode summary shareUID w Howns)
      as (r & w1 & g & Hshare & Hg & Hb & Hh).
    { rewrite Hvh, Huid. intros Heq. now apply Hdiff. }
    { rewrite Hvh, Htype. exact Hself. }
    { exact Hfree. }
    eexists. exists g. split.
    { unfold SharingHomeMixIn.processExternalInvite.
      rewrite (bind_Ok _ _ _ _ _ Hhome). rewrite Hext. cbn [negb].
      rewrite (bind_Ok _ _ _ _ _ Hov). rewrite bind_ret.
      rewrite (bind_Ok _ _ _ _ _ Hshare).
      unfold setInviteCopyProperties. reflexivity. }
    split; [exact Hg|]. split; [exact Hb|exact Hh].
  - intros Hnone Hfresh Hhid Hres Hname.
    assert (Hnoext : childWithExternalID oh ownerRID w = Ok None w).
    { apply childWithExternalID_absent. intros r Hin Hh He.
      now apply (Hnone r Hin Hh). }
    assert (Hfreename :
      existsb (fun r => (HOME_RESOURCE_ID r =? h_resourceID oh) &&
                        String.eqb (RESOURCE_NAME r) ownerName) (w_binds w)
      = false).
    { destruct (existsb _ _) eqn:He; [|reflexivity].
      apply existsb_exists in He. destruct He as (x & Hx & Hp).
      apply andb_true_iff in Hp. destruct Hp as (Hxh & Hxn).
      apply Z.eqb_eq in Hxh. apply String.eqb_eq in Hxn.
      now elim (proj2 (Hnone x Hx Hxh)). }
    pose proof (createChildWithName_free oh ownerName (Some ownerRID) w
                  Hfreename) as Hcreate.
    cbv zeta in Hcreate.
    set (row := child_row oh (w_nextResourceID w) ownerName (Some ownerRID))
      in *.
    set (ownerView := makeView oh w row) in *.
    set (w1 := setTrace _ _) in Hcreate.
    assert (Hcomp : exists w2,
      (has <- hasSupportedComponents ;;
       match comps with
       | Some c => if has : bool then setSupportedComponents ownerView c
                   else ret tt
       | None => ret tt
       end ;;; ret ownerView) w1 = Ok ownerView w2 /\
      w_binds w2 = w_binds w1 /\ w_homes w2 = w_homes w1).
    { unfold hasSupportedComponents, setSupportedComponents.
      destruct comps as [c|];
        [destruct (env_hasSupportedComponents (w_env w1)) eqn:Hhas|].
      - eexists. split; [mrun; rewrite Hhas; mrun; reflexivity|].
        now split.
      - eexists. split; [mrun; rewrite Hhas; mrun; reflexivity|].
        now split.
      - eexists. split; [mrun; reflexivity|]. now split. }
    destruct Hcomp as (w2 & Hcomp & Hb2 & Hh2).
    assert (Hb2' : w_binds w2 =
                   List.filter
                     (fun r => negb (RESOURCE_ID r =? w_nextResourceID w))
                     (w_binds w) ++ [row]).
    { rewrite Hb2, (filter_fresh w Hfresh). reflexivity. }
    assert (Hh2' : w_homes w2 = w_homes w) by (rewrite Hh2; reflexivity).
    destruct (recreated_owns oh ownerRID ownerName w w2 (w_nextResourceID w)
                ownerView Hfresh Hres eq_refl eq_refl eq_refl eq_refl Hb2'
                Hh2') as (Howns & _).
    assert (Hfree : insert_conflicts
                      (new_bind ownerView self bindMode status message
                         shareUID) (w_binds w2) = false).
    { eapply external_bind_free; try eassumption. reflexivity. }
    destruct (external_share_step ownerView self bindMode summary shareUID w2
                Howns) as (r & w3 & g & Hshare & Hg & Hb3 & Hh3).
    { cbn [ownerView makeView _home]. rewrite Huid. intros Heq.
      now apply Hdiff. }
    { cbn [ownerView makeView _home]. rewrite Htype, Hh2'. exact Hself. }
    { exact Hfree. }
    eexists. exists g. split.
    { unfold SharingHomeMixIn.processExternalInvite.
      rewrite (bind_Ok _ _ _ _ _ Hhome). rewrite Hext. cbn [negb].
      rewrite (bind_Ok _ _ _ _ _ Hnoext).
      rewrite bind_assoc.
      rewrite (bind_Ok _ _ _ _ _ (try_except_Ok _ _ _ _ _ Hcreate)).
      rewrite (bind_Ok _ _ _ _ _ Hcomp).
      rewrite (bind_Ok _ _ _ _ _ Hshare).
      unfold setInviteCopyProperties. reflexivity. }
    split; [exact Hg|]. split; [|proj; now rewrite Hh3].
    proj. rewrite Hb3, Hb2', (filter_fresh w Hfresh).
    rewrite <- app_assoc. reflexivity.
Qed.

Lemma processExternalInvite_places_invite_witness :
  exists (w' : World) (g : BindRow -> BindRow),
    SharingHomeMixIn.processExternalInvite Sample.home02 "puser03" 8
      "remote-cal" "share-xyz" _BIND_MODE_READ (Some "hello"%string) [] None
      (Sample.world [Sample.own01]) = Ok tt w' /\
    gentle g /\
    w_binds w' =
      map g
        (w_binds (Sample.world [Sample.own01]) ++
         [child_row Sample.home03
            (w_nextResourceID (Sample.world [Sample.own01])) "remote-cal"
            (Some 8);
          mkBindRow _BIND_MODE_READ (h_resourceID Sample.home02)
            (w_nextResourceID (Sample.world [Sample.own01])) (Some 8)
            "share-xyz" (created_status _BIND_MODE_READ) 0
            (if bool_decide (_BIND_MODE_READ = _BIND_MODE_DIRECT) then None
             else Some "hello"%string)]).
Proof.
  destruct (proj2 (processExternalInvite_places_invite Sample.home02
                     "puser03" 8 "remote-cal" "share-xyz" _BIND_MODE_READ
                     (Some "hello"%string) [] None
                     (Sample.world [Sample.own01]) Sample.home03
                     eq_refl eq_refl eq_refl ltac:(discriminate)))
    as (w' & g & Hrun & Hg & Hb & _).
  - intros r [<-|[]] Hh. discriminate Hh.
  - intros r [<-|[]]. discriminate.
  - discriminate.
  - reflexivity.
  - intros r [<-|[]] Hh. discriminate Hh.
  - exists w', g. split; [exact Hrun|]. split; [exact Hg|exact Hb].
Defined.

(** ** Operations in sequence *)

Lemma filter_all_false {A} (p : A -> bool) (l : list A) :
  List.filter p l = [] -> List.filter (fun x => negb (p x)) l = l.
Proof.
  intros H. rewrite (filter_in_eq _ (fun _ => true)).
  - induction l as [|x l IH]; [reflexivity|]. cbn. f_equal.
    apply IH. apply filter_nil_iff. intros y Hy.
    apply (proj1 (filter_nil_iff _ _) H). now right.
  - intros x Hx. apply negb_true_iff.
    now apply (proj1 (filter_nil_iff _ _) H).
Qed.

(** X13.  An invitation taken back.  [inviteUIDToShare] for a local principal who
    has no bind of the collection yet, with a mode other than [DIRECT],
    files an invite notification for the new share, with the status
    [INVITED], in the sharee's collection; [uninviteUIDFromShare] right
    after it removes that notification and the bind: the bind table has its
    former rows again, with their keys, mode and status (the owner's
    collection stays marked as shared), and the sharee's notification
    collection has no entry for the share. *)
Theorem invite_then_uninvite :
  forall (self : View) (uid : string) (mode : BindMode)
         (summary shareName : option string) (w : World) (h : Home)
         (w0 : World),
    owns w self ->
    h_uid (_home self) <> uid ->
    homeWithUID (h_homeType (_home self)) uid true w = Ok (Some h) w0 ->
    insert_conflicts
      (new_bind self h mode (created_status mode) summary
         (next_name shareName w))
      (w_binds w) = false ->
    h_external h = false ->
    mode <> _BIND_MODE_DIRECT ->
    let inbox := (uid, next_name shareName w) in
    exists (sv self' : View) (w1 w2 : World) (g : BindRow -> BindRow)
           (ntype ndata : PyDict),
      inviteUIDToShare self uid mode summary shareName w = Ok (sv, self') w1 /\
      w_notifications w1 = <[inbox := (ntype, ndata)]> (w_notifications w) /\
      dict_get "notification-type" ndata =
        Some (PyStr "invite-notification") /\
      dict_get "status" ndata = Some (PyStatus _BIND_STATUS_INVITED) /\
      dict_get "uid" ndata = Some (PyStr (next_name shareName w)) /\
      dict_get "access" ndata = Some (PyMode mode) /\
      uninviteUIDFromShare self' uid w1 = Ok tt w2 /\
      gentle g /\
      w_binds w2 = map g (w_binds w) /\
      w_notifications w2 = delete inbox (w_notifications w) /\
      w_homes w2 = w_homes w0.
Proof.
  intros self uid mode summary shareName w h w0 Howns Hne Hhome Hfree Hext
    Hmode inbox.
  assert (Hst : created_status mode = _BIND_STATUS_INVITED).
  { unfold created_status. now rewrite (bool_decide_eq_true_2 _ Hmode). }
  destruct (createShare_new self uid mode summary shareName w h w0 Howns Hne
              Hhome Hfree)
    as (wc & g & evs & Hrun & Hstep & _ & Hg & Hone & Howns1 & (oh' & Hoh')
        & Hsv).
  set (row := new_bind self h mode (created_status mode) summary
                (next_name shareName w)) in *.
  set (sv := makeView h wc (g row)) in *.
  change (createShare self uid mode summary shareName w
          = Ok (Some sv, setShared_view self) wc) in Hrun.
  destruct (Hg row) as (Hgm & Hgh & Hgr & _ & Hgn & Hgs).
  destruct (setShared_view_fixed self) as (_ & Hf2 & Hf3 & _).
  destruct (homeWithUID_create_spec _ _ _ _ _ Hhome)
    as (Hfind & _ & Hb0 & _ & _ & Hn0 & _).
  destruct (find_home_spec _ _ _ _ Hfind) as (_ & Huid).
  destruct Hstep as (_ & Hhc & _ & _ & _ & Hnc & _ & _ & Hbc).
  assert (Hname : _name sv = next_name shareName w) by exact Hgn.
  assert (Hhomesv : _home sv = h) by reflexivity.
  pose proof (_sendInviteNotification_run (setShared_view self) sv oh' None
                wc Hoh') as Hsend.
  rewrite Hhomesv, Huid, Hname in Hsend. fold inbox in Hsend.
  set (note := invite_notification (setShared_view self) sv oh' None wc) in *.
  set (w1 := setTrace _ (setNotifications _ wc)) in Hsend.
  assert (Hinvite : inviteUIDToShare self uid mode summary shareName w
                    = Ok (sv, setShared_view self) w1).
  { unfold inviteUIDToShare. rewrite (bind_Ok _ _ _ _ _
      (shareeView_absent self uid h w w0 Hhome
         (proj1 (insert_conflicts_free row (w_binds w) Hfree)))).
    rewrite (bind_Ok _ _ _ _ _ Hrun). mrun.
    unfold viewerHome. rewrite Hhomesv, Hext.
    rewrite (bind_Ok _ _ _ _ _ Hsend). reflexivity. }
  assert (Hsv1 : shareeView (setShared_view self) uid w1 = Ok (Some sv) w1).
  { apply (shareeView_frame _ _ wc w1); [reflexivity|reflexivity|exact Hsv]. }
  assert (Hdirect : direct sv = false).
  { unfold direct. apply bool_decide_eq_false_2.
    cbn [sv makeView _bindMode]. now rewrite Hgm. }
  assert (Hstatus : _bindStatus sv = _BIND_STATUS_INVITED).
  { cbn [sv makeView _bindStatus]. now rewrite Hgs. }
  destruct (removeShare_run (setShared_view self) sv
              (setTrace
                 (fun t => t ++ [RemoveNotificationObjectWithUID uid
                                   (next_name shareName w)])
                 (setNotifications (delete inbox) w1)))
    as (w2 & Hrm & Hfr & Hn2 & Hb2 & _).
  assert (Hun : uninviteUIDFromShare (setShared_view self) uid w1 = Ok tt w2).
  { unfold uninviteUIDFromShare. rewrite (bind_Ok _ _ _ _ _ Hsv1).
    unfold viewerHome. rewrite Hhomesv, Hext, Hdirect. cbn [negb].
    unfold shareStatus. rewrite Hstatus. decide_consts.
    unfold _removeInviteNotification, removeNotificationObjectWithUID.
    unfold viewerHome, shareUID, name. rewrite Hhomesv, Huid, Hname. mrun.
    exact Hrm. }
  exists sv, (setShared_view self), w1, w2, g, (fst note), (snd note).
  split; [exact Hinvite|].
  split.
  { unfold w1. proj. rewrite Hnc, Hn0. now destruct note. }
  assert (Hdict :
    dict_get "notification-type" (snd note) =
      Some (PyStr "invite-notification") /\
    dict_get "status" (snd note) = Some (PyStatus _BIND_STATUS_INVITED) /\
    dict_get "uid" (snd note) = Some (PyStr (next_name shareName w)) /\
    dict_get "access" (snd note) = Some (PyMode mode)).
  { unfold note, invite_notification. decide_consts. proj.
    rewrite Hstatus, Hname.
    replace (_bindMode sv) with mode by (symmetry; exact Hgm).
    destruct (env_hasSupportedComponents (w_env wc)); repeat split. }
  destruct Hdict as (Hd1 & Hd2 & Hd3 & Hd4).
  split; [exact Hd1|]. split; [exact Hd2|]. split; [exact Hd3|].
  split; [exact Hd4|]. split; [exact Hun|]. split; [exact Hg|].
  split.
  { rewrite Hb2. proj. unfold w1. proj. rewrite Hbc, Hb0.
    rewrite Hf2, Hhomesv.
    rewrite filter_map_commute
      by (intros x; f_equal; apply bind_matches_keeps, gentle_keeps, Hg).
    f_equal. rewrite filter_app_eq.
    destruct (insert_conflicts_free row (w_binds w) Hfree) as (Hnone & _).
    cbn [row new_bind RESOURCE_ID HOME_RESOURCE_ID] in Hnone.
    rewrite (filter_all_false _ _ Hnone). cbn [List.filter].
    fold row. rewrite (new_bind_matches self h). cbn [negb].
    apply app_nil_r. }
  split.
  { rewrite Hn2. proj. unfold w1. proj. rewrite Hnc, Hn0.
    apply delete_insert_eq. }
  destruct Hfr as (_ & Hh2 & _). rewrite Hh2. proj. unfold w1. proj.
  exact Hhc.
Qed.

Lemma invite_then_uninvite_witness :
  exists (sv self' : View) (w1 w2 : World) (g : BindRow -> BindRow),
    inviteUIDToShare Sample.calendar01 "user02" _BIND_MODE_READ
      (Some "please join"%string) (Some "share-02"%string)
      (Sample.world [Sample.own01]) = Ok (sv, self') w1 /\
    uninviteUIDFromShare self' "user02" w1 = Ok tt w2 /\
    gentle g /\
    w_binds w2 = map g (w_binds (Sample.world [Sample.own01])).
Proof.
  destruct (invite_then_uninvite Sample.calendar01 "user02" _BIND_MODE_READ
              (Some "please join"%string) (Some "share-02"%string)
              (Sample.world [Sample.own01]) Sample.home02
              (Sample.world [Sample.own01]))
    as (sv & self' & w1 & w2 & g & ntype & ndata & Hinv & _ & _ & _ & _ & _
        & Hun & Hg & Hb & _).
  - split; [reflexivity|]. split; [reflexivity|]. split; [reflexivity|].
    exists Sample.own01. split; [reflexivity|]. split; reflexivity.
  - discriminate.
  - reflexivity.
  - reflexivity.
  - reflexivity.
  - discriminate.
  - exists sv, self', w1, w2, g. split; [exact Hinv|]. split; [exact Hun|].
    split; [exact Hg|exact Hb].
Defined.

(** X14.  A reply that follows another.  The replies of a sharee are filed in the
    owner's collection under the name of the share followed by [-reply]:
    when an invited sharee of a local owner accepts and then declines, the
    second reply takes the place of the first, and the owner's collection
    differs from what it was before the two calls by this one entry, a reply
    [DECLINED] without a summary. *)
Theorem decline_replaces_accept_reply :
  forall (w : World) (self : View) (uid : string) (h : Home)
         (mode : BindMode) (status : BindStatus) (sv : View)
         (summary : option string),
    shared_with w self uid h mode status ->
    sharee_view_of self h mode status sv ->
    mode <> _BIND_MODE_OWN ->
    mode <> _BIND_MODE_DIRECT ->
    status <> _BIND_STATUS_ACCEPTED ->
    h_external (_home self) = false ->
    let key := (h_uid (_home self), (_name sv +:+ "-reply")%string) in
    exists (sv1 : View) (w1 : World) (sv2 : View) (w2 : World)
           (n1 n2 : PyDict * PyDict),
      acceptShare sv summary w = Ok sv1 w1 /\
      w_notifications w1 = <[key := n1]> (w_notifications w) /\
      dict_get "status" (snd n1) = Some (PyStatus _BIND_STATUS_ACCEPTED) /\
      dict_get "summary" (snd n1) = Some (py_opt summary) /\
      declineShare sv1 w1 = Ok sv2 w2 /\
      w_notifications w2 = <[key := n2]> (w_notifications w) /\
      dict_get "notification-type" (snd n2) = Some (PyStr "invite-reply") /\
      dict_get "in-reply-to" (snd n2) = Some (PyStr (_name sv)) /\
      dict_get "status" (snd n2) = Some (PyStatus _BIND_STATUS_DECLINED) /\
      dict_get "summary" (snd n2) = Some PyNone.
Proof.
  intros w self uid h mode status sv summary Hshared Hview Hown Hdir Hst
    Hlocal key.
  pose proof Hview as (Hvh & Hvr & Hvoh & Hvm & Hvs).
  assert (Hdirect : forall v, _bindMode v = mode -> direct v = false).
  { intros v Hv. unfold direct. apply bool_decide_eq_false_2.
    now rewrite Hv. }
  destruct (ownerView_of_sharee w self uid h mode status sv Hshared Hview)
    as (ov & Hov & Hovoh & _).
  destruct (reply_run sv ov (_home self) _BIND_STATUS_ACCEPTED summary w
              (Hdirect sv Hvm) Hvoh Hovoh Hov)
    as (sv1 & w1 & g1 & mid1 & Hrun1 & Hs1 & Hname1 & _ & _ & _ & _ & _ & Hn1
        & _).
  { now rewrite Hvs. }
  { now left. }
  revert Hrun1. decide_consts. intros Hrun1.
  destruct (accept_step w self uid h mode status sv summary Hshared Hview
              Hown Hdir Hst)
    as (sv1' & w1' & Hacc & Hshared1 & Hview1 & _).
  rewrite Hrun1 in Hacc. injection Hacc as <- <-.
  pose proof Hview1 as (_ & _ & Hvoh1 & Hvm1 & Hvs1).
  destruct (ownerView_of_sharee w1 self uid h mode _BIND_STATUS_ACCEPTED sv1
              Hshared1 Hview1) as (ov1 & Hov1 & Hovoh1 & _).
  destruct (reply_run sv1 ov1 (_home self) _BIND_STATUS_DECLINED None w1
              (Hdirect sv1 Hvm1) Hvoh1 Hovoh1 Hov1)
    as (sv2 & w2 & g2 & mid2 & Hrun2 & _ & _ & _ & _ & _ & _ & _ & Hn2 & _).
  { rewrite Hvs1. discriminate. }
  { now right. }
  revert Hrun2. decide_consts. intros Hrun2.
  rewrite Hlocal in Hn1, Hn2. rewrite Hname1 in Hn2. fold key in Hn1, Hn2.
  eexists sv1, w1, sv2, w2, _, _.
  split; [exact Hrun1|]. split; [exact Hn1|].
  split; [reflexivity|]. split; [reflexivity|].
  split; [exact Hrun2|].
  split; [rewrite Hn2, Hn1; apply insert_insert_eq|].
  cbn [reply_notification snd dict_get]. rewrite Hname1.
  now repeat split.
Qed.

Lemma decline_replaces_accept_reply_witness :
  exists (sv1 : View) (w1 : World) (sv2 : View) (w2 : World)
         (n2 : PyDict * PyDict),
    acceptShare
      (makeView Sample.home02 (Sample.world [Sample.own01; Sample.invited02])
         Sample.invited02)
      (Some "my copy"%string)
      (Sample.world [Sample.own01; Sample.invited02]) = Ok sv1 w1 /\
    declineShare sv1 w1 = Ok sv2 w2 /\
    w_notifications w2 =
      <[("user01"%string, "share-02-reply"%string) := n2]>
        (w_notifications (Sample.world [Sample.own01; Sample.invited02])) /\
    dict_get "status" (snd n2) = Some (PyStatus _BIND_STATUS_DECLINED).
Proof.
  destruct (decline_replaces_accept_reply
              (Sample.world [Sample.own01; Sample.invited02])
              Sample.calendar01 "user02" Sample.home02 _BIND_MODE_READ
              _BIND_STATUS_INVITED
              (makeView Sample.home02
                 (Sample.world [Sample.own01; Sample.invited02])
                 Sample.invited02)
              (Some "my copy"%string))
    as (sv1 & w1 & sv2 & w2 & n1 & n2 & Hacc & _ & _ & _ & Hdec & Hn & _ & _
        & Hs & _).
  - split.
    { split; [reflexivity|]. split; [reflexivity|]. split; [reflexivity|].
      exists Sample.own01. split; [reflexivity|]. split; reflexivity. }
    split; [discriminate|]. split; [reflexivity|]. split; [discriminate|].
    exists Sample.invited02. split; [reflexivity|]. split; reflexivity.
  - repeat split; reflexivity.
  - discriminate.
  - discriminate.
  - discriminate.
  - reflexivity.
  - exists sv1, w1, sv2, w2, n2. split; [exact Hacc|]. split; [exact Hdec|].
    split; [exact Hn|exact Hs].
Defined.

(** ** Inviting the owner, inviting again *)

(** X15.  An invitation of the owner itself cannot succeed.  [shareeView] never
    gives the owner's own collection, so [inviteUIDToShare] and
    [directShareWithUser] with the owner's UID go on to create a share; the
    insert of a second bind of the collection in the owner's home fails, the
    fallback updates the bind that is there, which is the owner's, and the
    sharee's view is then not found: the call fails on [None] with an
    [AttributeError], the owner's bind carrying by then the mode and the
    status of the share that was asked for. *)
Theorem invite_owner_itself_fails :
  forall (self : View) (mode : BindMode) (summary shareName : option string)
         (w : World),
    owns w self ->
    find_home (h_homeType (_home self)) (h_uid (_home self)) (w_homes w)
      = Some (_home self) ->
    let uid := h_uid (_home self) in
    let rid := _resourceID self in
    let hid := h_resourceID (_home self) in
    shareeView self uid w = Ok None w /\
    (exists (w' : World) (r' : BindRow),
       inviteUIDToShare self uid mode summary shareName w
         = Raise AttributeError w' /\
       binds_of rid hid w' = [r'] /\
       BIND_MODE r' = mode /\
       BIND_STATUS r' = created_status mode) /\
    (exists (w' : World) (r' : BindRow),
       directShareWithUser self uid shareName w = Raise AttributeError w' /\
       binds_of rid hid w' = [r'] /\
       BIND_MODE r' = _BIND_MODE_DIRECT /\
       BIND_STATUS r' = _BIND_STATUS_ACCEPTED).
Proof.
  intros self mode summary shareName w Howns Hfind uid rid hid.
  pose proof Howns as (Hown & Hoh & _ & own & Hone & _).
  assert (Hnone : forall v w0, _home v = _home self ->
                               shareeView v uid w0 = Ok None w0).
  { intros v w0 Hv. unfold shareeView. rewrite Hv. fold uid.
    now rewrite String.eqb_refl. }
  assert (Hcreate : forall m s n,
    exists (w' : World) (r' : BindRow),
      createShare self uid m s n w = Ok (None, setShared_view self) w' /\
      binds_of rid hid w' = [r'] /\
      BIND_MODE r' = m /\
      BIND_STATUS r' = created_status m).
  { intros m s n.
    destruct (shareWith_race self (_home self) m (Some (created_status m)) s n
                w (makeView (_home self) w own) Hown
                (allChildWithID_single _ _ _ _ Hone))
      as (_ & _ & _ & self' & w' & Hrun & -> & _ & _ & Hrows).
    destruct (Hrows own Hone) as (r' & Hr' & Hm' & Hs' & _).
    exists w', r'. split.
    { unfold createShare, ownerHome. rewrite Hoh. mrun.
      rewrite (bind_Ok _ _ _ _ _
                 (homeWithUID_present _ _ true w (_home self) Hfind)).
      mrun. unfold created_status in Hrun.
      rewrite (bind_Ok _ _ _ _ _ Hrun). proj.
      rewrite (bind_Ok _ _ _ _ _
                 (Hnone (setShared_view self) w'
                    (proj1 (proj2 (proj2 (setShared_view_fixed self)))))).
      reflexivity. }
    split; [exact Hr'|]. split; [exact Hm'|exact Hs']. }
  split; [now apply Hnone|]. split.
  - destruct (Hcreate mode summary shareName)
      as (w' & r' & Hrun & Hr' & Hm' & Hs').
    exists w', r'. split; [|now repeat split].
    unfold inviteUIDToShare.
    rewrite (bind_Ok _ _ _ _ _ (Hnone self w eq_refl)).
    rewrite (bind_Ok _ _ _ _ _ Hrun). reflexivity.
  - destruct (Hcreate _BIND_MODE_DIRECT None shareName)
      as (w' & r' & Hrun & Hr' & Hm' & Hs').
    exists w', r'. split; [|now repeat split].
    unfold directShareWithUser.
    rewrite (bind_Ok _ _ _ _ _ (Hnone self w eq_refl)).
    rewrite (bind_Ok _ _ _ _ _ Hrun). reflexivity.
Qed.

Lemma invite_owner_itself_fails_witness :
  exists (w' : World) (r' : BindRow),
    inviteUIDToShare Sample.calendar01 "user01" _BIND_MODE_READ None None
      (Sample.world [Sample.own01]) = Raise AttributeError w' /\
    binds_of 10 1 w' = [r'] /\
    BIND_MODE r' = _BIND_MODE_READ.
Proof.
  destruct (proj1 (proj2
              (invite_owner_itself_fails Sample.calendar01 _BIND_MODE_READ
                 None None (Sample.world [Sample.own01])
                 (conj eq_refl
                    (conj eq_refl
                       (conj eq_refl
                          (ex_intro _ Sample.own01
                             (conj eq_refl (conj eq_refl eq_refl))))))
                 eq_refl)))
    as (w' & r' & Hrun & Hr' & Hm' & _).
  exists w', r'. split; [exact Hrun|]. split; [exact Hr'|exact Hm'].
Defined.

Lemma shareeView_home (self : View) (uid : string) (w : World) (sv : View) :
  shareeView self uid w = Ok (Some sv) w ->
  h_uid (_home sv) = uid.
Proof.
  rewrite shareeView_run. intros [= H].
  destruct (String.eqb (h_uid (_home self)) uid); [discriminate|].
  destruct (find_home _ uid (w_homes w)) as [h|] eqn:Hf; [|discriminate].
  unfold findView in H.
  destruct (List.find _ (w_binds w)) as [r|]; [|discriminate].
  injection H as <-. cbn [makeView _home].
  now destruct (find_home_spec _ _ _ _ Hf).
Qed.

(** X16.  An invitation repeated.  [inviteUIDToShare] for a principal who already
    has a bind of the collection keeps the name of the share (the name
    asked for is not used) and tells the sharee again.  A local sharee gets
    the invite notification of the share rewritten, under the same UID, with
    the mode asked for, the status the bind is left with and the message
    now in force; nothing goes to another pod for it.  For an external
    sharee no notification is written, and the last thing done is the
    invite sent to the sharee's pod, with the mode asked for. *)
Theorem reinvite_notifies :
  forall (self : View) (uid : string) (mode : BindMode)
         (summary shareName : option string) (w : World) (sv : View)
         (oh : Home),
    shareeView self uid w = Ok (Some sv) w ->
    _ownerHome sv = Some oh ->
    let status' := reinvited_status (_bindStatus sv) in
    let message' :=
      match summary with Some s => Some s | None => _bindMessage sv end in
    let inbox := (uid, _name sv) in
    exists (sv' : View) (w' : World),
      inviteUIDToShare self uid mode summary shareName w = Ok (sv', self) w' /\
      _name sv' = _name sv /\
      (h_external (_home sv) = false ->
       exists ntype ndata : PyDict,
         w_notifications w' =
           <[inbox := (ntype, ndata)]> (w_notifications w) /\
         dict_get "notification-type" ndata =
           Some (PyStr "invite-notification") /\
         dict_get "owner" ndata = Some (PyStr (h_uid oh)) /\
         dict_get "sharee" ndata = Some (PyStr uid) /\
         dict_get "uid" ndata = Some (PyStr (_name sv)) /\
         dict_get "status" ndata = Some (PyStatus status') /\
         dict_get "access" ndata = Some (PyMode mode) /\
         dict_get "summary" ndata = Some (py_opt message')) /\
      (h_external (_home sv) = true ->
       w_notifications w' = w_notifications w /\
       exists (before : list Event) (e : Event),
         w_trace w' = before ++ [e] /\
         is_invite_to uid (_name sv) mode e).
Proof.
  intros self uid mode summary shareName w sv oh Hsv Hoh status' message'
    inbox.
  pose proof (shareeView_home self uid w sv Hsv) as Huid.
  destruct (shareeView_found_inv _ _ _ _ Hsv) as (r0 & rest & Hb0 & Hmk & Hr0).
  assert (Hrid : _resourceID sv = _resourceID self)
    by (rewrite Hmk; cbn; exact Hr0).
  assert (Hrm : BIND_MODE r0 = _bindMode sv) by (now rewrite Hmk).
  assert (Hrs : BIND_STATUS r0 = _bindStatus sv) by (now rewrite Hmk).
  set (status :=
         if bool_decide (shareStatus sv = _BIND_STATUS_DECLINED) ||
            bool_decide (shareStatus sv = _BIND_STATUS_INVALID)
         then Some _BIND_STATUS_INVITED else None).
  destruct (updateShare_effect self sv (Some mode) status summary w Hrid)
    as (sv' & w1 & g & Hrun & _ & Hn1 & Hfix & Hchg & _).
  destruct (reinvite_columnMap sv r0 mode summary Hrm Hrs)
    as (Hcm1 & Hcm2 & Hcm3).
  fold status in Hcm1, Hcm2, Hcm3.
  destruct Hfix as (Hf1 & Hf2 & _ & _ & Hf5).
  destruct Hchg as (Hc1 & Hc2 & Hc3).
  rewrite <- Hrm in Hc1. rewrite <- Hrs in Hc2.
  rewrite Hcm1 in Hc1. rewrite Hcm2, Hrs in Hc2. rewrite Hcm3 in Hc3.
  assert (Hoh' : _ownerHome sv' = Some oh) by congruence.
  assert (Hhead : forall w',
    (if h_external (_home sv) then _sendExternalInvite self sv'
     else _sendInviteNotification self sv' None) w1 = Ok tt w' ->
    inviteUIDToShare self uid mode summary shareName w = Ok (sv', self) w').
  { intros w' Hdisp. unfold inviteUIDToShare.
    rewrite (bind_Ok _ _ _ _ _ Hsv).
    fold status. rewrite bind_assoc. rewrite (bind_Ok _ _ _ _ _ Hrun). mrun.
    unfold viewerHome. rewrite Hf1.
    rewrite (bind_Ok _ _ _ _ _ Hdisp). reflexivity. }
  destruct (h_external (_home sv)) eqn:Hext.
  - destruct (_sendExternalInvite_run self sv' oh w1 Hoh')
      as (e & Hsend & He).
    eexists sv', _. split; [apply Hhead; exact Hsend|].
    split; [exact Hf5|]. split; [discriminate|]. intros _.
    split; [exact Hn1|].
    exists (w_trace w1), e. split; [reflexivity|].
    now rewrite Hf1, Huid, Hf5, Hc1 in He.
  - pose proof (_sendInviteNotification_run self sv' oh None w1 Hoh')
      as Hsend.
    eexists sv', _. split; [apply Hhead; exact Hsend|].
    split; [exact Hf5|]. split; [|discriminate]. intros _.
    exists (fst (invite_notification self sv' oh None w1)),
           (snd (invite_notification self sv' oh None w1)).
    split.
    { proj. rewrite Hn1, Hf1, Huid, Hf5.
      now destruct (invite_notification self sv' oh None w1). }
    unfold invite_notification. decide_consts. proj.
    rewrite Hf1, Huid, Hf5, Hc1, Hc2, Hc3.
    destruct (env_hasSupportedComponents (w_env w1)); repeat split.
Qed.

Lemma reinvite_notifies_witness :
  exists (sv' : View) (w' : World) (ntype ndata : PyDict),
    inviteUIDToShare Sample.calendar01 "user02" _BIND_MODE_WRITE None None
      (Sample.world [Sample.own01; Sample.accepted02])
    = Ok (sv', Sample.calendar01) w' /\
    w_notifications w' =
      <[("user02"%string, "share-02"%string) := (ntype, ndata)]>
        (w_notifications (Sample.world [Sample.own01; Sample.accepted02])) /\
    dict_get "status" ndata = Some (PyStatus _BIND_STATUS_ACCEPTED) /\
    dict_get "access" ndata = Some (PyMode _BIND_MODE_WRITE).
Proof.
  destruct (reinvite_notifies Sample.calendar01 "user02" _BIND_MODE_WRITE
              None None (Sample.world [Sample.own01; Sample.accepted02])
              (makeView Sample.home02
                 (Sample.world [Sample.own01; Sample.accepted02])
                 Sample.accepted02)
              Sample.home01 eq_refl eq_refl)
    as (sv' & w' & Hrun & _ & Hlocal & _).
  destruct (Hlocal eq_refl)
    as (ntype & ndata & Hn & _ & _ & _ & _ & Hs & Ha & _).
  exists sv', w', ntype, ndata. split; [exact Hrun|]. split; [exact Hn|].
  split; [exact Hs|exact Ha].
Defined.

(** ** An update repeated *)

Lemma updateShare_view_requested (sv : View) (mode : option BindMode)
  (status : option BindStatus) (summary : option string) (rev : Z) :
  let sv' := updateShare_view sv
               (updateShare_columnMap sv mode status summary) rev in
  (forall m, mode = Some m -> _bindMode sv' = m) /\
  (forall s, status = Some s -> _bindStatus sv' = s) /\
  (forall t, summary = Some t -> _bindMessage sv' = Some t).
Proof.
  intros sv'.
  destruct (updateShare_view_changed sv
              (updateShare_columnMap sv mode status summary) rev)
    as (Hm & Hs & Ht).
  fold sv' in Hm, Hs, Ht. unfold updateShare_columnMap in Hm, Hs, Ht.
  cbn [cm_BIND_MODE cm_BIND_STATUS cm_MESSAGE] in Hm, Hs, Ht.
  split; [|split].
  - intros m ->. rewrite Hm. case_bool_decide as Hd; [reflexivity|].
    destruct (decide (m = _bindMode sv)) as [->|Hne];
      [reflexivity|now elim Hd].
  - intros s ->. rewrite Hs. case_bool_decide as Hd; [reflexivity|].
    destruct (decide (s = _bindStatus sv)) as [->|Hne];
      [reflexivity|now elim Hd].
  - intros t ->. rewrite Ht. case_bool_decide as Hd; [reflexivity|].
    destruct (decide (Some t = _bindMessage sv)) as [->|Hne];
      [reflexivity|now elim Hd].
Qed.

Lemma updateShare_columnMap_settled (sv : View) (mode : option BindMode)
  (status : option BindStatus) (summary : option string) :
  (forall m, mode = Some m -> _bindMode sv = m) ->
  (forall s, status = Some s -> _bindStatus sv = s) ->
  (forall t, summary = Some t -> _bindMessage sv = Some t) ->
  columnMap_nonempty (updateShare_columnMap sv mode status summary) = false.
Proof.
  intros Hm Hs Ht. unfold updateShare_columnMap, columnMap_nonempty.
  cbn [cm_BIND_MODE cm_BIND_STATUS cm_MESSAGE].
  destruct mode as [m|].
  - rewrite (bool_decide_eq_false_2 (m <> _bindMode sv))
      by (intros H; apply H; symmetry; now apply Hm).
    destruct status as [s|].
    + rewrite (bool_decide_eq_false_2 (s <> _bindStatus sv))
        by (intros H; apply H; symmetry; now apply Hs).
      destruct summary as [t|]; [|reflexivity].
      now rewrite (bool_decide_eq_false_2 (Some t <> _bindMessage sv))
        by (intros H; apply H; symmetry; now apply Ht).
    + destruct summary as [t|]; [|reflexivity].
      now rewrite (bool_decide_eq_false_2 (Some t <> _bindMessage sv))
        by (intros H; apply H; symmetry; now apply Ht).
  - destruct status as [s|].
    + rewrite (bool_decide_eq_false_2 (s <> _bindStatus sv))
        by (intros H; apply H; symmetry; now apply Hs).
      destruct summary as [t|]; [|reflexivity].
      now rewrite (bool_decide_eq_false_2 (Some t <> _bindMessage sv))
        by (intros H; apply H; symmetry; now apply Ht).
    + destruct summary as [t|]; [|reflexivity].
      now rewrite (bool_decide_eq_false_2 (Some t <> _bindMessage sv))
        by (intros H; apply H; symmetry; now apply Ht).
Qed.

(** X17.  [updateShare] is idempotent.  After a call, the sharee's view has the
    mode, the status and the message that were given, so that the same call
    on the view it left finds nothing to change: it writes nothing, issues
    no event and leaves the state and the view as they are. *)
Theorem updateShare_idempotent :
  forall (self sv : View) (mode : option BindMode)
         (status : option BindStatus) (summary : option string) (w : World),
    exists (sv' : View) (w' : World),
      updateShare self sv mode status summary w = Ok sv' w' /\
      (forall m, mode = Some m -> _bindMode sv' = m) /\
      (forall s, status = Some s -> _bindStatus sv' = s) /\
      (forall t, summary = Some t -> _bindMessage sv' = Some t) /\
      updateShare self sv' mode status summary w' = Ok sv' w'.
Proof.
  intros self sv mode status summary w.
  destruct (columnMap_nonempty (updateShare_columnMap sv mode status summary))
    eqn:Hcm.
  - destruct (updateShare_changed self sv mode status summary w Hcm)
      as (w' & mid & Hrun & _).
    destruct (updateShare_view_requested sv mode status summary
                (w_revisionSeq w)) as (Hm & Hs & Ht).
    eexists _, w'. split; [exact Hrun|].
    split; [exact Hm|]. split; [exact Hs|]. split; [exact Ht|].
    apply updateShare_unchanged.
    now apply updateShare_columnMap_settled.
  - pose proof (updateShare_unchanged self sv mode status summary w Hcm)
      as Hrun.
    assert (Hreq :
      (forall m, mode = Some m -> _bindMode sv = m) /\
      (forall s, status = Some s -> _bindStatus sv = s) /\
      (forall t, summary = Some t -> _bindMessage sv = Some t)).
    { assert (Hnone :
        cm_BIND_MODE (updateShare_columnMap sv mode status summary) = None /\
        cm_BIND_STATUS (updateShare_columnMap sv mode status summary) = None /\
        cm_MESSAGE (updateShare_columnMap sv mode status summary) = None).
      { unfold columnMap_nonempty in Hcm.
        destruct (cm_BIND_MODE _), (cm_BIND_STATUS _), (cm_MESSAGE _);
          try discriminate Hcm. now repeat split. }
      destruct Hnone as (Hn1 & Hn2 & Hn3).
      unfold updateShare_columnMap in Hn1, Hn2, Hn3.
      cbn [cm_BIND_MODE cm_BIND_STATUS cm_MESSAGE] in Hn1, Hn2, Hn3.
      split; [|split].
      - intros m ->. case_bool_decide as Hd; [discriminate Hn1|].
        destruct (decide (m = _bindMode sv)) as [->|Hne];
          [reflexivity|now elim Hd].
      - intros s ->. case_bool_decide as Hd; [discriminate Hn2|].
        destruct (decide (s = _bindStatus sv)) as [->|Hne];
          [reflexivity|now elim Hd].
      - intros t ->. case_bool_decide as Hd; [discriminate Hn3|].
        destruct (decide (Some t = _bindMessage sv)) as [<-|Hne];
          [reflexivity|now elim Hd]. }
    destruct Hreq as (Hm & Hs & Ht).
    exists sv, w. split; [exact Hrun|].
    split; [exact Hm|]. split; [exact Hs|]. split; [exact Ht|exact Hrun].
Qed.

(** ** A direct share given up *)

(** X18.  A direct share made and then deleted by the sharee.  With no bind of
    the collection in the sharee's home before, [directShareWithUser]
    followed by the sharee's [deleteShare] leaves the bind table with its
    former rows, keys, mode and status unchanged (the owner's collection
    stays marked as shared), the sharee's home without the child in its
    index, and the notification collections as they were: a direct share
    comes and goes without a notification. *)
Theorem direct_share_then_delete :
  forall (self : View) (uid : string) (shareName : option string)
         (w : World) (h : Home) (w0 : World),
    owns w self ->
    h_uid (_home self) <> uid ->
    homeWithUID (h_homeType (_home self)) uid true w = Ok (Some h) w0 ->
    insert_conflicts
      (new_bind self h _BIND_MODE_DIRECT _BIND_STATUS_ACCEPTED None
         (next_name shareName w))
      (w_binds w) = false ->
    exists (sv self' : View) (w1 w2 : World) (g : BindRow -> BindRow),
      directShareWithUser self uid shareName w = Ok (sv, self') w1 /\
      direct sv = true /\
      deleteShare sv w1 = Ok sv w2 /\
      gentle g /\
      w_binds w2 = map g (w_binds w) /\
      w_notifications w2 = w_notifications w /\
      w_children w2 !!
        (h_resourceID h, inl (next_name shareName w) : ChildKey) = None /\
      w_children w2 !!
        (h_resourceID h, inr (_resourceID self) : ChildKey) = None.
Proof.
  intros self uid shareName w h w0 Howns Hne Hhome Hfree.
  pose proof (createShare_new self uid _BIND_MODE_DIRECT None shareName w h w0
                Howns Hne Hhome) as Hcreate.
  cbv zeta in Hcreate.
  rewrite (bool_decide_eq_false_2 (_BIND_MODE_DIRECT <> _BIND_MODE_DIRECT))
    in Hcreate by (intros H; now apply H).
  destruct (Hcreate Hfree)
    as (wc & g & evs & Hrun & Hstep & _ & Hg & Hone & Howns1 & (oh' & Hoh')
        & Hsv).
  set (row := new_bind self h _BIND_MODE_DIRECT _BIND_STATUS_ACCEPTED None
                (next_name shareName w)) in *.
  set (sv := makeView h wc (g row)) in *.
  destruct (Hg row) as (Hgm & Hgh & Hgr & _ & Hgn & Hgs).
  destruct (setShared_view_fixed self) as (_ & Hf2 & Hf3 & _).
  destruct (homeWithUID_create_spec _ _ _ _ _ Hhome)
    as (Hfind & _ & Hb0 & _ & _ & Hn0 & _).
  destruct Hstep as (_ & Hhc & _ & _ & _ & Hnc & _ & _ & Hbc).
  assert (Hdirect : direct sv = true).
  { unfold direct. apply bool_decide_eq_true_2.
    cbn [sv makeView _bindMode]. now rewrite Hgm. }
  (* the call itself *)
  assert (Hfed : exists w1 : World,
    (if h_external (viewerHome sv)
     then _sendExternalInvite (setShared_view self) sv else ret tt)
      (setTrace
         (fun t => t ++ [NewShare (h_resourceID h) (_resourceID self) None])
         wc) = Ok tt w1 /\
    w_binds w1 = w_binds wc /\ w_homes w1 = w_homes wc /\
    w_notifications w1 = w_notifications wc).
  { destruct (h_external (viewerHome sv)).
    - destruct (_sendExternalInvite_run (setShared_view self) sv oh'
                  (setTrace
                     (fun t => t ++ [NewShare (h_resourceID h)
                                       (_resourceID self) None]) wc) Hoh')
        as (e & Hsend & _).
      eexists. split; [exact Hsend|]. now repeat split.
    - eexists. split; [reflexivity|]. now repeat split. }
  destruct Hfed as (w1 & Hfed & Hb1 & Hh1 & Hn1).
  assert (Hcall : directShareWithUser self uid shareName w
                  = Ok (sv, setShared_view self) w1).
  { unfold directShareWithUser. rewrite (bind_Ok _ _ _ _ _
      (shareeView_absent self uid h w w0 Hhome
         (proj1 (insert_conflicts_free row (w_binds w) Hfree)))).
    rewrite (bind_Ok _ _ _ _ _ Hrun). mrun.
    unfold newShare. mrun.
    change (_home sv) with h. change (_resourceID sv) with (RESOURCE_ID (g row)).
    rewrite Hgr. cbn [row new_bind RESOURCE_ID].
    rewrite (bind_Ok _ _ _ _ _ Hfed). reflexivity. }
  (* the share as the sharee sees it *)
  assert (Hshared : shared_with w1 (setShared_view self) uid h
                      _BIND_MODE_DIRECT _BIND_STATUS_ACCEPTED).
  { split; [now apply (owns_frame wc w1)|].
    split; [now rewrite Hf3|].
    split; [rewrite Hf3, Hh1, Hhc; exact Hfind|].
    split.
    { rewrite Hf3. intros Heq.
      pose proof (owner_row_elsewhere w self row Howns eq_refl Hfree) as Hno.
      unfold bind_matches in Hno.
      cbn [row new_bind RESOURCE_ID HOME_RESOURCE_ID] in Hno.
      rewrite Heq, !Z.eqb_refl in Hno. discriminate. }
    exists (g row). rewrite Hf2, (binds_of_frame _ _ wc w1 Hb1).
    split; [exact Hone|]. now split. }
  assert (Hview : sharee_view_of (setShared_view self) h _BIND_MODE_DIRECT
                    _BIND_STATUS_ACCEPTED sv).
  { unfold sharee_view_of, sv, makeView. cbn.
    rewrite (bool_decide_eq_false_2 (BIND_MODE (g row) = _BIND_MODE_OWN))
      by (rewrite Hgm; discriminate).
    rewrite Hgr. cbn [row new_bind RESOURCE_ID].
    destruct Howns1 as (_ & _ & Hres & _). rewrite Hf2 in Hres.
    rewrite Hres, Hf2. now repeat split. }
  destruct (ownerView_of_sharee w1 _ uid h _ _ sv Hshared Hview)
    as (ov & Hov & Hovoh & _).
  pose proof Hview as (_ & Hvr & Hvoh & _).
  destruct (deleteShare_direct_run sv ov (_home (setShared_view self)) w1
              Hvoh Hovoh Hov Hdirect)
    as (w2 & Hdel & Hb2 & _ & Hc1 & Hc2 & Hn2 & _).
  exists sv, (setShared_view self), w1, w2, g.
  split; [exact Hcall|]. split; [exact Hdirect|]. split; [exact Hdel|].
  split; [exact Hg|].
  split.
  { rewrite Hb2, Hb1, Hbc, Hb0. rewrite Hvr, Hf2.
    change (_home sv) with h.
    rewrite filter_map_commute
      by (intros x; f_equal; apply bind_matches_keeps, gentle_keeps, Hg).
    f_equal. rewrite filter_app_eq.
    destruct (insert_conflicts_free row (w_binds w) Hfree) as (Hnone & _).
    cbn [row new_bind RESOURCE_ID HOME_RESOURCE_ID] in Hnone.
    rewrite (filter_all_false _ _ Hnone). cbn [List.filter].
    unfold row. rewrite new_bind_matches. cbn [negb].
    apply app_nil_r. }
  split; [now rewrite Hn2, Hn1, Hnc, Hn0|].
  change (_home sv) with h in Hc1, Hc2.
  change (_name sv) with (RESOURCE_NAME (g row)) in Hc1.
  rewrite Hgn in Hc1. rewrite Hvr, Hf2 in Hc2.
  split; [exact Hc1|exact Hc2].
Qed.

Lemma direct_share_then_delete_witness :
  exists (sv self' : View) (w1 w2 : World) (g : BindRow -> BindRow),
    directShareWithUser Sample.calendar01 "puser03" (Some "share-03"%string)
      (Sample.world [Sample.own01]) = Ok (sv, self') w1 /\
    deleteShare sv w1 = Ok sv w2 /\
    gentle g /\
    w_binds w2 = map g (w_binds (Sample.world [Sample.own01])).
Proof.
  destruct (direct_share_then_delete Sample.calendar01 "puser03"
              (Some "share-03"%string) (Sample.world [Sample.own01])
              Sample.home03 (Sample.world [Sample.own01]))
    as (sv & self' & w1 & w2 & g & Hcall & _ & Hdel & Hg & Hb & _).
  - split; [reflexivity|]. split; [reflexivity|]. split; [reflexivity|].
    exists Sample.own01. split; [reflexivity|]. split; reflexivity.
  - discriminate.
  - reflexivity.
  - reflexivity.
  - exists sv, self', w1, w2, g. split; [exact Hcall|]. split; [exact Hdel|].
    split; [exact Hg|exact Hb].
Defined.
